(** * Fraud-detection dashboard scripts: a shallow embedding

  The browser scripts under [static/] ([script.js], which also carries
  [llm_explanation.js], [logs.js] and [analytics.js]) are embedded as
  Rocq functions over

  - ECMAScript numbers, modelled by the binary64 instance of the
    standard library's [spec_float];
  - ECMAScript strings, modelled by [string], one character per code
    unit (code units below 256);
  - parsed JSON, modelled by [jsval];
  - the page, modelled by a finite map from nodes to elements, with the
    timers that the scripts arm.

  Exceptions are carried by [result]; a promise chain is a function of
  the way its [fetch] settles. *)

From Stdlib Require Import ZArith Bool List Ascii String Lia.
From Stdlib Require Import Floats.SpecFloat.
From stdpp Require Import gmap strings list fin_maps pretty.

Local Open Scope string_scope.
Local Open Scope Z_scope.

Set Warnings "-register-all".

(** ** ECMAScript strings *)

Module JSString.

Definition code (c : ascii) : N := N_of_ascii c.

Definition in_range (lo hi : N) (c : ascii) : bool :=
  ((lo <=? code c) && (code c <=? hi))%N.

(** [\d] *)
Definition is_digit (c : ascii) : bool := in_range 48 57 c.

Definition digit_value (c : ascii) : Z := Z.of_N (code c) - 48.

(** [\s], which is also the white space that [parseFloat] and [trim]
    skip: TAB, LF, VT, FF, CR, SP and NBSP are its code units below 256. *)
Definition is_space (c : ascii) : bool :=
  in_range 9 13 c || (code c =? 32)%N || (code c =? 160)%N.

(** [String.prototype.toLowerCase] on one code unit. *)
Definition lower_char (c : ascii) : ascii :=
  if in_range 65 90 c
     || (in_range 192 222 c && negb (code c =? 215)%N)
  then ascii_of_N (code c + 32) else c.

Fixpoint map (f : ascii -> ascii) (s : string) : string :=
  match s with
  | EmptyString => EmptyString
  | String c r => String (f c) (map f r)
  end.

Fixpoint filter (p : ascii -> bool) (s : string) : string :=
  match s with
  | EmptyString => EmptyString
  | String c r => if p c then String c (filter p r) else filter p r
  end.

Definition toLowerCase (s : string) : string := map lower_char s.

Fixpoint startsWith (p s : string) : bool :=
  match p, s with
  | EmptyString, _ => true
  | String a p', String b s' => Ascii.eqb a b && startsWith p' s'
  | String _ _, EmptyString => false
  end.

(** [s.includes(t)] *)
Fixpoint includes (s t : string) : bool :=
  startsWith t s
  || match s with
     | EmptyString => false
     | String _ r => includes r t
     end.

Fixpoint drop (n : nat) (s : string) : string :=
  match n, s with
  | O, _ => s
  | S n', String _ r => drop n' r
  | S _, EmptyString => EmptyString
  end.

Fixpoint take (n : nat) (s : string) : string :=
  match n, s with
  | S n', String c r => String c (take n' r)
  | _, _ => EmptyString
  end.

Fixpoint trimStart (s : string) : string :=
  match s with
  | String c r => if is_space c then trimStart r else s
  | EmptyString => EmptyString
  end.

Fixpoint rev_onto (s acc : string) : string :=
  match s with
  | EmptyString => acc
  | String c r => rev_onto r (String c acc)
  end.

Definition rev (s : string) : string := rev_onto s EmptyString.

Definition trimEnd (s : string) : string := rev (trimStart (rev s)).

Definition trim (s : string) : string := trimEnd (trimStart s).

(** Longest prefix of characters satisfying [p], and the rest. *)
Fixpoint span (p : ascii -> bool) (s : string) : string * string :=
  match s with
  | String c r =>
      if p c then let '(a, b) := span p r in (String c a, b)
      else (EmptyString, s)
  | EmptyString => (EmptyString, EmptyString)
  end.

(** [s.replace(from, to)] with a string pattern: the first occurrence. *)
Fixpoint replace_first (from to s : string) : string :=
  if startsWith from s then to +:+ drop (String.length from) s
  else match s with
       | EmptyString => EmptyString
       | String c r => String c (replace_first from to r)
       end.

(** [s.replace(/c/g, to)] for a one-character class [p]. *)
Fixpoint replace_all (p : ascii -> bool) (to s : string) : string :=
  match s with
  | EmptyString => EmptyString
  | String c r =>
      if p c then to +:+ replace_all p to r
      else String c (replace_all p to r)
  end.

Fixpoint repeat (c : ascii) (n : nat) : string :=
  match n with
  | O => EmptyString
  | S n' => String c (repeat c n')
  end.

Fixpoint join (sep : string) (l : list string) : string :=
  match l with
  | [] => EmptyString
  | [x] => x
  | x :: r => x +:+ sep +:+ join sep r
  end.

(** [s.split(/\*\*|\n\n/)]: [cur] holds, reversed, the piece being read. *)
Fixpoint split_sections (s : string) (cur : string) : list string :=
  match s with
  | EmptyString => [rev cur]
  | String c1 r =>
      match r with
      | String c2 r' =>
          if (Ascii.eqb c1 "*" && Ascii.eqb c2 "*")
             || (Ascii.eqb c1 "010" && Ascii.eqb c2 "010")
          then rev cur :: split_sections r' EmptyString
          else split_sections r (String c1 cur)
      | EmptyString => split_sections r (String c1 cur)
      end
  end.

Fixpoint every (p : ascii -> bool) (s : string) : bool :=
  match s with
  | EmptyString => true
  | String c r => p c && every p r
  end.

(** The double quote, and markup written with a backquote standing for
    it. *)
Definition dquote : ascii := ascii_of_N 34.
Definition markup (s : string) : string :=
  map (fun c => if (code c =? 96)%N then dquote else c) s.

End JSString.

Arguments JSString.markup : simpl never.

(** ** ECMAScript numbers *)

Abbreviation number := spec_float.

Module Number.

Definition prec : Z := 53.
Definition emax : Z := 1024.

(** The least exponent. *)
Definition emin : Z := SpecFloat.emin prec emax.

Definition NaN : number := S754_nan.
Definition Infinity : number := S754_infinity false.
Definition zero : number := S754_zero false.

(** The Number value of a mathematical integer (round to nearest,
    ties to even). *)
Definition of_Z (z : Z) : number := binary_normalize prec emax z 0 false.

Definition isNaN (x : number) : bool :=
  match x with S754_nan => true | _ => false end.

(** [x === y], [x <= y], [x < y] and [x > y] on Numbers. *)
Definition eqb (x y : number) : bool := SFeqb x y.
Definition leb (x y : number) : bool := SFleb x y.
Definition ltb (x y : number) : bool := SFltb x y.
Definition gtb (x y : number) : bool := SFltb y x.

Definition mul (x y : number) : number := SFmul prec emax x y.
Definition div (x y : number) : number := SFdiv prec emax x y.
Definition opp (x : number) : number := SFopp x.

(** [Math.max(x, y)] and [Math.min(x, y)] *)
Definition max (x y : number) : number :=
  if isNaN x || isNaN y then NaN
  else if ltb x y then y
  else if ltb y x then x
  else match x with
       | S754_zero true => y
       | _ => x
       end.

Definition min (x y : number) : number :=
  if isNaN x || isNaN y then NaN
  else if ltb x y then x
  else if ltb y x then y
  else match x with
       | S754_zero true => x
       | _ => y
       end.

(** The Number value of the decimal [(-1)^neg * m * 10^e]: the nearest
    binary64 value, ties to even. *)
Definition of_decimal (neg : bool) (m e : Z) : number :=
  match m with
  | Z0 => S754_zero neg
  | Zpos p =>
      if 0 <=? e then binary_round prec emax neg (p * Z.to_pos (10 ^ e)) 0
      else
        let '(q, e', l) :=
          SFdiv_core_binary prec emax (Zpos p) 0 (10 ^ (- e)) 0 in
        binary_round_aux prec emax neg q e' l
  | Zneg _ => S754_nan
  end.

(** *** Reading numbers *)

Definition digits_value (s : string) : Z :=
  let fix go (acc : Z) (s : string) : Z :=
    match s with
    | EmptyString => acc
    | String c r => go (10 * acc + JSString.digit_value c) r
    end in
  go 0 s.

Definition is_exp_mark (c : ascii) : bool :=
  Ascii.eqb c "e" || Ascii.eqb c "E".

(** [ExponentPart], when one is there: its value and what follows. *)
Definition exponent_part (s : string) : option (Z * string) :=
  match s with
  | String c r =>
      if is_exp_mark c then
        let '(neg, r') :=
          match r with
          | String "-" r' => (true, r')
          | String "+" r' => (false, r')
          | _ => (false, r)
          end in
        let '(ds, rest) := JSString.span JSString.is_digit r' in
        match ds with
        | EmptyString => None
        | _ => Some (if neg then - digits_value ds else digits_value ds, rest)
        end
      else None
  | EmptyString => None
  end.

(** The longest prefix that is a [StrDecimalLiteral], as a Number, and
    what follows it. *)
Definition decimal_prefix (s : string) : option (number * string) :=
  let '(neg, s0) :=
    match s with
    | String "-" r => (true, r)
    | String "+" r => (false, r)
    | _ => (false, s)
    end in
  if JSString.startsWith "Infinity" s0
  then Some (S754_infinity neg, JSString.drop 8 s0)
  else
    let '(ip, s1) := JSString.span JSString.is_digit s0 in
    let '(fp, s2) :=
      match s1 with
      | String "." r =>
          match ip, JSString.span JSString.is_digit r with
          | EmptyString, (EmptyString, _) => (EmptyString, s1)
          | _, sp => sp
          end
      | _ => (EmptyString, s1)
      end in
    match (ip +:+ fp)%string with
    | EmptyString => None
    | ds =>
        let '(ex, rest) :=
          match exponent_part s2 with
          | Some (x, rest) => (x, rest)
          | None => (0, s2)
          end in
        Some (of_decimal neg (digits_value ds)
                         (ex - Z.of_nat (String.length fp)), rest)
    end.

(** [parseFloat(string)] *)
Definition parseFloat (input : string) : number :=
  match decimal_prefix (JSString.trimStart input) with
  | Some (x, _) => x
  | None => NaN
  end.

(** *** Printing numbers *)

Definition digits_of (n : Z) : string := pretty (Z.to_N n).

(** [m * 2^e] as a fraction scaled by [10^d]: numerator, denominator. *)
Definition scaled (m : positive) (e d : Z) : Z * Z :=
  (Zpos m * 2 ^ Z.max e 0 * 10 ^ Z.max d 0,
   2 ^ Z.max (- e) 0 * 10 ^ Z.max (- d) 0).

(** [m * 2^e < 10^n] *)
Definition below_pow10 (m : positive) (e n : Z) : bool :=
  let '(a, b) := scaled m e (- n) in a <? b.

(** The least [n], from [n0] on, with [m * 2^e < 10^n]. *)
Fixpoint magnitude (fuel : nat) (m : positive) (e n0 : Z) : Z :=
  match fuel with
  | O => n0
  | S fuel' =>
      if below_pow10 m e n0 then n0 else magnitude fuel' m e (n0 + 1)
  end.

(** The digits [s], [k] of them, and the exponent [n] that
    Number::toString selects for the positive value [m * 2^e]: the
    fewest digits that read back as the same Number, and among those
    the closest to it. [n0] is its magnitude. *)
Fixpoint shortest (fuel : nat) (m : positive) (e n0 k : Z) : Z * Z * Z :=
  let '(a, b) := scaled m e (k - n0) in
  let lo := a / b in
  let hi := lo + 1 in
  let back s := SFeqb (of_decimal false s (n0 - k))
                      (S754_finite false m e) in
  let pick s := if s =? 10 ^ k then (10 ^ (k - 1), k, n0 + 1) else (s, k, n0) in
  let nearer :=
    match 2 * (a mod b) ?= b with
    | Lt => lo
    | Gt => hi
    | Eq => if Z.even lo then lo else hi
    end in
  match fuel with
  | O => pick nearer
  | S fuel' =>
      match back lo, back hi with
      | true, true => pick nearer
      | true, false => pick lo
      | false, true => pick hi
      | false, false => shortest fuel' m e n0 (k + 1)
      end
  end.

Definition exponent_suffix (n : Z) : string :=
  "e" +:+ (if 0 <=? n - 1 then "+" else "-") +:+ digits_of (Z.abs (n - 1)).

Definition layout (s k n : Z) : string :=
  let ds := digits_of s in
  if (k <=? n) && (n <=? 21) then
    ds +:+ JSString.repeat "0" (Z.to_nat (n - k))
  else if (0 <? n) && (n <=? 21) then
    JSString.take (Z.to_nat n) ds +:+ "." +:+ JSString.drop (Z.to_nat n) ds
  else if (-6 <? n) && (n <=? 0) then
    "0." +:+ JSString.repeat "0" (Z.to_nat (- n)) +:+ ds
  else if k =? 1 then ds +:+ exponent_suffix n
  else JSString.take 1 ds +:+ "." +:+ JSString.drop 1 ds +:+ exponent_suffix n.

(** Number::toString(x), radix 10. *)
Definition toString (x : number) : string :=
  match x with
  | S754_nan => "NaN"
  | S754_zero _ => "0"
  | S754_infinity s => if s then "-Infinity" else "Infinity"
  | S754_finite sg m0 e0 =>
      match binary_round prec emax false m0 e0 with
      | S754_finite _ m e =>
          let n0 := magnitude 700 m e (-330) in
          let '(s, k, n) := shortest 16 m e n0 1 in
          (if sg then "-" else "") +:+ layout s k n
      | S754_infinity _ => if sg then "-Infinity" else "Infinity"
      | _ => "0"
      end
  end.

(** [x.toFixed(f)]: Number.prototype.toFixed. *)
Definition toFixed (x : number) (f : nat) : string :=
  match x with
  | S754_finite sg m e =>
      if below_pow10 m e 21 then
        let '(a, b) := scaled m e (Z.of_nat f) in
        let n := (2 * a + b) / (2 * b) in
        let ds := digits_of n in
        let k := String.length ds in
        let ds' := if (k <=? f)%nat
                   then JSString.repeat "0" (f + 1 - k) +:+ ds else ds in
        let cut := (String.length ds' - f)%nat in
        (if sg then "-" else "") +:+
        (if (f =? 0)%nat then ds
         else JSString.take cut ds' +:+ "." +:+ JSString.drop cut ds')
      else toString x
  | S754_zero _ =>
      if (f =? 0)%nat then "0" else "0." +:+ JSString.repeat "0" f
  | _ => toString x
  end.

End Number.

Arguments Number.toString : simpl never.
Arguments Number.toFixed : simpl never.
Arguments Number.parseFloat : simpl never.
Arguments Number.of_Z : simpl never.

(** ** Exceptions *)

Inductive exn := TypeError | SyntaxError | NetworkError.

Inductive result (A : Type) :=
| Ok (a : A)
| Throw (e : exn).
Arguments Ok {A} a.
Arguments Throw {A} e.

Definition bind {A B} (r : result A) (f : A -> result B) : result B :=
match r with
| Ok a => f a
| Throw e => Throw e
end.

Notation "'let*' x ':=' r 'in' k" := (bind r (fun x => k))
(at level 10, x pattern, r at level 100, k at level 200).

(** ** Values read from JSON *)

Inductive jsval :=
| JUndefined
| JNull
| JBool (b : bool)
| JNum (x : number)
| JStr (s : string)
| JArr (items : list jsval)
| JObj (fields : list (string * jsval)).

Module JS.

Fixpoint lookup (k : string) (fields : list (string * jsval)) : jsval :=
  match fields with
  | [] => JUndefined
  | (k', v) :: r => if String.eqb k k' then v else lookup k r
  end.

(** [v.k]: reading a property of [undefined] or [null] throws. *)
Definition get (v : jsval) (k : string) : result jsval :=
  match v with
  | JUndefined | JNull => Throw TypeError
  | JObj fields => Ok (lookup k fields)
  | JArr items =>
      Ok (if String.eqb k "length"
          then JNum (Number.of_Z (Z.of_nat (List.length items)))
          else JUndefined)
  | JStr s =>
      Ok (if String.eqb k "length"
          then JNum (Number.of_Z (Z.of_nat (String.length s)))
          else JUndefined)
  | JBool _ | JNum _ => Ok JUndefined
  end.

(** [v[i]] for an index [i]. *)
Definition get_index (v : jsval) (i : nat) : result jsval :=
  match v with
  | JUndefined | JNull => Throw TypeError
  | JArr items => Ok (nth i items JUndefined)
  | JObj fields => Ok (lookup (pretty i) fields)
  | JStr s =>
      Ok match JSString.take 1 (JSString.drop i s) with
         | EmptyString => JUndefined
         | c => JStr c
         end
  | JBool _ | JNum _ => Ok JUndefined
  end.

(** [v?.k] *)
Definition get_opt (v : jsval) (k : string) : jsval :=
  match get v k with
  | Ok x => x
  | Throw _ => JUndefined
  end.

(** ToBoolean *)
Definition truthy (v : jsval) : bool :=
  match v with
  | JUndefined | JNull => false
  | JBool b => b
  | JNum x =>
      match x with
      | S754_zero _ | S754_nan => false
      | _ => true
      end
  | JStr s =>
      match s with
      | EmptyString => false
      | _ => true
      end
  | JArr _ | JObj _ => true
  end.

(** [a || b] *)
Definition or (a b : jsval) : jsval := if truthy a then a else b.

(** ToString *)
Fixpoint ToString (v : jsval) : string :=
  match v with
  | JUndefined => "undefined"
  | JNull => "null"
  | JBool b => if b then "true" else "false"
  | JNum x => Number.toString x
  | JStr s => s
  | JArr items =>
      JSString.join ","
        (List.map (fun i => match i with
                            | JUndefined | JNull => EmptyString
                            | _ => ToString i
                            end) items)
  | JObj _ => "[object Object]"
  end.

Definition radix_digit (radix : N) (c : ascii) : option Z :=
  let d :=
    if JSString.is_digit c then Some (JSString.code c - 48)%N
    else if JSString.in_range 97 102 c then Some (JSString.code c - 87)%N
    else if JSString.in_range 65 70 c then Some (JSString.code c - 55)%N
    else None in
  match d with
  | Some n => if (n <? radix)%N then Some (Z.of_N n) else None
  | None => None
  end.

(** The value of a non-empty string of digits in [radix]. *)
Definition radix_value (radix : N) (s : string) : option Z :=
  let fix go (acc : Z) (s : string) : option Z :=
    match s with
    | EmptyString => Some acc
    | String c r =>
        match radix_digit radix c with
        | Some d => go (Z.of_N radix * acc + d) r
        | None => None
        end
    end in
  match s with
  | EmptyString => None
  | _ => go 0 s
  end.

(** StringToNumber *)
Definition StringToNumber (s : string) : number :=
  let t := JSString.trim s in
  let radix_literal (radix : N) (r : string) : number :=
    match radix_value radix r with
    | Some z => Number.of_Z z
    | None => Number.NaN
    end in
  match t with
  | EmptyString => Number.zero
  | String "0" (String c r) =>
      if Ascii.eqb c "x" || Ascii.eqb c "X" then radix_literal 16%N r
      else if Ascii.eqb c "o" || Ascii.eqb c "O" then radix_literal 8%N r
      else if Ascii.eqb c "b" || Ascii.eqb c "B" then radix_literal 2%N r
      else match Number.decimal_prefix t with
           | Some (x, EmptyString) => x
           | _ => Number.NaN
           end
  | _ =>
      match Number.decimal_prefix t with
      | Some (x, EmptyString) => x
      | _ => Number.NaN
      end
  end.

(** ToNumber *)
Definition ToNumber (v : jsval) : number :=
  match v with
  | JUndefined => Number.NaN
  | JNull => Number.zero
  | JBool b => if b then Number.of_Z 1 else Number.zero
  | JNum x => x
  | JStr s => StringToNumber s
  | JArr _ | JObj _ => StringToNumber (ToString v)
  end.

(** [v.toFixed(f)]: only Numbers have the method. *)
Definition toFixed (v : jsval) (f : nat) : result string :=
  match v with
  | JNum x => Ok (Number.toFixed x f)
  | _ => Throw TypeError
  end.

(** [v.toLowerCase()]: only strings have the method. *)
Definition toLowerCase (v : jsval) : result string :=
  match v with
  | JStr s => Ok (JSString.toLowerCase s)
  | _ => Throw TypeError
  end.

(** [v === 'literal'] *)
Definition is_string (v : jsval) (t : string) : bool :=
  match v with
  | JStr c => String.eqb c t
  | _ => false
  end.

(** [v === 0] *)
Definition is_zero (v : jsval) : bool :=
  match v with
  | JNum x => Number.eqb x Number.zero
  | _ => false
  end.

(** [v.length > 0] once [v.length] has been read. *)
Definition positive (len : jsval) : bool :=
  Number.gtb (ToNumber len) Number.zero.

(** [v.slice(a, b)] for [0 <= a <= b]: arrays and strings have the
    method. *)
Definition slice (v : jsval) (a b : nat) : result jsval :=
  match v with
  | JArr items => Ok (JArr (firstn (b - a) (skipn a items)))
  | JStr s => Ok (JStr (JSString.take (b - a) (JSString.drop a s)))
  | _ => Throw TypeError
  end.

Fixpoint mapM {A B} (f : A -> result B) (l : list A) : result (list B) :=
  match l with
  | [] => Ok []
  | x :: r =>
      let* y := f x in
      let* ys := mapM f r in
      Ok (y :: ys)
  end.

(** [v.map(f)]: only arrays have the method. The callback runs on the
    items in order and the first exception ends the call. *)
Definition map (v : jsval) (f : jsval -> result string)
  : result (list string) :=
  match v with
  | JArr items => mapM f items
  | _ => Throw TypeError
  end.

Definition hex_char (n : N) : ascii :=
  ascii_of_N (if (n <? 10)%N then n + 48 else n + 87).

(** QuoteJSONString, on one code unit. *)
Definition quote_char (c : ascii) : string :=
  let n := JSString.code c in
  let esc (x : ascii) := String "\" (String x EmptyString) in
  if (n =? 34)%N then esc JSString.dquote
  else if (n =? 92)%N then esc "\"%char
  else if (n =? 8)%N then esc "b"%char
  else if (n =? 12)%N then esc "f"%char
  else if (n =? 10)%N then esc "n"%char
  else if (n =? 13)%N then esc "r"%char
  else if (n =? 9)%N then esc "t"%char
  else if (n <? 32)%N then
    "\u00" +:+ String (hex_char (n / 16)) (String (hex_char (n mod 16)) EmptyString)
  else String c EmptyString.

Fixpoint quote_body (s : string) : string :=
  match s with
  | EmptyString => EmptyString
  | String c r => quote_char c +:+ quote_body r
  end.

Definition quote (s : string) : string :=
  String JSString.dquote (quote_body s) +:+ String JSString.dquote EmptyString.

(** [JSON.stringify(v)]; [None] is [undefined]. *)
Fixpoint stringify (v : jsval) : option string :=
  match v with
  | JUndefined => None
  | JNull => Some "null"
  | JBool b => Some (if b then "true" else "false")
  | JNum x =>
      Some match x with
           | S754_nan | S754_infinity _ => "null"
           | _ => Number.toString x
           end
  | JStr s => Some (quote s)
  | JArr items =>
      Some ("[" +:+ JSString.join ","
              (List.map (fun i => match stringify i with
                                  | Some t => t
                                  | None => "null"
                                  end) items) +:+ "]")
  | JObj fields =>
      let fix members (fs : list (string * jsval)) : list string :=
        match fs with
        | [] => []
        | (k, x) :: r =>
            match stringify x with
            | Some t => (quote k +:+ ":" +:+ t) :: members r
            | None => members r
            end
        end in
      Some ("{" +:+ JSString.join "," (members fields) +:+ "}")
  end.

End JS.

(** ** The page *)

(** A node with an [id] attribute is named by it; the others are
  numbered. *)
Abbreviation node := (string + nat)%type.

Inductive content :=
| Text (s : string)     (* set through [textContent] *)
| Html (s : string).    (* set through [innerHTML] *)

(** A child element that a script creates, or looks up by class. *)
Record div := Div {
  div_class : string;
  div_css : string;     (* style.cssText *)
  div_html : string     (* innerHTML *)
}.

Record element := Element {
  className : string;
  children : content;
  divs : list div;              (* children created by the scripts *)
  parentElement : option node;
  value : string;               (* of an input *)
  disabled : bool;
  display : string;             (* style.display *)
  animation : string;           (* style.animation *)
  opacity : string;             (* style.opacity *)
  cursor : string               (* style.cursor *)
}.

(** What a timer runs when it fires. *)
Inductive callback :=
| ClearInnerHTML (n : node)            (* () => { el.innerHTML = ''; } *)
| EnableAll (ns : list node)           (* () => { ns.forEach(b => b.disabled = false); } *)
| ClearAnimation (n : node).           (* () => { el.style.animation = ''; } *)

Record world := World {
  doc : gmap node element;
  timers : list (Z * callback);   (* delay in ms, callback; latest first *)
  console : list string;          (* console.log / console.error; latest first *)
  dialogs : list string           (* window.confirm prompts; latest first *)
}.

Module Dom.

Definition set_className (v : string) (e : element) : element :=
  Element v (children e) (divs e) (parentElement e) (value e) (disabled e)
          (display e) (animation e) (opacity e) (cursor e).
Definition set_children (v : content) (e : element) : element :=
  Element (className e) v (divs e) (parentElement e) (value e) (disabled e)
          (display e) (animation e) (opacity e) (cursor e).
Definition set_divs (v : list div) (e : element) : element :=
  Element (className e) (children e) v (parentElement e) (value e)
          (disabled e) (display e) (animation e) (opacity e) (cursor e).
Definition set_disabled (v : bool) (e : element) : element :=
  Element (className e) (children e) (divs e) (parentElement e) (value e) v
          (display e) (animation e) (opacity e) (cursor e).
Definition set_display (v : string) (e : element) : element :=
  Element (className e) (children e) (divs e) (parentElement e) (value e)
          (disabled e) v (animation e) (opacity e) (cursor e).
Definition set_animation (v : string) (e : element) : element :=
  Element (className e) (children e) (divs e) (parentElement e) (value e)
          (disabled e) (display e) v (opacity e) (cursor e).
Definition set_opacity (v : string) (e : element) : element :=
  Element (className e) (children e) (divs e) (parentElement e) (value e)
          (disabled e) (display e) (animation e) v (cursor e).
Definition set_cursor (v : string) (e : element) : element :=
  Element (className e) (children e) (divs e) (parentElement e) (value e)
          (disabled e) (display e) (animation e) (opacity e) v.

(** [document.getElementById(id)]: the node, or [None] for [null]. *)
Definition getElementById (id : string) (w : world) : option node :=
  match doc w !! (inl id : node) with
  | Some _ => Some (inl id)
  | None => None
  end.

(** An assignment to a property of the element at [n]. The handle was
    obtained from the document, so the node is there. *)
Definition update (n : node) (f : element -> element) (w : world) : world :=
  World (alter f n (doc w)) (timers w) (console w) (dialogs w).

(** The same assignment through a handle that may be [null]. *)
Definition assign (h : option node) (f : element -> element) (w : world)
  : result world :=
  match h with
  | Some n => Ok (update n f w)
  | None => Throw TypeError
  end.

(** ASCII white space, which separates the tokens of a [class] attribute:
    TAB, LF, FF, CR and SP. *)
Definition is_ascii_whitespace (c : ascii) : bool :=
  let n := JSString.code c in
  ((n =? 9) || (n =? 10) || (n =? 12) || (n =? 13) || (n =? 32))%N.

(** The tokens of a [class] attribute. *)
Fixpoint tokens (s : string) (cur : string) : list string :=
  let flush := match cur with
               | EmptyString => []
               | _ => [JSString.rev cur]
               end in
  match s with
  | EmptyString => flush
  | String c r =>
      if is_ascii_whitespace c then flush ++ tokens r EmptyString
      else tokens r (String c cur)
  end.

Definition has_class (c : string) (e : element) : bool :=
  existsb (String.eqb c) (tokens (className e) EmptyString).

(** [document.querySelectorAll('.c')]: a static list of nodes. *)
Definition querySelectorAll_class (c : string) (w : world) : list node :=
  (map_to_list (filter (fun ne => has_class c (snd ne) = true) (doc w))).*1.

(** [ns.forEach(n => assignment)] *)
Definition forEach (ns : list node) (f : element -> element) (w : world)
  : world :=
  foldl (fun w n => update n f w) w ns.

Definition setTimeout (cb : callback) (ms : Z) (w : world) : world :=
  World (doc w) ((ms, cb) :: timers w) (console w) (dialogs w).

Definition console_log (msg : string) (w : world) : world :=
  World (doc w) (timers w) (msg :: console w) (dialogs w).

(** [window.confirm(msg)]; the answer is the user's. *)
Definition confirm (msg : string) (w : world) : world :=
  World (doc w) (timers w) (console w) (msg :: dialogs w).

(** [h.value], through a handle that may be [null]. A handle comes from
    the document, which loses no node. *)
Definition value_of (h : option node) (w : world) : result string :=
  match h with
  | Some n =>
      match doc w !! n with
      | Some e => Ok (value e)
      | None => Throw TypeError
      end
  | None => Throw TypeError
  end.

(** [el.classList.add(c)]: the class attribute becomes the ordered set of
    its tokens, with [c] added when it is not among them. *)
Fixpoint dedup (seen l : list string) : list string :=
  match l with
  | [] => []
  | x :: r =>
      if existsb (String.eqb x) seen then dedup seen r
      else x :: dedup (x :: seen) r
  end.

Definition classList_add (c : string) (e : element) : element :=
  set_className
    (JSString.join " " (dedup [] (tokens (className e) EmptyString ++ [c]))) e.

(** A timer fires. *)
Definition run (cb : callback) (w : world) : world :=
  match cb with
  | ClearInnerHTML n => update n (set_children (Html EmptyString)) w
  | EnableAll ns => forEach ns (set_disabled false) w
  | ClearAnimation n => update n (set_animation EmptyString) w
  end.

(** [el.textContent = v]: [null] and [undefined] give the empty text. *)
Definition text_of (v : jsval) : content :=
  match v with
  | JUndefined | JNull => Text EmptyString
  | _ => Text (JS.ToString v)
  end.

End Dom.

(** ** Promises *)

(** How a [fetch] settles: the network fails, or a response arrives whose
  body is JSON or is not. HTTP error statuses are responses. *)
Inductive response :=
| NetworkFailure
| Response (body : option jsval).

Record request := Request {
  url : string;
  method : string;
  headers : list (string * string);
  body : string
}.

(** A promise, once what it waits for has settled: run from a world, it
  is fulfilled or rejected and leaves a world. *)
Definition promise (A : Type) : Type := world -> result A * world.

Module Promise.

Definition fetch (r : response) : promise (option jsval) :=
  fun w => (match r with
            | NetworkFailure => Throw NetworkError
            | Response b => Ok b
            end, w).

(** [response.json()] *)
Definition json (b : option jsval) : promise jsval :=
  fun w => (match b with
            | Some v => Ok v
            | None => Throw SyntaxError
            end, w).

Definition then_ {A B} (p : promise A) (f : A -> promise B) : promise B :=
  fun w => match p w with
           | (Ok a, w') => f a w'
           | (Throw e, w') => (Throw e, w')
           end.

Definition catch {A} (p : promise A) (h : exn -> promise A) : promise A :=
  fun w => match p w with
           | (Ok a, w') => (Ok a, w')
           | (Throw e, w') => h e w'
           end.

Definition finally {A} (p : promise A) (h : promise unit) : promise A :=
  fun w => match p w with
           | (r, w') =>
               match h w' with
               | (Ok _, w'') => (r, w'')
               | (Throw e, w'') => (Throw e, w'')
               end
           end.

(** A handler that ran to its end. *)
Definition done (w : world) : result unit * world := (Ok tt, w).

(** A handler stopped by an exception. *)
Definition lift (r : result world) (w : world) : result unit * world :=
  match r with
  | Ok w' => (Ok tt, w')
  | Throw e => (Throw e, w)
  end.

End Promise.

(** ** script.js *)

Module Script.

(** [/^\+?[1-9]\d{1,14}$/.test(s)] *)
Definition phoneRegex_test (s : string) : bool :=
  let s' := match s with
            | String "+" r => r
            | _ => s
            end in
  match s' with
  | String c r =>
      JSString.in_range 49 57 c
      && JSString.every JSString.is_digit r
      && (1 <=? String.length r)%nat && (String.length r <=? 14)%nat
  | EmptyString => false
  end.

(** [s.replace(/[\s-]/g, '')] *)
Definition strip_separators (s : string) : string :=
  JSString.filter
    (fun c => negb (JSString.is_space c || Ascii.eqb c "-")) s.

Definition has_div_class (c : string) (d : div) : bool :=
  existsb (String.eqb c) (Dom.tokens (div_class d) EmptyString).

Fixpoint remove_first (p : div -> bool) (l : list div) : list div :=
  match l with
  | [] => []
  | d :: r => if p d then r else d :: remove_first p r
  end.

(** [function showValidationError(input, message)], lines 46-65. *)
Definition showValidationError (input : option node) (message : string)
  (w : world) : result world :=
  match input with
  | None => Throw TypeError
  | Some i =>
      match doc w !! i with
      | None => Throw TypeError
      | Some e =>
          match parentElement e with
          | None => Throw TypeError
          | Some p =>
              (* existingError.remove(), when there is one *)
              let w1 := Dom.update p
                (fun pe => Dom.set_divs
                   (remove_first (has_div_class "validation-error") (divs pe))
                   pe) w in
              let errorDiv :=
                Div "validation-error"
                    "color: #ef4444; font-size: 0.85rem; margin-top: 0.5rem; display: flex; align-items: center; gap: 0.5rem;"
                    (JSString.markup "<i class=`bi bi-exclamation-circle`></i> "
                     +:+ message) in
              let w2 := Dom.update p
                (fun pe => Dom.set_divs (divs pe ++ [errorDiv]) pe) w1 in
              let w3 := Dom.update i (Dom.set_animation "shake 0.5s") w2 in
              Ok (Dom.setTimeout (ClearAnimation i) 500 w3)
          end
      end
  end.

(** What a run of the submit handler leaves. *)
Record submission := Submission {
  defaultPrevented : bool;   (* e.preventDefault() was called *)
  completion : result unit;  (* the handler returned, or threw *)
  after : world
}.

Definition show_overlay (w : world) : submission :=
  match Dom.getElementById "loadingOverlay" w with
  | Some n =>
      Submission false (Ok tt) (Dom.update n (Dom.classList_add "active") w)
  | None => Submission false (Throw TypeError) w
  end.

Definition reject (input : option node) (message : string) (w : world)
  : submission :=
  match showValidationError input message w with
  | Ok w' => Submission true (Ok tt) w'
  | Throw e => Submission true (Throw e) w
  end.

(** The [submit] listener of the prediction form, lines 14-41.
    [phoneInput] and [amountInput] are the handles taken when the page
    loaded; [answer] is what the user replies if asked to confirm. *)
Definition onSubmit (phoneInput amountInput : option node) (answer : bool)
  (w : world) : submission :=
  match Dom.value_of phoneInput w with
  | Throw e => Submission false (Throw e) w
  | Ok phone =>
      if negb (phoneRegex_test (strip_separators phone)) then
        reject phoneInput
          "Please enter a valid phone number (e.g., +1234567890)" w
      else
        match Dom.value_of amountInput w with
        | Throw e => Submission false (Throw e) w
        | Ok text =>
            let amount := Number.parseFloat text in
            if Number.isNaN amount || Number.leb amount (Number.of_Z 0) then
              reject amountInput
                "Please enter a valid amount greater than 0" w
            else if Number.gtb amount (Number.of_Z 1000000) then
              let w1 := Dom.confirm
                "This is a large transaction amount. Are you sure you want to proceed?" w in
              if negb answer then Submission true (Ok tt) w1
              else show_overlay w1
            else show_overlay w
        end
  end.

(** [function hexToRgb(hex)], lines 172-177. *)
Definition hexToRgb (hex : string) : string :=
  let h := match hex with
           | String "#" r => r
           | _ => hex
           end in
  let pair (k : nat) := JS.radix_value 16 (JSString.take 2 (JSString.drop k h)) in
  match String.length h, pair 0%nat, pair 2%nat, pair 4%nat with
  | 6%nat, Some r, Some g, Some b =>
      Number.toString (Number.of_Z r) +:+ ", "
      +:+ Number.toString (Number.of_Z g) +:+ ", "
      +:+ Number.toString (Number.of_Z b)
  | _, _, _, _ => "16, 185, 129"
  end.

Definition json_headers : list (string * string) :=
  [("Content-Type", "application/json")].

Definition stringify (v : jsval) : string :=
  match JS.stringify v with
  | Some t => t
  | None => "undefined"
  end.

(** The first [function submitFeedback(phone, feedbackType)], lines
    96-169. The call returns once the request is sent; the third
    component is what runs when the [fetch] settles. *)
Definition submitFeedback_1 (phone feedbackType : string) (w : world)
  : world * request * (response -> promise unit) :=
  let buttons := Dom.querySelectorAll_class "feedback-btn-compact" w in
  let w1 := Dom.forEach buttons (Dom.set_disabled true) w in
  (w1,
   Request "/feedback" "POST" json_headers
     (stringify (JObj [("phone_number", JStr phone);
                       ("feedback", JStr feedbackType)])),
   fun r =>
     Promise.finally
       (Promise.catch
          (Promise.then_ (Promise.then_ (Promise.fetch r) Promise.json)
             (fun data w =>
                match Dom.getElementById "feedbackMessage" w with
                | Some msgDiv =>
                    let '(icon, color, message) :=
                      if String.eqb feedbackType "correct" then
                        ("check-circle", "#10b981",
                         "Thank you! Your feedback helps improve our AI model.")
                      else if String.eqb feedbackType "false_positive" then
                        ("info-circle", "#f59e0b",
                         "Noted. We'll review this case to improve accuracy.")
                      else if String.eqb feedbackType "under_review" then
                        ("clock", "#3b82f6",
                         "Marked for review. Our team will investigate.")
                      else
                        ("check-circle", "#10b981", "Feedback received!") in
                    let w1 := Dom.update msgDiv
                      (Dom.set_children (Html (JSString.markup "
                <div style=`padding: 1rem; background: rgba("
                            +:+ hexToRgb color
                            +:+ ", 0.1); border: 1px solid "
                            +:+ color
                            +:+ "; border-radius: 8px; color: "
                            +:+ color
                            +:+ JSString.markup "; margin-top: 1rem; animation: slideDown 0.3s ease-out;`>
                    <i class=`bi bi-"
                            +:+ icon
                            +:+ JSString.markup "` style=`font-size: 1.2rem; margin-right: 0.5rem;`></i>
                    "
                            +:+ message
                            +:+ "
                </div>
            "))) w in
                    (* Auto-hide after 5 seconds *)
                    Promise.done (Dom.setTimeout (ClearInnerHTML msgDiv) 5000 w1)
                | None => Promise.done w
                end))
          (fun error w =>
             let w1 := Dom.console_log "Error:" w in
             match Dom.getElementById "feedbackMessage" w1 with
             | Some msgDiv =>
                 Promise.done
                   (Dom.update msgDiv
                      (Dom.set_children (Html (JSString.markup "
                <div style=`padding: 1rem; background: rgba(239, 68, 68, 0.1); border: 1px solid #ef4444; border-radius: 8px; color: #ef4444; margin-top: 1rem;`>
                    <i class=`bi bi-exclamation-triangle` style=`margin-right: 0.5rem;`></i>
                    Failed to submit feedback. Please try again.
                </div>
            "))) w1)
             | None => Promise.done w1
             end))
       (fun w =>
          (* Re-enable buttons after 2 seconds *)
          Promise.done (Dom.setTimeout (EnableAll buttons) 2000 w))).

(** The second [function submitFeedback(phoneNumber, feedbackType)],
    lines 446-480. *)
Definition submitFeedback_2 (phoneNumber feedbackType : string) (w : world)
  : world * request * (response -> promise unit) :=
  (w,
   Request "/api/feedback" "POST" json_headers
     (stringify (JObj [("phone_number", JStr phoneNumber);
                       ("feedback_type", JStr feedbackType)])),
   fun r =>
     Promise.catch
       (Promise.then_ (Promise.then_ (Promise.fetch r) Promise.json)
          (fun data w =>
             match Dom.getElementById "feedbackMessage" w with
             | Some messageEl =>
                 match JS.get data "message" with
                 | Throw e => (Throw e, w)
                 | Ok message =>
                     let w1 := Dom.update messageEl
                       (Dom.set_children (Dom.text_of message)) w in
                     match JS.get data "status" with
                     | Throw e => (Throw e, w1)
                     | Ok status =>
                         let w2 := Dom.update messageEl
                           (Dom.set_className
                              ("feedback-message " +:+ JS.ToString status)) w1 in
                         let w3 := Dom.update messageEl
                           (Dom.set_display "block") w2 in
                         (* Disable buttons after feedback *)
                         Promise.done
                           (Dom.forEach
                              (Dom.querySelectorAll_class "btn-feedback" w3)
                              (fun btn =>
                                 Dom.set_cursor "not-allowed"
                                   (Dom.set_opacity "0.5"
                                      (Dom.set_disabled true btn))) w3)
                     end
                 end
             | None => Promise.done w
             end))
       (fun error w =>
          let w1 := Dom.console_log "Feedback error:" w in
          match Dom.getElementById "feedbackMessage" w1 with
          | Some messageEl =>
              let w2 := Dom.update messageEl
                (Dom.set_children (Text "Error submitting feedback")) w1 in
              let w3 := Dom.update messageEl
                (Dom.set_className "feedback-message error") w2 in
              Promise.done (Dom.update messageEl (Dom.set_display "block") w3)
          | None => Promise.done w1
          end)).

(** The two declarations share one scope: the name, and with it
    [window.submitFeedback] (line 499), is bound to the later one. *)
Definition submitFeedback := submitFeedback_2.

(** One entry of the recent transactions, lines 334-345. *)
Definition log_item (log : jsval) : result string :=
  let* phone_number := JS.get log "phone_number" in
  let* timestamp := JS.get log "timestamp" in
  let* transaction_amount := JS.get log "transaction_amount" in
  let* risk_level := JS.get log "risk_level" in
  let* lowered := JS.toLowerCase risk_level in
  Ok (JSString.markup "
                <div class=`log-item`>
                    <div class=`log-info`>
                        <div class=`log-phone`><i class=`bi bi-telephone`></i> "
      +:+ JS.ToString phone_number
      +:+ JSString.markup "</div>
                        <div class=`log-time`><i class=`bi bi-clock`></i> "
      +:+ JS.ToString timestamp
      +:+ JSString.markup "</div>
                        <div class=`log-amount`><i class=`bi bi-currency-dollar`></i> "
      +:+ Number.toFixed (Number.parseFloat (JS.ToString transaction_amount)) 2
      +:+ JSString.markup "</div>
                    </div>
                    <span class=`risk-badge "
      +:+ JSString.replace_first " " "-" lowered
      +:+ JSString.markup "`>
                        "
      +:+ JS.ToString risk_level
      +:+ "
                    </span>
                </div>
            ").

(** [function loadRecentTransactions()], lines 318-354: what runs when
    the [fetch] of [/api/logs] settles. *)
Definition loadRecentTransactions (r : response) : promise unit :=
  Promise.catch
    (Promise.then_ (Promise.then_ (Promise.fetch r) Promise.json)
       (fun logs w =>
          match Dom.getElementById "recentLogs" w with
          | None => Promise.done w
          | Some container =>
              Promise.lift
                (let* len := JS.get logs "length" in
                 if JS.is_zero len then
                   Ok (Dom.update container
                         (Dom.set_children (Html (JSString.markup "<div class=`loading-placeholder`>No transactions yet</div>"))) w)
                 else
                   (* Show only last 5 transactions *)
                   let* recentLogs := JS.slice logs 0 5 in
                   let* items := JS.map recentLogs log_item in
                   Ok (Dom.update container
                         (Dom.set_children
                            (Html (JSString.join EmptyString items))) w))
                w
          end))
    (fun error w =>
       let w1 := Dom.console_log "Error loading transactions:" w in
       match Dom.getElementById "recentLogs" w1 with
       | Some container =>
           Promise.done
             (Dom.update container
                (Dom.set_children (Html (JSString.markup "<div class=`loading-placeholder`>Error loading transactions</div>"))) w1)
       | None => Promise.done w1
       end).

End Script.

(** ** logs.js *)

Module Logs.

(** A row of the logs table. *)
Record row := Row {
  cells : list string;          (* textContent of each cell *)
  data_risk : option string;    (* the data-risk attribute, if set *)
  row_display : string;         (* style.display *)
  row_animation : string        (* style.animation *)
}.

(** The body of the [forEach] callback of [filterTable], lines 24-35. *)
Definition filter_row (searchTerm selectedRisk : string) (r : row)
  : result row :=
  match cells r !! 1%nat with
  | None => Throw TypeError
  | Some text =>
      let phoneNumber := JSString.toLowerCase text in
      let riskLevel := data_risk r in
      let matchesSearch := JSString.includes phoneNumber searchTerm in
      let matchesRisk :=
        String.eqb selectedRisk "all"
        || match riskLevel with
           | Some l => String.eqb l selectedRisk
           | None => false
           end in
      Ok (if matchesSearch && matchesRisk
          then Row (cells r) (data_risk r) EmptyString "fadeIn 0.3s ease-out"
          else Row (cells r) (data_risk r) "none" (row_animation r))
  end.

(** [rows.forEach(f)] where [f] updates the row it is given: an exception
    leaves the rows not yet visited as they were. *)
Fixpoint forEach (f : row -> result row) (rows : list row)
  : result unit * list row :=
  match rows with
  | [] => (Ok tt, [])
  | r :: rest =>
      match f r with
      | Ok r' => let '(res, rest') := forEach f rest in (res, r' :: rest')
      | Throw e => (Throw e, r :: rest)
      end
  end.

(** [function filterTable()], lines 19-37. [searchInput] and [riskFilter]
    are the values of the two controls, [None] when the control is not on
    the page; [allRows] are the rows taken when the page loaded. *)
Definition filterTable (searchInput riskFilter : option string)
  (allRows : list row) : result unit * list row :=
  let searchTerm := match searchInput with
                    | Some v => JSString.toLowerCase v
                    | None => EmptyString
                    end in
  let selectedRisk := match riskFilter with
                      | Some v => v
                      | None => "all"
                      end in
  forEach (filter_row searchTerm selectedRisk) allRows.

(** [document.getElementById(id).textContent = v] *)
Definition set_text (id : string) (v : jsval) (w : world) : result world :=
  Dom.assign (Dom.getElementById id w) (Dom.set_children (Dom.text_of v)) w.

(** [document.getElementById(id).innerHTML = s] *)
Definition set_html (id : string) (s : string) (w : world) : result world :=
  Dom.assign (Dom.getElementById id w) (Dom.set_children (Html s)) w.

(** [v.k || fallback] *)
Definition field (v : jsval) (k : string) (fallback : jsval) : result jsval :=
  let* x := JS.get v k in
  Ok (JS.or x fallback).

Definition NA : jsval := JStr "N/A".
Definition Unknown : jsval := JStr "Unknown".

(** One triggered rule of the modal, lines 284-294. *)
Definition rule_item (rule : jsval) : result string :=
  let* severity := JS.get rule "severity" in
  let* name := JS.get rule "rule" in
  let* impact := JS.get rule "impact" in
  let* description := JS.get rule "description" in
  Ok (JSString.markup "
            <div class=`modal-rule-item severity-"
      +:+ JS.ToString severity
      +:+ JSString.markup "`>
                <div class=`modal-rule-header`>
                    <span class=`modal-rule-name`>"
      +:+ JS.ToString name
      +:+ JSString.markup "</span>
                    <span class=`modal-rule-severity`>"
      +:+ JS.ToString severity
      +:+ JSString.markup "</span>
                </div>
                <div class=`modal-rule-description`>
                    <strong>Impact:</strong> "
      +:+ JS.ToString impact
      +:+ " | "
      +:+ JS.ToString description
      +:+ "
                </div>
            </div>
        ").

(** The network intelligence part of [showDetails], lines 180-255. *)
Definition show_camara (camara_data : jsval) (w : world) : result world :=
  if JS.truthy camara_data then
    let* simSwap := field camara_data "sim_swap" (JObj []) in
    let* location := field camara_data "location" (JObj []) in
    let* roaming := field camara_data "roaming" (JObj []) in
    let* deviceStatus := field camara_data "device_status" (JObj []) in
    (* SIM swap status *)
    let* swapped := JS.get simSwap "swapped" in
    let* w := set_html "modalSimSwap"
      (if JS.truthy swapped then (JSString.markup "<span style=`color: #ef4444; font-weight: 600;`>⚠️ DETECTED</span>")
       else (JSString.markup "<span style=`color: #10b981; font-weight: 600;`>✅ CLEAR</span>")) w in
    let* last_swap_date := field simSwap "last_swap_date" NA in
    let* w := set_text "modalSimSwapDate" last_swap_date w in
    (* location verification *)
    let* verified := JS.get location "verified" in
    let* w := set_html "modalLocationVerified"
      (if JS.truthy verified then (JSString.markup "<span style=`color: #10b981; font-weight: 600;`>✅ VERIFIED</span>")
       else (JSString.markup "<span style=`color: #ef4444; font-weight: 600;`>⚠️ MISMATCH</span>")) w in
    let* distance := field location "distance_meters" (JNum Number.zero) in
    let* w := set_text "modalLocationDistance"
      (if JS.truthy distance
       then JStr (Number.toFixed
                    (Number.div (JS.ToNumber distance) (Number.of_Z 1000)) 1
                  +:+ " km")
       else NA) w in
    (* roaming status *)
    let* is_roaming := JS.get roaming "roaming" in
    let* w := set_html "modalRoamingStatus"
      (if JS.truthy is_roaming then (JSString.markup "<span style=`color: #ef4444; font-weight: 600;`>🌍 ROAMING</span>")
       else (JSString.markup "<span style=`color: #10b981; font-weight: 600;`>🏠 HOME NETWORK</span>")) w in
    let* currentNetwork := field roaming "current_network" Unknown in
    let* homeNetwork := field roaming "home_network" Unknown in
    let* roamingCountry := field roaming "roaming_country" Unknown in
    let* w := set_text "modalCurrentNetwork"
      (if JS.truthy is_roaming
       then JStr (JS.ToString currentNetwork +:+ " ("
                  +:+ JS.ToString roamingCountry +:+ ")")
       else homeNetwork) w in
    (* device status *)
    let* connectionStatus :=
      field deviceStatus "connection_status" (JStr "UNKNOWN") in
    let status_is (t : string) := match connectionStatus with
                           | JStr c => String.eqb c t
                           | _ => false
                           end in
    let* w := set_html "modalDeviceStatus"
      (if status_is "DATA" then (JSString.markup "<span style=`color: #10b981; font-weight: 600;`>🟢 DATA CONNECTED</span>")
       else if status_is "SMS" then (JSString.markup "<span style=`color: #f59e0b; font-weight: 600;`>🟡 SMS ONLY</span>")
       else if status_is "NOT_CONNECTED" then (JSString.markup "<span style=`color: #ef4444; font-weight: 600;`>🔴 OFFLINE</span>")
       else (JSString.markup "<span style=`color: #9ca3af; font-weight: 600;`>❓ UNKNOWN</span>")) w in
    let* signalStrength := field deviceStatus "signal_strength" Unknown in
    let* networkType := field deviceStatus "network_type" Unknown in
    let* lastSeen := field deviceStatus "last_seen" Unknown in
    if negb (status_is "NOT_CONNECTED") then
      set_text "modalSignalStrength"
        (JStr (JS.ToString signalStrength +:+ " ("
               +:+ JS.ToString networkType +:+ ")")) w
    else
      set_text "modalSignalStrength"
        (JStr ("No Signal - Last seen: " +:+ JS.ToString lastSeen)) w
  else
    (* Fallback if no CAMARA data *)
    let* w := set_text "modalSimSwap" NA w in
    let* w := set_text "modalSimSwapDate" NA w in
    let* w := set_text "modalLocationVerified" NA w in
    let* w := set_text "modalLocationDistance" NA w in
    let* w := set_text "modalRoamingStatus" NA w in
    let* w := set_text "modalCurrentNetwork" NA w in
    let* w := set_text "modalDeviceStatus" NA w in
    set_text "modalSignalStrength" NA w.

(** [document.getElementById(id).textContent = log.k || "N/A"] *)
Definition show_field (id : string) (log : jsval) (k : string) (w : world)
  : result world :=
  let* v := field log k NA in
  set_text id v w.

(** The triggered rules section of [showDetails], lines 278-299. *)
Definition show_rules (explanation : jsval) (w : world) : result world :=
  let triggeredRulesSection := Dom.getElementById "triggeredRulesSection" w in
  let triggeredRulesContainer := Dom.getElementById "modalTriggeredRules" w in
  let* rules :=
    if JS.truthy explanation then JS.get explanation "triggered_rules"
    else Ok explanation in
  let* rules_len := if JS.truthy rules then JS.get rules "length" else Ok rules in
  if JS.truthy rules && JS.positive rules_len then
    let* w := Dom.assign triggeredRulesSection (Dom.set_display "block") w in
    let* items := JS.map rules rule_item in
    Dom.assign triggeredRulesContainer
      (Dom.set_children (Html (JSString.join EmptyString items))) w
  else Dom.assign triggeredRulesSection (Dom.set_display "none") w.

(** The explanation of [showDetails], lines 304-315. *)
Definition show_explanation (explanation : jsval) (w : world)
  : result world :=
  let* summary :=
    if JS.truthy explanation then JS.get explanation "summary"
    else Ok explanation in
  let* w := set_text "modalExplanationSummary"
    (JS.or summary (JStr "No explanation provided.")) w in
  let* factors :=
    if JS.truthy explanation then JS.get explanation "factors"
    else Ok explanation in
  let* factors_len :=
    if JS.truthy factors then JS.get factors "length" else Ok factors in
  if JS.truthy factors && JS.positive factors_len then
    let* items :=
      JS.map factors (fun f => Ok ("<li>" +:+ JS.ToString f +:+ "</li>")) in
    set_html "modalExplanationFactors" ("
            <strong>Key Detection Factors:</strong>
            <ul>"
       +:+ JSString.join EmptyString items
       +:+ "</ul>
        ") w
  else set_html "modalExplanationFactors" "<em>No factors available</em>" w.

(** [function showDetails(log)], lines 163-322. *)
Definition showDetails (log : jsval) (w : world) : result world :=
  (* basic transaction info *)
  let* w := show_field "modalPhone" log "phone_number" w in
  let* amount := field log "transaction_amount" (JNum Number.zero) in
  let* amount_text := JS.toFixed amount 2 in
  let* w := set_text "modalAmount" (JStr ("$" +:+ amount_text)) w in
  let* w := show_field "modalTimestamp" log "timestamp" w in
  let* fraud_probability := JS.get log "fraud_probability" in
  let* w := set_text "modalProbability"
    (JStr (Number.toFixed
             (Number.mul (JS.ToNumber fraud_probability) (Number.of_Z 100)) 1
           +:+ "%")) w in
  (* risk level with styling *)
  let riskLevelEl := Dom.getElementById "modalRiskLevel" w in
  let* risk_level := JS.get log "risk_level" in
  let* w := Dom.assign riskLevelEl
    (Dom.set_children (Dom.text_of (JS.or risk_level NA))) w in
  let* lowered := JS.toLowerCase (JS.or risk_level (JStr EmptyString)) in
  let* w := Dom.assign riskLevelEl
    (Dom.set_className
       ("risk-badge " +:+ JSString.replace_first " " "-" lowered)) w in
  (* CAMARA network intelligence data *)
  let* camara_data := JS.get log "camara_data" in
  let* w := show_camara camara_data w in
  (* customer profile *)
  let* w := show_field "modalVintage" log "customer_vintage" w in
  let* w := show_field "modalRiskRating" log "risk_rating" w in
  let* w := show_field "modalSegment" log "segment" w in
  let* w := show_field "modalOccupation" log "occupation" w in
  let* w := show_field "modalCountry" log "country" w in
  let* w := show_field "modalCity" log "city" w in
  let* w := show_field "modalGeoRestriction" log "geo_restriction" w in
  let* w := show_field "modalPepFlag" log "pep_flag" w in
  (* transaction patterns *)
  let* w := show_field "modalTxnCount" log "txn_count_1h" w in
  let* w := show_field "modalReversals" log "credit_reversals_7d" w in
  (* triggered rules and explanation *)
  let* explanation := JS.get log "explanation" in
  let* w := show_rules explanation w in
  let* w := show_explanation explanation w in
  (* show modal *)
  Dom.assign (Dom.getElementById "detailsModal" w) (Dom.set_display "block") w.

End Logs.

(** ** llm_explanation.js (carried by script.js, lines 501-907) *)

Module Llm.

(** [document.getElementById(id)], then [el.innerHTML = s] on the handle. *)
Definition set_html (el : node) (s : string) (w : world) : world :=
  Dom.update el (Dom.set_children (Html s)) w.

(** [v.k || fallback] *)
Definition field (v : jsval) (k : string) (fallback : jsval) : result jsval :=
  let* x := JS.get v k in
  Ok (JS.or x fallback).

(** [function populateExecutiveSummary(llmData)], lines 533-538. *)
Definition populateExecutiveSummary (llmData : jsval) (w : world)
  : result world :=
  match Dom.getElementById "executiveSummary" w with
  | Some summaryEl =>
      let* executive_summary := JS.get llmData "executive_summary" in
      if JS.truthy executive_summary
      then Ok (Dom.update summaryEl
                 (Dom.set_children (Dom.text_of executive_summary)) w)
      else Ok w
  | None => Ok w
  end.

(** One piece of an analysis text, lines 555-564 and 585-592. *)
Definition section_html (section : string) : string :=
  let trimmed := JSString.trim section in
  match trimmed with
  | EmptyString => EmptyString
  | _ =>
      if JSString.includes trimmed ":"
         && (String.length trimmed <? 100)%nat
      then JSString.markup "<h5 style=`color: var(--primary-color); margin-top: 1.5rem; margin-bottom: 0.75rem;`>"
        +:+ trimmed
        +:+ "</h5>"
      else JSString.markup "<p style=`color: var(--text-secondary); line-height: 1.8; margin-bottom: 1rem;`>"
        +:+ trimmed
        +:+ "</p>"
  end.

(** [text.split(/\*\*|\n\n/).filter(s => s.trim())], then the markup of
    the pieces; only strings have [split]. *)
Definition sections_html (text : jsval) : result string :=
  match text with
  | JStr t =>
      let sections :=
        List.filter
          (fun x => match JSString.trim x with
                    | EmptyString => false
                    | _ => true
                    end)
          (JSString.split_sections t EmptyString) in
      Ok (JSString.join EmptyString (List.map section_html sections))
  | _ => Throw TypeError
  end.

(** [html || fallback] on strings. *)
Definition or_html (html fallback : string) : string :=
  match html with
  | EmptyString => fallback
  | _ => html
  end.

(** [function populateDetailedAnalysis(llmData)], lines 543-568. *)
Definition populateDetailedAnalysis (llmData : jsval) (w : world)
  : result world :=
  match Dom.getElementById "detailedAnalysisContent" w with
  | None => Ok w
  | Some contentEl =>
      let* analysis := JS.get llmData "detailed_analysis" in
      if negb (JS.truthy analysis) then Ok w
      else
        let* html := sections_html analysis in
        Ok (set_html contentEl
              (or_html html (JSString.markup "<p style=`color: var(--text-secondary);`>Detailed analysis is being generated...</p>")) w)
  end.

(** The customer profile summary, lines 600-624. *)
Definition profile_html (profile : jsval) : result string :=
  let* total_transactions := field profile "total_transactions" (JNum Number.zero) in
  let* average_amount := field profile "average_amount" (JNum Number.zero) in
  let* average_text := JS.toFixed average_amount 2 in
  let* velocity_pattern := field profile "velocity_pattern" (JStr "Unknown") in
  let* days_as_customer := field profile "days_as_customer" (JNum Number.zero) in
  Ok (JSString.markup "
            <div style=`background: var(--bg-dark); padding: 1.5rem; border-radius: 8px; margin-top: 2rem;`>
                <h5 style=`color: var(--text-primary); margin-bottom: 1rem;`>
                    <i class=`bi bi-person-badge`></i> Customer Profile Summary
                </h5>
                <div style=`display: grid; grid-template-columns: repeat(auto-fit, minmax(200px, 1fr)); gap: 1rem;`>
                    <div class=`profile-stat`>
                        <div style=`color: var(--text-secondary); font-size: 0.85rem;`>Total Transactions</div>
                        <div style=`color: var(--text-primary); font-size: 1.5rem; font-weight: 600;`>"
      +:+ JS.ToString total_transactions
      +:+ JSString.markup "</div>
                    </div>
                    <div class=`profile-stat`>
                        <div style=`color: var(--text-secondary); font-size: 0.85rem;`>Average Amount</div>
                        <div style=`color: var(--text-primary); font-size: 1.5rem; font-weight: 600;`>$"
      +:+ average_text
      +:+ JSString.markup "</div>
                    </div>
                    <div class=`profile-stat`>
                        <div style=`color: var(--text-secondary); font-size: 0.85rem;`>Activity Level</div>
                        <div style=`color: var(--text-primary); font-size: 1.5rem; font-weight: 600;`>"
      +:+ JS.ToString velocity_pattern
      +:+ JSString.markup "</div>
                    </div>
                    <div class=`profile-stat`>
                        <div style=`color: var(--text-secondary); font-size: 0.85rem;`>Customer Since</div>
                        <div style=`color: var(--text-primary); font-size: 1.5rem; font-weight: 600;`>"
      +:+ JS.ToString days_as_customer
      +:+ " days</div>
                    </div>
                </div>
            </div>
        ").

(** [function populateBehavioralInsights(llmData, transactionData)],
    lines 573-628. *)
Definition populateBehavioralInsights (llmData transactionData : jsval)
  (w : world) : result world :=
  match Dom.getElementById "behavioralInsightsContent" w with
  | None => Ok w
  | Some contentEl =>
      let* insights := JS.get llmData "behavioral_insights" in
      let* html1 :=
        if JS.truthy insights then sections_html insights
        else Ok EmptyString in
      let* profile := JS.get llmData "customer_profile" in
      let* html2 :=
        if JS.truthy profile then profile_html profile else Ok EmptyString in
      Ok (set_html contentEl
            (or_html (html1 +:+ html2)
               (JSString.markup "<p style=`color: var(--text-secondary);`>No behavioral insights available</p>")) w)
  end.

(** One risk factor, lines 652-660. *)
Definition factor_html (factor : jsval) : result string :=
  let* severity := JS.get factor "severity" in
  let* name := JS.get factor "factor" in
  let* explanation := JS.get factor "explanation" in
  Ok (JSString.markup "
            <div class=`risk-factor-item severity-"
      +:+ JS.ToString severity
      +:+ JSString.markup "`>
                <div class=`risk-factor-header`>
                    <span class=`risk-factor-title`>"
      +:+ JS.ToString name
      +:+ JSString.markup "</span>
                    <span class=`severity-badge "
      +:+ JS.ToString severity
      +:+ JSString.markup "`>"
      +:+ JS.ToString severity
      +:+ JSString.markup "</span>
                </div>
                <div class=`risk-factor-description`>"
      +:+ JS.ToString explanation
      +:+ "</div>
            </div>
        ").

(** [function populateRiskFactors(llmData)], lines 633-665. *)
Definition populateRiskFactors (llmData : jsval) (w : world) : result world :=
  match Dom.getElementById "riskFactorsContent" w with
  | None => Ok w
  | Some contentEl =>
      let* riskFactors := field llmData "risk_factors" (JArr []) in
      let* len := JS.get riskFactors "length" in
      if JS.is_zero len then
        Ok (set_html contentEl
              (JSString.markup "
            <div style=`text-align: center; padding: 2rem; color: var(--text-secondary);`>
                <i class=`bi bi-check-circle` style=`font-size: 3rem; color: var(--success-color);`></i>
                <p style=`margin-top: 1rem;`>No significant risk factors detected</p>
            </div>
        ") w)
      else
        let* items := JS.map riskFactors factor_html in
        Ok (set_html contentEl
              (JSString.markup "<div class=`risk-factor-grid`>"
               +:+ JSString.join EmptyString items +:+ "</div>") w)
  end.

(** The four cards of the network intelligence breakdown, lines
    676-777. *)
Definition network_html (camara : jsval) : result string :=
  let* simSwap := field camara "sim_swap" (JObj []) in
  let* swapped := JS.get simSwap "swapped" in
  let* last_swap_date := JS.get simSwap "last_swap_date" in
  let card1 :=
    JSString.markup "
        <div class=`intel-card`>
            <div class=`intel-card-header`>
                <i class=`bi bi-sim`></i> SIM Swap Detection
            </div>
            <div class=`intel-status`>
                <div class=`status-indicator "
      +:+ (if JS.truthy swapped then "danger" else "safe")
      +:+ JSString.markup "`></div>
                <strong>"
      +:+ (if JS.truthy swapped then "DETECTED" else "Clear")
      +:+ JSString.markup "</strong>
            </div>
            <div class=`intel-details`>
                "
      +:+ (if JS.truthy swapped
       then "‚ö†Ô∏è SIM card was changed "
        +:+ JS.ToString last_swap_date
        +:+ ". This is a critical fraud indicator suggesting potential account takeover."
       else "‚úÖ No SIM swap activity detected in monitoring period. Device maintains original SIM configuration.")
      +:+ "
            </div>
        </div>
    " in
  let* location := field camara "location" (JObj []) in
  let* verified := JS.get location "verified" in
  let* distance_meters := JS.get location "distance_meters" in
  let card2 :=
    JSString.markup "
        <div class=`intel-card`>
            <div class=`intel-card-header`>
                <i class=`bi bi-geo-alt`></i> Location Verification
            </div>
            <div class=`intel-status`>
                <div class=`status-indicator "
      +:+ (if JS.truthy verified then "safe" else "danger")
      +:+ JSString.markup "`></div>
                <strong>"
      +:+ (if JS.truthy verified then "Verified" else "Mismatch")
      +:+ JSString.markup "</strong>
            </div>
            <div class=`intel-details`>
                "
      +:+ (if JS.truthy verified
       then "‚úÖ Device location matches KYC registered address within acceptable radius."
       else "‚ö†Ô∏è Device is "
        +:+ Number.toFixed (Number.div (JS.ToNumber distance_meters) (Number.of_Z 1000)) 1
        +:+ " km from registered address. Possible VPN, proxy, or unauthorized access.")
      +:+ "
            </div>
        </div>
    " in
  let* roaming := field camara "roaming" (JObj []) in
  let* is_roaming := JS.get roaming "roaming" in
  let* current_network := JS.get roaming "current_network" in
  let* roaming_country := JS.get roaming "roaming_country" in
  let card3 :=
    JSString.markup "
        <div class=`intel-card`>
            <div class=`intel-card-header`>
                <i class=`bi bi-globe`></i> Roaming Status
            </div>
            <div class=`intel-status`>
                <div class=`status-indicator "
      +:+ (if JS.truthy is_roaming then "warning" else "safe")
      +:+ JSString.markup "`></div>
                <strong>"
      +:+ (if JS.truthy is_roaming then "Roaming" else "Home Network")
      +:+ JSString.markup "</strong>
            </div>
            <div class=`intel-details`>
                "
      +:+ (if JS.truthy is_roaming
       then "üì° Device is roaming on "
        +:+ JS.ToString current_network
        +:+ " in "
        +:+ JS.ToString roaming_country
        +:+ ". Verify if customer has notified bank of international travel."
       else "‚úÖ Device is on home network ("
        +:+ JS.ToString current_network
        +:+ "). Normal domestic usage pattern.")
      +:+ "
            </div>
        </div>
    " in
  let* deviceStatus := field camara "device_status" (JObj []) in
  let* connection_status := JS.get deviceStatus "connection_status" in
  let* signal_strength := JS.get deviceStatus "signal_strength" in
  let* last_seen := JS.get deviceStatus "last_seen" in
  let card4 :=
    JSString.markup "
        <div class=`intel-card`>
            <div class=`intel-card-header`>
                <i class=`bi bi-phone`></i> Device Connectivity
            </div>
            <div class=`intel-status`>
                <div class=`status-indicator "
      +:+ (if JS.is_string connection_status "DATA" then "safe"
       else if JS.is_string connection_status "SMS" then "warning"
       else "danger")
      +:+ JSString.markup "`></div>
                <strong>"
      +:+ JS.ToString (JS.or connection_status (JStr "Unknown"))
      +:+ JSString.markup "</strong>
            </div>
            <div class=`intel-details`>
                "
      +:+ (if JS.is_string connection_status "DATA"
       then "‚úÖ Device is actively connected with data service. Signal: "
        +:+ JS.ToString signal_strength
        +:+ "."
       else if JS.is_string connection_status "SMS"
       then "‚ö†Ô∏è Device has SMS-only connectivity. Limited data service may indicate network issues or basic phone."
       else if JS.is_string connection_status "NOT_CONNECTED"
       then "üö® Device is offline (last seen: "
        +:+ JS.ToString last_seen
        +:+ "). Transaction may be from compromised credentials on different device."
       else "Status unknown")
      +:+ "
            </div>
        </div>
    " in
  Ok (JSString.markup "<div class=`network-intel-grid`>" +:+ card1 +:+ card2 +:+ card3
      +:+ card4 +:+ "</div>"
      +:+ JSString.markup "
        <div style=`margin-top: 2rem; padding: 1.5rem; background: rgba(74, 158, 255, 0.1); border-radius: 8px; border-left: 4px solid var(--primary-color);`>
            <h5 style=`color: var(--primary-color); margin-bottom: 1rem;`>
                <i class=`bi bi-info-circle`></i> What are CAMARA Network APIs?
            </h5>
            <p style=`color: var(--text-secondary); line-height: 1.8;`>
                CAMARA (Network-as-Code) APIs provide real-time intelligence directly from mobile network operators. 
                Unlike traditional fraud detection that relies only on transaction data, these APIs access network-level 
                information including SIM card status, device location, connectivity state, and roaming activity. 
                This provides an additional layer of security that's extremely difficult for fraudsters to bypass.
            </p>
        </div>
    ").

(** [function populateNetworkIntelligence(llmData, transactionData)],
    lines 670-780. *)
Definition populateNetworkIntelligence (llmData transactionData : jsval)
  (w : world) : result world :=
  match Dom.getElementById "networkIntelContent" w with
  | None => Ok w
  | Some contentEl =>
      let* camara := JS.get transactionData "camara_data" in
      if negb (JS.truthy camara) then Ok w
      else
        let* html := network_html camara in
        Ok (set_html contentEl html w)
  end.

(** [list.map(x => open + x + close).join('')] when [list] is truthy and
    [list.length > 0]; [None] when the block is left out. *)
Definition list_items (list : jsval) (item : jsval -> string)
  : result (option string) :=
  let* len := if JS.truthy list then JS.get list "length" else Ok list in
  if JS.truthy list && JS.positive len then
    let* items := JS.map list (fun x => Ok (item x)) in
    Ok (Some (JSString.join EmptyString items))
  else Ok None.

(** [function populateRecommendations(llmData)], lines 785-828. *)
Definition populateRecommendations (llmData : jsval) (w : world)
  : result world :=
  match Dom.getElementById "recommendationsContent" w with
  | None => Ok w
  | Some contentEl =>
      let* rec := JS.get llmData "recommendation" in
      if negb (JS.truthy rec) then Ok w
      else
        let* action := JS.get rec "action" in
        let actionClass :=
          if JS.is_string action "BLOCK TRANSACTION" then "reject"
          else if JS.is_string action "REQUIRE ADDITIONAL VERIFICATION"
               then "step-up" else "approve" in
        let* urgency := JS.get rec "urgency" in
        let html0 :=
          JSString.markup "
        <div class=`recommendation-action "
          +:+ actionClass
          +:+ JSString.markup "`>
            <div class=`action-header`>"
          +:+ JS.ToString action
          +:+ "</div>
            "
          +:+ (if JS.truthy urgency
             then JSString.markup "<div class=`urgency-badge`>"
             +:+ JS.ToString urgency
             +:+ "</div>"
             else EmptyString)
          +:+ "
        </div>
    " in
        let* next_steps := JS.get rec "next_steps" in
        let* steps :=
          list_items next_steps
            (fun step => "<li>" +:+ JS.ToString step +:+ "</li>") in
        let html1 :=
          match steps with
          | Some lis =>
              JSString.markup "
            <div class=`next-steps`>
                <h5>Recommended Next Steps:</h5>
                <ol>
                    "
              +:+ lis
              +:+ "
                </ol>
            </div>
        "
          | None => EmptyString
          end in
        let* additional_info_needed := JS.get rec "additional_info_needed" in
        let* infos :=
          list_items additional_info_needed
            (fun info => JSString.markup "
                        <li style=`padding: 0.5rem 0; border-bottom: 1px solid var(--border-color);`>
                            <i class=`bi bi-check-square` style=`color: var(--primary-color); margin-right: 0.5rem;`></i>
                            "
               +:+ JS.ToString info
               +:+ "
                        </li>
                    ") in
        let html2 :=
          match infos with
          | Some lis =>
              JSString.markup "
            <div class=`next-steps` style=`margin-top: 1.5rem;`>
                <h5>Additional Information Needed:</h5>
                <ul style=`list-style: none; padding-left: 0;`>
                    "
              +:+ lis
              +:+ "
                </ul>
            </div>
        "
          | None => EmptyString
          end in
        Ok (set_html contentEl (html0 +:+ html1 +:+ html2) w)
  end.

(** One transaction of the timeline, lines 853-873. *)
Definition txn_html (txn : jsval) : result string :=
  let* risk := JS.get txn "risk" in
  let riskColor :=
    if JS.is_string risk "High Risk" then "var(--danger-color)"
    else if JS.is_string risk "Medium Risk" then "var(--warning-color)"
         else "var(--success-color)" in
  let* amount := JS.get txn "amount" in
  let* amount_text := JS.toFixed amount 2 in
  let* time := JS.get txn "time" in
  Ok (JSString.markup "
            <div style=`position: relative; margin-bottom: 1.5rem; padding-left: 1rem;`>
                <div style=`position: absolute; left: -2.5rem; width: 12px; height: 12px; border-radius: 50%; background: "
      +:+ riskColor
      +:+ JSString.markup "; border: 3px solid var(--bg-card);`></div>
                <div style=`background: var(--bg-dark); padding: 1rem; border-radius: 8px; border-left: 3px solid "
      +:+ riskColor
      +:+ JSString.markup ";`>
                    <div style=`display: flex; justify-content: space-between; margin-bottom: 0.5rem;`>
                        <strong style=`color: var(--text-primary);`>$"
      +:+ amount_text
      +:+ JSString.markup "</strong>
                        <span style=`color: var(--text-secondary); font-size: 0.85rem;`>"
      +:+ JS.ToString time
      +:+ JSString.markup "</span>
                    </div>
                    <div style=`display: flex; align-items: center; gap: 0.5rem;`>
                        <span style=`padding: 0.25rem 0.75rem; background: "
      +:+ riskColor
      +:+ "20; color: "
      +:+ riskColor
      +:+ JSString.markup "; border-radius: 12px; font-size: 0.75rem; font-weight: 600;`>
                            "
      +:+ JS.ToString risk
      +:+ "
                        </span>
                    </div>
                </div>
            </div>
        ").

(** [function populateCustomerTimeline(llmData)], lines 833-877. *)
Definition populateCustomerTimeline (llmData : jsval) (w : world)
  : result world :=
  match Dom.getElementById "customerTimelineViz" w with
  | None => Ok w
  | Some timelineEl =>
      let* customer_profile := JS.get llmData "customer_profile" in
      let* historical_context := JS.get llmData "historical_context" in
      let recentTxns :=
        JS.or (JS.or (JS.get_opt customer_profile "recent_transactions")
                     (JS.get_opt historical_context "recent_transactions"))
              (JArr []) in
      let* len := JS.get recentTxns "length" in
      if JS.is_zero len then
        Ok (set_html timelineEl
              (JSString.markup "
            <div style=`text-align: center; padding: 2rem; color: var(--text-secondary);`>
                <i class=`bi bi-inbox` style=`font-size: 2rem;`></i>
                <p style=`margin-top: 0.5rem;`>No recent transaction history available</p>
            </div>
        ") w)
      else
        let* items := JS.map recentTxns txn_html in
        Ok (set_html timelineEl
              (JSString.markup "<div style=`position: relative; padding-left: 2rem;`>"
               +:+ JSString.markup "<div style=`position: absolute; left: 0; top: 0; bottom: 0; width: 2px; background: var(--border-color);`></div>"
               +:+ JSString.join EmptyString items +:+ "</div>") w)
  end.

(** [function displayLLMExplanation(llmData, transactionData)], lines
    508-528. *)
Definition displayLLMExplanation (llmData transactionData : jsval)
  (w : world) : result world :=
  if negb (JS.truthy llmData) then
    Ok (Dom.console_log "No LLM explanation data available" w)
  else
    (* Show the LLM explanation section *)
    let w :=
      match Dom.getElementById "llmExplanation" w with
      | Some section => Dom.update section (Dom.set_display "block") w
      | None => w
      end in
    (* Populate each section *)
    let* w := populateExecutiveSummary llmData w in
    let* w := populateDetailedAnalysis llmData w in
    let* w := populateBehavioralInsights llmData transactionData w in
    let* w := populateRiskFactors llmData w in
    let* w := populateNetworkIntelligence llmData transactionData w in
    let* w := populateRecommendations llmData w in
    populateCustomerTimeline llmData w.

End Llm.

(** ** analytics.js *)

Module Analytics.

(** [function getHeatColor(fraudRate)], lines 49-55. *)
Definition getHeatColor (fraudRate : jsval) : string :=
  if JS.is_zero fraudRate then "#1a1f29"
  else if Number.leb (JS.ToNumber fraudRate) (Number.of_Z 20) then "#10b981"
  else if Number.leb (JS.ToNumber fraudRate) (Number.of_Z 50) then "#f59e0b"
  else "#ef4444".

(** One cell of the heatmap: the callback of [Array.from], lines 20-35. *)
Definition heatmap_cell (data : jsval) (hour : nat) : result string :=
  let* hourly_fraud := JS.get data "hourly_fraud" in
  let* at_hour := JS.get_index hourly_fraud hour in
  let hourData :=
    JS.or at_hour
      (JObj [("total", JNum Number.zero); ("high_risk", JNum Number.zero);
             ("fraud_rate", JNum Number.zero)]) in
  let* fraud_rate := JS.get hourData "fraud_rate" in
  let fraudRate := JS.or fraud_rate (JNum Number.zero) in
  let color := getHeatColor fraudRate in
  let textColor :=
    if Number.gtb (JS.ToNumber fraudRate) (Number.of_Z 50)
    then "#ffffff" else "#1a1f29" in
  let* total := JS.get hourData "total" in
  let* high_risk := JS.get hourData "high_risk" in
  let* rate_text := JS.toFixed fraudRate 0 in
  let json :=
    match JS.stringify hourData with
    | Some t => t
    | None => "undefined"
    end in
  Ok (JSString.markup "
                            <div class=`heatmap-cell` 
                                 style=`background: "
      +:+ color
      +:+ "; color: "
      +:+ textColor
      +:+ JSString.markup ";` 
                                 title=`Hour "
      +:+ pretty hour
      +:+ ":00
Total: "
      +:+ JS.ToString total
      +:+ " transactions
High Risk: "
      +:+ JS.ToString high_risk
      +:+ "
Fraud Rate: "
      +:+ JS.ToString fraudRate
      +:+ JSString.markup "%`
                                 onclick=`showHourDetails("
      +:+ pretty hour
      +:+ ", "
      +:+ JSString.replace_all (fun c => Ascii.eqb c JSString.dquote) "&quot;" json
      +:+ JSString.markup ")`>
                                "
      +:+ pretty hour
      +:+ JSString.markup "h
                                <br>
                                <small style=`font-size: 0.6rem;`>"
      +:+ rate_text
      +:+ "%</small>
                            </div>
                        ").

(** The page, where a fetch handler assigns [innerHTML] without testing
    the handle. *)
Definition set_html (id : string) (s : string) (w : world) : result world :=
  Dom.assign (Dom.getElementById id w) (Dom.set_children (Html s)) w.

(** [function loadHeatmap()], lines 12-47: what runs when the [fetch] of
    [/api/fraud-heatmap] settles. *)
Definition loadHeatmap (r : response) : promise unit :=
  Promise.catch
    (Promise.then_ (Promise.then_ (Promise.fetch r) Promise.json)
       (fun data w =>
          Promise.lift
            (let container := Dom.getElementById "heatmapContainer" w in
             let* cells := JS.mapM (heatmap_cell data) (seq 0 24) in
             let heatmapHTML :=
               JSString.markup "
                <div class=`heatmap-container`>
                    "
               +:+ JSString.join EmptyString cells
               +:+ "
                </div>
            " in
             Dom.assign container (Dom.set_children (Html heatmapHTML)) w)
            w))
    (fun error w =>
       let w1 := Dom.console_log "Error loading heatmap:" w in
       Promise.lift
         (set_html "heatmapContainer"
            (JSString.markup "<p style=`color: var(--text-secondary); text-align: center; padding: 2rem;`>Error loading heatmap data</p>") w1)
         w1).

(** A circle marker handed to Leaflet, lines 102-109: the coordinates and
    the options that depend on the cluster. *)
Record marker := Marker {
  lat : jsval;
  lon : jsval;
  radius : number;
  color : string
}.

(** The colour and the circle of a cluster, lines 99-109. *)
Definition cluster_marker (cluster : jsval) : result marker :=
  let* risk_level := JS.get cluster "risk_level" in
  let color :=
    if JS.is_string risk_level "High" then "#ef4444"
    else if JS.is_string risk_level "Medium" then "#f59e0b"
         else "#10b981" in
  let* lat := JS.get cluster "lat" in
  let* lon := JS.get cluster "lon" in
  let* count := JS.get cluster "count" in
  let radius :=
    Number.min
      (Number.max (Number.mul (JS.ToNumber count) (Number.of_Z 3))
                  (Number.of_Z 8))
      (Number.of_Z 40) in
  Ok (Marker lat lon radius color).

(** The text of the popup, lines 111-121, evaluated once the circle is on
    the map. *)
Definition cluster_popup (cluster : jsval) (color : string) : result string :=
  let* location := JS.get cluster "location" in
  let* count := JS.get cluster "count" in
  let* risk_level := JS.get cluster "risk_level" in
  let* risk_rate := JS.get cluster "risk_rate" in
  let* total_amount := JS.get cluster "total_amount" in
  let* amount_text := JS.toFixed total_amount 2 in
  Ok (JSString.markup "
                    <div style=`font-family: Arial; padding: 0.5rem;`>
                        <strong style=`font-size: 1.1rem;`>"
         +:+ JS.ToString location
         +:+ JSString.markup "</strong><br>
                        <div style=`margin-top: 0.5rem; padding-top: 0.5rem; border-top: 1px solid #e5e7eb;`>
                            <strong>Transactions:</strong> "
         +:+ JS.ToString count
         +:+ JSString.markup "<br>
                            <strong>Risk Level:</strong> <span style=`color: "
         +:+ color
         +:+ JSString.markup "; font-weight: bold;`>"
         +:+ JS.ToString risk_level
         +:+ "</span><br>
                            <strong>Fraud Rate:</strong> "
         +:+ JS.ToString risk_rate
         +:+ "%<br>
                            <strong>Total Amount:</strong> $"
         +:+ amount_text
         +:+ "
                        </div>
                    </div>
                ").

Section FraudMap.

(** Leaflet is not part of the repository. Its four uses are taken as
    given: creating the map with its tile layer in the element
    [fraudMap], adding a circle marker to the map, binding a popup to a
    marker, and fitting the view to a list of coordinates. Each may
    throw. *)
Variable L_map : string -> world -> result world.
Variable L_circleMarker : marker -> world -> result world.
Variable L_bindPopup : marker -> string -> world -> result world.
Variable L_fitBounds : list (jsval * jsval) -> world -> result world.

(** The callback of [data.clusters.forEach], lines 98-122: the circle is
    created and added to the map before the popup is evaluated. *)
Definition add_marker (cluster : jsval) (w : world) : result unit * world :=
  match cluster_marker cluster with
  | Throw e => (Throw e, w)
  | Ok circle =>
      match L_circleMarker circle w with
      | Throw e => (Throw e, w)
      | Ok w1 =>
          match cluster_popup cluster (color circle) with
          | Throw e => (Throw e, w1)
          | Ok html =>
              match L_bindPopup circle html w1 with
              | Throw e => (Throw e, w1)
              | Ok w2 => (Ok tt, w2)
              end
          end
      end
  end.

Fixpoint add_markers (clusters : list jsval) (w : world)
  : result unit * world :=
  match clusters with
  | [] => (Ok tt, w)
  | cluster :: rest =>
      match add_marker cluster w with
      | (Throw e, w') => (Throw e, w')
      | (Ok _, w') => add_markers rest w'
      end
  end.

(** [function loadFraudMap()], lines 86-135. *)
Definition loadFraudMap (r : response) : promise unit :=
  Promise.catch
    (Promise.then_ (Promise.then_ (Promise.fetch r) Promise.json)
       (fun data w =>
          match L_map "fraudMap" w with
          | Throw e => (Throw e, w)
          | Ok w1 =>
              match JS.get data "clusters" with
              | Throw e => (Throw e, w1)
              | Ok (JArr clusters) =>
                  match add_markers clusters w1 with
                  | (Throw e, w2) => (Throw e, w2)
                  | (Ok _, w2) =>
                      (* Auto-fit bounds if clusters exist *)
                      match clusters with
                      | [] => Promise.done w2
                      | _ =>
                          Promise.lift
                            (let* bounds :=
                               JS.mapM
                                 (fun c =>
                                    let* lat := JS.get c "lat" in
                                    let* lon := JS.get c "lon" in
                                    Ok (lat, lon)) clusters in
                             L_fitBounds bounds w2) w2
                      end
                  end
              | Ok _ => (Throw TypeError, w1)
              end
          end))
    (fun error w =>
       let w1 := Dom.console_log "Error loading fraud map:" w in
       Promise.lift
         (set_html "fraudMap"
            (JSString.markup "<p style=`padding: 2rem; text-align: center; color: var(--text-secondary);`>Error loading map</p>") w1)
         w1).

End FraudMap.

(** One velocity alert, lines 157-190. *)
Definition anomaly_html (anomaly : jsval) : result string :=
  let* severity := JS.get anomaly "severity" in
  let tone :=
    if JS.is_string severity "HIGH"
    then "var(--danger-color)" else "var(--warning-color)" in
  let* phone := JS.get anomaly "phone" in
  let* transaction_count := JS.get anomaly "transaction_count" in
  let* time_window := JS.get anomaly "time_window" in
  let* location_count := JS.get anomaly "location_count" in
  let* total_amount := JS.get anomaly "total_amount" in
  let* amount_text := JS.toFixed total_amount 2 in
  let* high_risk_count := JS.get anomaly "high_risk_count" in
  Ok (JSString.markup "
                <div class=`velocity-alert` style=`border-left-color: "
      +:+ tone
      +:+ JSString.markup ";`>
                    <div style=`display: flex; justify-content: space-between; align-items: center; margin-bottom: 0.5rem;`>
                        <strong style=`color: "
      +:+ tone
      +:+ JSString.markup ";`>
                            <i class=`bi bi-exclamation-triangle`></i> "
      +:+ JS.ToString severity
      +:+ JSString.markup " Severity Alert
                        </strong>
                        <span class=`severity-badge severity-"
      +:+ JS.ToString severity
      +:+ JSString.markup "`>"
      +:+ JS.ToString severity
      +:+ JSString.markup "</span>
                    </div>
                    <div class=`velocity-item`>
                        <span><i class=`bi bi-telephone`></i> Phone:</span>
                        <strong>"
      +:+ JS.ToString phone
      +:+ JSString.markup "</strong>
                    </div>
                    <div class=`velocity-item`>
                        <span><i class=`bi bi-lightning`></i> Rapid Transactions:</span>
                        <strong style=`color: var(--danger-color);`>"
      +:+ JS.ToString transaction_count
      +:+ " in "
      +:+ JS.ToString time_window
      +:+ JSString.markup "</strong>
                    </div>
                    <div class=`velocity-item`>
                        <span><i class=`bi bi-geo`></i> Different Locations:</span>
                        <strong>"
      +:+ JS.ToString location_count
      +:+ JSString.markup "</strong>
                    </div>
                    <div class=`velocity-item`>
                        <span><i class=`bi bi-currency-dollar`></i> Total Amount:</span>
                        <strong>$"
      +:+ amount_text
      +:+ JSString.markup "</strong>
                    </div>
                    <div class=`velocity-item`>
                        <span><i class=`bi bi-exclamation-octagon`></i> High Risk Count:</span>
                        <strong style=`color: var(--danger-color);`>"
      +:+ JS.ToString high_risk_count
      +:+ JSString.markup "</strong>
                    </div>
                    <button class=`btn-details` onclick=`window.location.href='/investigation/"
      +:+ JS.ToString phone
      +:+ JSString.markup "'` 
                            style=`margin-top: 0.75rem; width: 100%;`>
                        <i class=`bi bi-search`></i> Investigate This Pattern
                    </button>
                </div>
            ").

(** [function loadVelocityChecks()], lines 140-199. *)
Definition loadVelocityChecks (r : response) : promise unit :=
  Promise.catch
    (Promise.then_ (Promise.then_ (Promise.fetch r) Promise.json)
       (fun data w =>
          Promise.lift
            (let container := Dom.getElementById "velocityChecks" w in
             let* anomalies := JS.get data "anomalies" in
             let* len := JS.get anomalies "length" in
             if JS.is_zero len then
               Dom.assign container
                 (Dom.set_children
                    (Html (JSString.markup "
                    <div style=`text-align: center; padding: 2rem; color: var(--text-secondary);`>
                        <i class=`bi bi-check-circle` style=`font-size: 3rem; color: var(--success-color);`></i>
                        <p style=`margin-top: 1rem;`>No velocity anomalies detected</p>
                        <p style=`font-size: 0.85rem; margin-top: 0.5rem;`>All transaction patterns are within normal ranges</p>
                    </div>
                "))) w
             else
               let* items := JS.map anomalies anomaly_html in
               Dom.assign container
                 (Dom.set_children (Html (JSString.join EmptyString items))) w)
            w))
    (fun error w =>
       let w1 := Dom.console_log "Error loading velocity checks:" w in
       Promise.lift
         (set_html "velocityChecks"
            (JSString.markup "<p style=`color: var(--text-secondary); text-align: center; padding: 2rem;`>Error loading velocity data</p>") w1)
         w1).

(** One event of the behavior timeline, lines 221-255. *)
Definition event_html (event : jsval) : result string :=
  let* type := JS.get event "type" in
  let* lowered := JS.toLowerCase type in
  let markerClass :=
    "marker-" +:+ JSString.replace_all (fun c => Ascii.eqb c " ") "-" lowered in
  let icon :=
    if JS.is_string type "SIM Swap" then "bi-sim"
    else if JS.is_string type "Location Change" then "bi-geo-alt"
    else if JS.is_string type "Roaming" then "bi-globe"
    else if JS.is_string type "Device Offline" then "bi-phone-x"
    else "bi-activity" in
  let* severity := JS.get event "severity" in
  let severityColor :=
    if JS.is_string severity "CRITICAL" then "#991b1b"
    else if JS.is_string severity "HIGH" then "var(--danger-color)"
    else "var(--warning-color)" in
  let* timestamp := JS.get event "timestamp" in
  let* phone := JS.get event "phone" in
  let* details := JS.get event "details" in
  let* risk_level := JS.get event "risk_level" in
  let* risk_lowered := JS.toLowerCase risk_level in
  Ok (JSString.markup "
                    <div class=`timeline-event`>
                        <div class=`timeline-marker "
      +:+ markerClass
      +:+ JSString.markup "`></div>
                        <div class=`event-content`>
                            <div class=`event-header`>
                                <div class=`event-type`>
                                    <i class=`bi "
      +:+ icon
      +:+ JSString.markup "`></i>
                                    "
      +:+ JS.ToString type
      +:+ JSString.markup "
                                    <span class=`severity-badge severity-"
      +:+ JS.ToString severity
      +:+ JSString.markup "` style=`margin-left: 0.5rem;`>"
      +:+ JS.ToString severity
      +:+ JSString.markup "</span>
                                </div>
                                <div class=`event-time`><i class=`bi bi-clock`></i> "
      +:+ JS.ToString timestamp
      +:+ JSString.markup "</div>
                            </div>
                            <div class=`event-details` style=`margin-top: 0.5rem;`>
                                <strong style=`color: var(--text-primary);`><i class=`bi bi-telephone`></i> Phone:</strong> "
      +:+ JS.ToString phone
      +:+ JSString.markup "<br>
                                <strong style=`color: var(--text-primary);`><i class=`bi bi-info-circle`></i> Details:</strong> "
      +:+ JS.ToString details
      +:+ JSString.markup "
                            </div>
                            <div style=`margin-top: 0.5rem; padding-top: 0.5rem; border-top: 1px solid var(--border-color);`>
                                <span style=`font-size: 0.85rem; color: var(--text-secondary);`>Risk Level:</span>
                                <span class=`risk-badge "
      +:+ JSString.replace_first " " "-" risk_lowered
      +:+ JSString.markup "` style=`margin-left: 0.5rem;`>"
      +:+ JS.ToString risk_level
      +:+ "</span>
                            </div>
                        </div>
                    </div>
                ").

(** [function loadBehaviorTimeline()], lines 204-264. *)
Definition loadBehaviorTimeline (r : response) : promise unit :=
  Promise.catch
    (Promise.then_ (Promise.then_ (Promise.fetch r) Promise.json)
       (fun data w =>
          Promise.lift
            (let container := Dom.getElementById "behaviorTimeline" w in
             let* events := JS.get data "events" in
             let* len := JS.get events "length" in
             if JS.is_zero len then
               Dom.assign container
                 (Dom.set_children
                    (Html (JSString.markup "
                    <div style=`text-align: center; padding: 2rem; color: var(--text-secondary);`>
                        <i class=`bi bi-info-circle` style=`font-size: 2rem;`></i>
                        <p style=`margin-top: 1rem;`>No network behavior events detected</p>
                        <p style=`font-size: 0.85rem; margin-top: 0.5rem;`>All network activities are normal</p>
                    </div>
                "))) w
             else
               let* items := JS.map events event_html in
               Dom.assign container
                 (Dom.set_children (Html (JSString.join EmptyString items))) w)
            w))
    (fun error w =>
       let w1 := Dom.console_log "Error loading behavior timeline:" w in
       Promise.lift
         (set_html "behaviorTimeline"
            (JSString.markup "<p style=`color: var(--text-secondary); text-align: center; padding: 2rem;`>Error loading timeline</p>") w1)
         w1).

End Analytics.

(** ** script.js: the two input formatters *)

Module Inputs.

Definition set_value (v : string) (e : element) : element :=
  Element (className e) (children e) (divs e) (parentElement e) v
          (disabled e) (display e) (animation e) (opacity e) (cursor e).

(** The value that the [input] listener of the phone field leaves, lines
    200-207: [value.replace(/\D/g, '')], and the [+] prefix when the field
    does not start with one. *)
Definition formatPhone (current : string) : string :=
  let value := JSString.filter JSString.is_digit current in
  match value with
  | EmptyString => current
  | _ => if JSString.startsWith "+" current then current else "+" +:+ value
  end.

(** The value that the [blur] listener of the amount field leaves, lines
    213-218. *)
Definition formatAmount (current : string) : string :=
  let value := Number.parseFloat current in
  if negb (Number.isNaN value) then Number.toFixed value 2 else current.

(** The listeners, on the field they are attached to: [e.target] is the
    field. *)
Definition onPhoneInput (target : node) (w : world) : world :=
  Dom.update target (fun e => set_value (formatPhone (value e)) e) w.

Definition onAmountBlur (target : node) (w : world) : world :=
  Dom.update target (fun e => set_value (formatAmount (value e)) e) w.

End Inputs.

(** ** typing-animation.js *)

Module Typing.

Definition textToType : string := "FraudHive - Network Intelligence Platform".
Definition typingSpeed : Z := 120.
Definition deletingSpeed : Z := 50.
Definition pauseBeforeDelete : Z := 2000.
Definition pauseBeforeRetype : Z := 1000.

(** What a timer of the script runs. *)
Inductive task :=
| TypeText          (* typeText *)
| TypeTextOnce      (* typeTextOnce, and () => { typeTextOnce(); } *)
| StartDeleting     (* () => { isDeleting = true; isPaused = false; typeText(); } *)
| HideCursor.       (* () => { document.querySelector('.typing-cursor').style.display = 'none'; } *)

(** The variables of the script, the two elements it writes to, and the
    timers: [typingText] is the text of the element that [typingElement]
    holds, [None] when the handle is [null]; [cursor] is the [display] of
    the first element of class [typing-cursor], [None] when there is none.
    [charIndex] only takes the values from 0 to the length of the text.
    Each timer is kept with the time at which it is due. *)
Record state := State {
  charIndex : nat;
  isDeleting : bool;
  isPaused : bool;
  typingText : option string;
  cursor : option string;
  clock : Z;
  timers : list (Z * task)      (* in the order in which they were armed *)
}.

Definition set_charIndex (v : nat) (s : state) : state :=
  State v (isDeleting s) (isPaused s) (typingText s) (cursor s) (clock s)
        (timers s).
Definition set_isDeleting (v : bool) (s : state) : state :=
  State (charIndex s) v (isPaused s) (typingText s) (cursor s) (clock s)
        (timers s).
Definition set_isPaused (v : bool) (s : state) : state :=
  State (charIndex s) (isDeleting s) v (typingText s) (cursor s) (clock s)
        (timers s).
Definition set_timers (v : list (Z * task)) (s : state) : state :=
  State (charIndex s) (isDeleting s) (isPaused s) (typingText s) (cursor s)
        (clock s) v.
Definition set_clock (v : Z) (s : state) : state :=
  State (charIndex s) (isDeleting s) (isPaused s) (typingText s) (cursor s)
        v (timers s).

(** [typingElement.textContent = t] *)
Definition set_textContent (t : string) (s : state) : result state :=
  match typingText s with
  | Some _ =>
      Ok (State (charIndex s) (isDeleting s) (isPaused s) (Some t) (cursor s)
                (clock s) (timers s))
  | None => Throw TypeError
  end.

Definition setTimeout (k : task) (ms : Z) (s : state) : state :=
  set_timers (timers s ++ [(clock s + ms, k)]) s.

(** [textToType.substring(0, n)] *)
Definition substring (n : nat) : string := JSString.take n textToType.

(** [function typeText()], lines 13-39. An exception leaves the
    variables as they are when it is raised. *)
Definition typeText (s : state) : result unit * state :=
  if negb (isDeleting s) && (charIndex s <? String.length textToType)%nat then
    (* Typing forward *)
    match set_textContent (substring (charIndex s + 1)) s with
    | Throw e => (Throw e, s)
    | Ok s1 =>
        let s2 := set_charIndex (charIndex s1 + 1) s1 in
        (Ok tt, setTimeout TypeText typingSpeed s2)
    end
  else if negb (isDeleting s)
          && (charIndex s =? String.length textToType)%nat then
    (* Reached end, pause then start deleting *)
    if negb (isPaused s) then
      (Ok tt, setTimeout StartDeleting pauseBeforeDelete (set_isPaused true s))
    else (Ok tt, s)
  else if isDeleting s && (0 <? charIndex s)%nat then
    (* Deleting backward *)
    let s1 := set_charIndex (charIndex s - 1) s in
    match set_textContent (substring (charIndex s1)) s1 with
    | Throw e => (Throw e, s1)
    | Ok s2 => (Ok tt, setTimeout TypeText deletingSpeed s2)
    end
  else if isDeleting s && (charIndex s =? 0)%nat then
    (* Finished deleting, pause then start retyping *)
    (Ok tt, setTimeout TypeText pauseBeforeRetype (set_isDeleting false s))
  else (Ok tt, s).

(** [function typeTextOnce()], lines 42-53. *)
Definition typeTextOnce (s : state) : result unit * state :=
  if (charIndex s <? String.length textToType)%nat then
    match set_textContent (substring (charIndex s + 1)) s with
    | Throw e => (Throw e, s)
    | Ok s1 =>
        let s2 := set_charIndex (charIndex s1 + 1) s1 in
        (Ok tt, setTimeout TypeTextOnce typingSpeed s2)
    end
  else
    (* Hide cursor after typing completes *)
    (Ok tt, setTimeout HideCursor 1000 s).

Definition run (k : task) (s : state) : result unit * state :=
  match k with
  | TypeText => typeText s
  | TypeTextOnce => typeTextOnce s
  | StartDeleting => typeText (set_isPaused false (set_isDeleting true s))
  | HideCursor =>
      match cursor s with
      | Some _ =>
          (Ok tt, State (charIndex s) (isDeleting s) (isPaused s)
                        (typingText s) (Some "none") (clock s) (timers s))
      | None => (Throw TypeError, s)
      end
  end.

(** The timer that fires next: the one that is due first, and among
    timers due at the same time the one armed first. The others stay. *)
Fixpoint next (l : list (Z * task))
  : option ((Z * task) * list (Z * task)) :=
  match l with
  | [] => None
  | t :: r =>
      match next r with
      | Some (u, r') =>
          if fst u <? fst t then Some (u, t :: r') else Some (t, r)
      | None => Some (t, [])
      end
  end.

(** The next timer fires, at the time it is due; [None] when no timer is
    armed. *)
Definition fire (s : state) : option (result unit * state) :=
  match next (timers s) with
  | Some ((due, k), rest) => Some (run k (set_clock due (set_timers rest s)))
  | None => None
  end.

(** [n] timers fire in a row, none of them ending in an exception. *)
Fixpoint fires (n : nat) (s : state) : option state :=
  match n with
  | O => Some s
  | S n' =>
      match fire s with
      | Some (Ok _, s') => fires n' s'
      | _ => None
      end
  end.

(** The [DOMContentLoaded] listener, lines 56-60, on the variables as the
    script sets them when it is loaded, lines 7-11. *)
Definition loaded (text cursor : option string) : state :=
  setTimeout TypeTextOnce 500 (State 0 false false text cursor 0 []).

End Typing.

(** ** script.js: the animated counters *)

Module Counters.

Definition add (x y : number) : number := SFadd Number.prec Number.emax x y.
Definition sub (x y : number) : number := SFsub Number.prec Number.emax x y.

(** [Math.round(x)]: the nearest integer, a tie going up; [-0] for a
    negative [x] from [-0.5] on. *)
Definition round (x : number) : number :=
  match x with
  | S754_finite s m e =>
      if 0 <=? e then x
      else
        let d := 2 ^ (- e) in
        let q := (2 * (if s then Z.neg m else Z.pos m) + d) / (2 * d) in
        if q =? 0 then S754_zero s else Number.of_Z q
  | _ => x
  end.

(** [parseInt(input)], without a radix: white space, a sign, [0x] for
    radix 16, then the digits up to the first character that is none. *)
Definition parseInt (input : string) : number :=
  let s := JSString.trimStart input in
  let '(neg, s1) :=
    match s with
    | String "-" r => (true, r)
    | String "+" r => (false, r)
    | _ => (false, s)
    end in
  let '(radix, s2) :=
    match s1 with
    | String "0" (String c r) =>
        if Ascii.eqb c "x" || Ascii.eqb c "X" then (16%N, r) else (10%N, s1)
    | _ => (10%N, s1)
    end in
  let is_digit c := match JS.radix_digit radix c with
                    | Some _ => true
                    | None => false
                    end in
  match JS.radix_value radix (fst (JSString.span is_digit s2)) with
  | None => Number.NaN
  | Some v =>
      if v =? 0 then S754_zero neg
      else Number.of_Z (if neg then - v else v)
  end.

(** [x === v] for a Number [x] *)
Definition strict_equal (x : number) (v : jsval) : bool :=
  match v with
  | JNum y => Number.eqb x y
  | _ => false
  end.

(** What the callback of [setInterval] holds: the element, the value to
    reach, and the variables [increment], [current] and [step]. *)
Record interval := Interval {
  target : node;
  newValue : jsval;
  increment : number;
  current : number;
  step : nat
}.

Definition duration : Z := 500.
Definition steps : nat := 20.

(** The delay of the interval, [duration / steps]. *)
Definition delay : Z := duration / Z.of_nat steps.

Section Counter.

(** The text of an element whose content was set as markup is what the
    browser makes of the markup: it is taken as given. *)
Variable text_of_markup : string -> string.

(** [element.textContent] *)
Definition textContent (e : element) : string :=
  match children e with
  | Text t => t
  | Html h => text_of_markup h
  end.

(** [function animateValue(id, newValue)], lines 403-428: the interval
    that the call arms, if any. The call itself writes nothing. *)
Definition animateValue (id : string) (newValue : jsval) (w : world)
  : option interval :=
  match Dom.getElementById id w with
  | None => None
  | Some element =>
      match doc w !! element with
      | None => None
      | Some e =>
          let parsed := parseInt (textContent e) in
          let currentValue :=
            if JS.truthy (JNum parsed) then parsed else Number.zero in
          if strict_equal currentValue newValue then None
          else
            Some (Interval element newValue
                    (Number.div (sub (JS.ToNumber newValue) currentValue)
                                (Number.of_Z (Z.of_nat steps)))
                    currentValue 0)
      end
  end.

End Counter.

(** The callback of the interval, lines 417-427: the page it leaves, and
    the interval when it is not cleared. *)
Definition tick (i : interval) (w : world) : world * option interval :=
  let step' := S (step i) in
  let current' := add (current i) (increment i) in
  if (steps <=? step')%nat then
    (Dom.update (target i) (Dom.set_children (Dom.text_of (newValue i))) w,
     None)
  else
    (Dom.update (target i)
       (Dom.set_children (Dom.text_of (JNum (round current')))) w,
     Some (Interval (target i) (newValue i) (increment i) current' step')).

(** The interval fires [n] times, or until it is cleared. *)
Fixpoint ticks (n : nat) (i : interval) (w : world) : world * option interval :=
  match n with
  | O => (w, Some i)
  | S n' =>
      match tick i w with
      | (w', Some i') => ticks n' i' w'
      | (w', None) => (w', None)
      end
  end.

End Counters.

(** ** llm_explanation.js: the loader of the investigation page *)

Module Investigation.

(** A renderer as a step of a sequence: it writes to the page once, at
    its end, so that an exception leaves the page as the renderer found
    it. *)
Definition attempt (f : world -> result world) : promise unit :=
  fun w => Promise.lift (f w) w.

(** [function displayLLMExplanation(llmData, transactionData)], lines
    508-528, with the page that an exception leaves: the sections that
    were populated before it stay. *)
Definition displayLLMExplanation (llmData transactionData : jsval)
  : promise unit :=
  fun w =>
    if negb (JS.truthy llmData) then
      Promise.done (Dom.console_log "No LLM explanation data available" w)
    else
      let w :=
        match Dom.getElementById "llmExplanation" w with
        | Some section => Dom.update section (Dom.set_display "block") w
        | None => w
        end in
      Promise.then_ (attempt (Llm.populateExecutiveSummary llmData)) (fun _ =>
      Promise.then_ (attempt (Llm.populateDetailedAnalysis llmData)) (fun _ =>
      Promise.then_
        (attempt (Llm.populateBehavioralInsights llmData transactionData))
        (fun _ =>
      Promise.then_ (attempt (Llm.populateRiskFactors llmData)) (fun _ =>
      Promise.then_
        (attempt (Llm.populateNetworkIntelligence llmData transactionData))
        (fun _ =>
      Promise.then_ (attempt (Llm.populateRecommendations llmData)) (fun _ =>
      attempt (Llm.populateCustomerTimeline llmData))))))) w.

(** The address that the loader fetches, line 884. *)
Definition explanation_url (phoneNumber : string) : string :=
  "/api/get-llm-explanation/" +:+ phoneNumber.

(** The transaction that the loader hands to the renderers, lines
    889-891. *)
Definition transaction_of (explanation : jsval) : jsval :=
  JObj [("camara_data",
         JS.or (JS.get_opt explanation "camara_intelligence") (JObj []))].

(** [async function loadLLMExplanationForPhone(phoneNumber)], lines
    882-897: what runs when the [fetch] settles. The [try] block covers the
    two [await]s and what follows them. *)
Definition loadLLMExplanationForPhone (r : response) : promise unit :=
  Promise.catch
    (Promise.then_ (Promise.then_ (Promise.fetch r) Promise.json)
       (fun data w =>
          match JS.get data "success" with
          | Throw e => (Throw e, w)
          | Ok success =>
              let explanation := JS.get_opt data "explanation" in
              if JS.truthy success && JS.truthy explanation then
                displayLLMExplanation explanation (transaction_of explanation)
                  w
              else
                Promise.done
                  (Dom.console_log "Failed to load LLM explanation:" w)
          end))
    (fun error w =>
       Promise.done (Dom.console_log "Error loading LLM explanation:" w)).

End Investigation.

(** ** logs.js: closing the details *)

Module Modal.

(** [function closeModal()], lines 324-326. *)
Definition closeModal (w : world) : result world :=
  Dom.assign (Dom.getElementById "detailsModal" w) (Dom.set_display "none") w.

(** [window.onclick = function(event) { ... }], lines 329-334, for a click
    whose [event.target] is the node [target]. *)
Definition onclick (target : node) (w : world) : world :=
  let modal := Dom.getElementById "detailsModal" w in
  match modal with
  | Some m => if decide (target = m) then Dom.update m (Dom.set_display "none") w
              else w
  | None => w
  end.

End Modal.

(** * Vocabulary of the statements *)

Module Spec.

(** The four colours of a heatmap cell. *)
Definition neutral_color : string := "#1a1f29".
Definition low_color : string := "#10b981".
Definition mid_color : string := "#f59e0b".
Definition high_color : string := "#ef4444".

Definition percent (z : Z) : number := Number.of_Z z.

(** The phone check of the submit listener, line 17. *)
Definition phone_accepted (value : string) : bool :=
  Script.phoneRegex_test (Script.strip_separators value).

(** The amount check of the submit listener, lines 24-25. *)
Definition amount_accepted (value : string) : bool :=
  let amount := Number.parseFloat value in
  negb (Number.isNaN amount || Number.leb amount (Number.of_Z 0)).

Definition phone_message : string :=
  "Please enter a valid phone number (e.g., +1234567890)".
Definition amount_message : string :=
  "Please enter a valid amount greater than 0".
Definition confirm_message : string :=
  "This is a large transaction amount. Are you sure you want to proceed?".

(** The input at [n] holds [text] and sits in a parent element. *)
Definition input_on_page (n : node) (text : string) (w : world) : Prop :=
  exists e p,
    doc w !! n = Some e /\ value e = text
    /\ parentElement e = Some p /\ is_Some (doc w !! p).

(** The last child of the parent of the input at [n] is a validation
    error carrying [message]. *)
Definition inline_error (n : node) (message : string) (w : world) : Prop :=
  exists e p pe d,
    doc w !! n = Some e /\ parentElement e = Some p
    /\ doc w !! p = Some pe /\ last (divs pe) = Some d
    /\ div_class d = "validation-error"
    /\ div_html d
       = JSString.markup "<i class=`bi bi-exclamation-circle`></i> " +:+ message.

(** An element with nothing set. *)
Definition blank : element :=
  Element EmptyString (Text EmptyString) [] None EmptyString false
          EmptyString EmptyString EmptyString EmptyString.

Definition input_in (parent : node) (text : string) : element :=
  Element EmptyString (Text EmptyString) [] (Some parent) text false
          EmptyString EmptyString EmptyString EmptyString.

(** A page with the prediction form: the two inputs, each in a group of
    its own, and the loading overlay. *)
Definition form_page (phone amount : string) : world :=
  World (list_to_map
           [(inl "phone_number", input_in (inr 0%nat) phone);
            (inl "transaction_amount", input_in (inr 1%nat) amount);
            (inr 0%nat, blank); (inr 1%nat, blank);
            (inl "loadingOverlay", blank)])
        [] [] [].

Definition button (class : string) : element :=
  Element class (Text EmptyString) [] None EmptyString false
          EmptyString EmptyString EmptyString EmptyString.

(** A results page: a button of each of the two feedback classes and the
    message area. *)
Definition feedback_page : world :=
  World (list_to_map
           [(inr 0%nat, button "feedback-btn-compact");
            (inr 1%nat, button "btn-feedback");
            (inl "feedbackMessage", blank)])
        [] [] [].

(** The message that the first [submitFeedback] shows for a category. *)
Definition category_message (feedbackType : string) : string :=
  if String.eqb feedbackType "correct"
  then "Thank you! Your feedback helps improve our AI model."
  else if String.eqb feedbackType "false_positive"
  then "Noted. We'll review this case to improve accuracy."
  else if String.eqb feedbackType "under_review"
  then "Marked for review. Our team will investigate."
  else "Feedback received!".

(** The markup of an element, when it was set through [innerHTML]. *)
Definition html_of (n : node) (w : world) : option string :=
  match doc w !! n with
  | Some e =>
      match children e with
      | Html h => Some h
      | Text _ => None
      end
  | None => None
  end.

(** The text of an element, when it was set through [textContent]. *)
Definition text_of (n : node) (w : world) : option string :=
  match doc w !! n with
  | Some e =>
      match children e with
      | Text t => Some t
      | Html _ => None
      end
  | None => None
  end.

(** The static error markup of the first [submitFeedback], lines
    155-160. *)
Definition feedback_error_html : string :=
  JSString.markup "
                <div style=`padding: 1rem; background: rgba(239, 68, 68, 0.1); border: 1px solid #ef4444; border-radius: 8px; color: #ef4444; margin-top: 1rem;`>
                    <i class=`bi bi-exclamation-triangle` style=`margin-right: 0.5rem;`></i>
                    Failed to submit feedback. Please try again.
                </div>
            ".

(** The area of the recent transactions and its placeholder. *)
Definition recent_logs : node := inl "recentLogs".
Definition no_transactions_html : string :=
  JSString.markup "<div class=`loading-placeholder`>No transactions yet</div>".


(** A page with the area of the recent transactions. *)
Definition home_page : world :=
  World (list_to_map [(inl "recentLogs", blank)]) [] [] [].

Definition sample_log (phone : string) : jsval :=
  JObj [("phone_number", JStr phone); ("timestamp", JStr "2025-01-01 10:00");
        ("transaction_amount", JNum (Number.of_Z 120));
        ("risk_level", JStr "Low Risk")].

(** The static error markup of the four dashboard widgets. *)
Definition heatmap_error_html : string :=
  JSString.markup "<p style=`color: var(--text-secondary); text-align: center; padding: 2rem;`>Error loading heatmap data</p>".
Definition map_error_html : string :=
  JSString.markup "<p style=`padding: 2rem; text-align: center; color: var(--text-secondary);`>Error loading map</p>".
Definition velocity_error_html : string :=
  JSString.markup "<p style=`color: var(--text-secondary); text-align: center; padding: 2rem;`>Error loading velocity data</p>".
Definition timeline_error_html : string :=
  JSString.markup "<p style=`color: var(--text-secondary); text-align: center; padding: 2rem;`>Error loading timeline</p>".

(** The fetch fails: the network does, or the body is not JSON. *)
Definition fetch_fails (r : response) : Prop :=
  r = NetworkFailure \/ r = Response None.

(** The analytics page, with the containers of its four widgets. *)
Definition analytics_page : world :=
  World (list_to_map
           [(inl "heatmapContainer", blank); (inl "fraudMap", blank);
            (inl "velocityChecks", blank); (inl "behaviorTimeline", blank)])
        [] [] [].

(** A datum is missing: the property is absent, or it is null. *)
Definition missing (v : jsval) : Prop := v = JUndefined \/ v = JNull.

(** The fields of the details modal that show one property of the log:
    element id and property. *)
Definition plain_fields : list (string * string) :=
  [("modalPhone", "phone_number"); ("modalTimestamp", "timestamp");
   ("modalRiskLevel", "risk_level"); ("modalVintage", "customer_vintage");
   ("modalRiskRating", "risk_rating"); ("modalSegment", "segment");
   ("modalOccupation", "occupation"); ("modalCountry", "country");
   ("modalCity", "city"); ("modalGeoRestriction", "geo_restriction");
   ("modalPepFlag", "pep_flag"); ("modalTxnCount", "txn_count_1h");
   ("modalReversals", "credit_reversals_7d")].

(** The fields of the details modal that show the network intelligence. *)
Definition network_fields : list string :=
  ["modalSimSwap"; "modalSimSwapDate"; "modalLocationVerified";
   "modalLocationDistance"; "modalRoamingStatus"; "modalCurrentNetwork";
   "modalDeviceStatus"; "modalSignalStrength"].

Definition explanation_fields : list string :=
  ["triggeredRulesSection"; "modalTriggeredRules"; "modalExplanationSummary";
   "modalExplanationFactors"].

(** Every element that [showDetails] writes to. *)
Definition modal_ids : list string :=
  ["modalAmount"; "modalProbability"; "detailsModal"]
  ++ List.map fst plain_fields ++ network_fields ++ explanation_fields.


(** The logs page, with the elements of the details modal. *)
Definition logs_page : world :=
  World (list_to_map (List.map (fun id => (inl id : node, blank)) modal_ids))
        [] [] [].

(** The value is missing or is a Number; missing or a string. *)
Definition number_if_any (v : jsval) : bool :=
  negb (JS.truthy v) || match v with
                        | JNum _ => true
                        | _ => false
                        end.
Definition string_if_any (v : jsval) : bool :=
  negb (JS.truthy v) || match v with
                        | JStr _ => true
                        | _ => false
                        end.

Definition not_nullish (v : jsval) : bool :=
  match v with
  | JUndefined | JNull => false
  | _ => true
  end.

(** The value is missing or is an array, of entries that are not null
    when [entries] is set. *)
Definition array_if_any (entries : bool) (v : jsval) : bool :=
  negb (JS.truthy v)
  || match v with
     | JArr items => negb entries || forallb not_nullish items
     | _ => false
     end.




(** A log with a phone number, a probability, a risk level and an
    explanation summary, and nothing else. *)
Definition partial_log : jsval :=
  JObj [("phone_number", JStr "+14155551234");
        ("fraud_probability", JNum (Number.of_Z 1));
        ("risk_level", JStr "High Risk");
        ("explanation", JObj [("summary", JStr "Velocity rule triggered")])].

(** The data of the SIM swap date, of the location distance, of the
    explanation summary and of the explanation factors in a log. *)
Definition swap_date (camara_data : jsval) : jsval :=
  JS.get_opt (JS.or (JS.get_opt camara_data "sim_swap") (JObj []))
             "last_swap_date".
Definition distance (camara_data : jsval) : jsval :=
  JS.get_opt (JS.or (JS.get_opt camara_data "location") (JObj []))
             "distance_meters".
Definition summary (explanation : jsval) : jsval :=
  JS.get_opt explanation "summary".
Definition factors (explanation : jsval) : jsval :=
  JS.get_opt explanation "factors".

(** The placeholders of the explanation panel: no behavioral insights,
    line 627; no risk factors, lines 640-645; no timeline, lines
    843-848. *)
Definition no_insights_html : string :=
  JSString.markup "<p style=`color: var(--text-secondary);`>No behavioral insights available</p>".
Definition no_risk_factors_html : string :=
  JSString.markup "
            <div style=`text-align: center; padding: 2rem; color: var(--text-secondary);`>
                <i class=`bi bi-check-circle` style=`font-size: 3rem; color: var(--success-color);`></i>
                <p style=`margin-top: 1rem;`>No significant risk factors detected</p>
            </div>
        ".
Definition no_history_html : string :=
  JSString.markup "
            <div style=`text-align: center; padding: 2rem; color: var(--text-secondary);`>
                <i class=`bi bi-inbox` style=`font-size: 2rem;`></i>
                <p style=`margin-top: 0.5rem;`>No recent transaction history available</p>
            </div>
        ".

(** The list that the timeline shows, lines 837-838. *)
Definition recent_transactions (llmData : jsval) : jsval :=
  JS.or (JS.or (JS.get_opt (JS.get_opt llmData "customer_profile")
                           "recent_transactions")
               (JS.get_opt (JS.get_opt llmData "historical_context")
                           "recent_transactions"))
        (JArr []).

(** An entry of the timeline carries its amount, a Number. *)
Definition entry_well_typed (txn : jsval) : bool :=
  match JS.get_opt txn "amount" with
  | JNum _ => true
  | _ => false
  end.

(** An explanation whose present fields have the types that the renderers
    read: strings for the two analysis texts, a Number for the average
    amount of the profile, arrays for the risk factors (of non-null
    factors), for the two lists of the recommendation and for the recent
    transactions. Every field may be absent. *)
Definition llm_well_typed (llmData : jsval) : bool :=
  string_if_any (JS.get_opt llmData "detailed_analysis")
  && string_if_any (JS.get_opt llmData "behavioral_insights")
  && number_if_any
       (JS.get_opt (JS.get_opt llmData "customer_profile") "average_amount")
  && array_if_any true (JS.get_opt llmData "risk_factors")
  && array_if_any false
       (JS.get_opt (JS.get_opt llmData "recommendation") "next_steps")
  && array_if_any false
       (JS.get_opt (JS.get_opt llmData "recommendation")
                   "additional_info_needed")
  && match recent_transactions llmData with
     | JArr items => forallb entry_well_typed items
     | _ => false
     end.


(** What one renderer does to the page: it sets the content of its
    element, or it leaves the page as it is. *)
Definition rendering (id : string) (c : option content) (w : world) : world :=
  match c with
  | Some c => Dom.update (inl id) (Dom.set_children c) w
  | None => w
  end.

(** An explanation with an executive summary and one risk factor only, and
    the transaction that goes with it. *)
Definition partial_explanation : jsval :=
  JObj [("executive_summary", JStr "Two rules fired.");
        ("risk_factors",
         JArr [JObj [("factor", JStr "Velocity"); ("severity", JStr "high")]])].

(** The explanation panel, with the elements of the seven sections. *)
Definition explanation_page : world :=
  World (list_to_map
           (List.map (fun id => (inl id : node, blank))
              ["llmExplanation"; "executiveSummary";
               "detailedAnalysisContent"; "behavioralInsightsContent";
               "riskFactorsContent"; "networkIntelContent";
               "recommendationsContent"; "customerTimelineViz"]))
        [] [] [].

(** [t] occurs in [s]. *)
Definition occurs_in (t s : string) : Prop :=
  exists pre post, s = pre +:+ t +:+ post.

(** The phone cell contains the search term, letter case aside, and the
    risk level is the selected one or every level is selected. *)
Definition row_matches (term selected phone : string) (risk : option string)
  : Prop :=
  occurs_in (JSString.toLowerCase term) (JSString.toLowerCase phone)
  /\ (selected = "all" \/ risk = Some selected).

Definition visible (r : Logs.row) : Prop := Logs.row_display r = EmptyString.
Definition hidden (r : Logs.row) : Prop := Logs.row_display r = "none".

(** Three rows of the logs table: index, phone number, amount. *)
Definition sample_rows : list Logs.row :=
  [Logs.Row ["1"; "+14155551234"; "120.00"] (Some "High Risk")
            EmptyString EmptyString;
   Logs.Row ["2"; "+442071838750"; "15.00"] (Some "Low Risk")
            EmptyString EmptyString;
   Logs.Row ["3"; "+14155550000"; "9.99"] (Some "Low Risk")
            EmptyString EmptyString].

Definition disabled_at (n : node) (w : world) : option bool :=
  disabled <$> doc w !! n.

(** *** Colours *)

(** A hexadecimal digit, in one of the two letter cases. *)
Definition hex_digit (upper : bool) (n : Z) : ascii :=
  ascii_of_N (Z.to_N n + (if n <? 10 then 48 else if upper then 55 else 87)).

(** The two hexadecimal digits of a colour component. *)
Definition hex2 (upper : bool) (n : Z) : string :=
  String (hex_digit upper (n / 16))
         (String (hex_digit upper (n mod 16)) EmptyString).

(** The colour [#rrggbb], with or without its sign. *)
Definition hex_color (sign : bool) (ur ug ub : bool) (r g b : Z) : string :=
  (if sign then "#" else EmptyString)
  +:+ hex2 ur r +:+ hex2 ug g +:+ hex2 ub b.

(** The triple [r, g, b] of three integers, each printed as the Number
    it is. *)
Definition rgb (r g b : Z) : string :=
  Number.toString (Number.of_Z r) +:+ ", "
  +:+ Number.toString (Number.of_Z g) +:+ ", "
  +:+ Number.toString (Number.of_Z b).

Definition component (n : Z) : Prop := 0 <= n < 256.

(** The text is six hexadecimal digits, after an optional sign. *)
Definition is_hex_digit (c : ascii) : bool :=
  JSString.is_digit c || JSString.in_range 97 102 c
  || JSString.in_range 65 70 c.
Definition is_hex_color (hex : string) : bool :=
  let h := match hex with
           | String "#" r => r
           | _ => hex
           end in
  (String.length h =? 6)%nat && JSString.every is_hex_digit h.

(** *** Phone numbers *)

(** A separator of the phone check: white space or a hyphen. *)
Definition is_separator (c : ascii) : bool :=
  JSString.is_space c || Ascii.eqb c "-".

Definition digits (s : string) : string := JSString.filter JSString.is_digit s.

(** A character that an accepted phone number may hold. *)
Definition phone_char (c : ascii) : bool :=
  JSString.is_digit c || is_separator c || Ascii.eqb c "+".

(** The two facts about a component that are checked on each of the 256
    values: its two digits read back, and its first digit is not the
    sign. *)
Definition component_ok (upper : bool) (n : Z) : bool :=
  match JS.radix_value 16 (hex2 upper n) with
  | Some v => v =? n
  | None => false
  end
  && negb (Ascii.eqb (hex_digit upper (n / 16)) "#").

(** The text that the phone pattern reads after the optional sign. *)
Definition unsigned (s : string) : string :=
  match s with
  | String "+" r => r
  | _ => s
  end.

(** *** Validation errors *)

Definition is_error (d : div) : bool :=
  Script.has_div_class "validation-error" d.

(** The validation errors under an element, and its other children. *)
Definition errors (e : element) : list div := List.filter is_error (divs e).
Definition other_divs (e : element) : list div :=
  List.filter (fun d => negb (is_error d)) (divs e).

(** The error markup of the recent transactions, script.js line 350. *)
Definition transactions_error_html : string :=
  JSString.markup "<div class=`loading-placeholder`>Error loading transactions</div>".

(** The placeholders of the velocity checks, analytics.js lines 147-153,
    and of the behavior timeline, lines 211-217. *)
Definition no_anomalies_html : string :=
  JSString.markup "
                    <div style=`text-align: center; padding: 2rem; color: var(--text-secondary);`>
                        <i class=`bi bi-check-circle` style=`font-size: 3rem; color: var(--success-color);`></i>
                        <p style=`margin-top: 1rem;`>No velocity anomalies detected</p>
                        <p style=`font-size: 0.85rem; margin-top: 0.5rem;`>All transaction patterns are within normal ranges</p>
                    </div>
                ".
Definition no_events_html : string :=
  JSString.markup "
                    <div style=`text-align: center; padding: 2rem; color: var(--text-secondary);`>
                        <i class=`bi bi-info-circle` style=`font-size: 2rem;`></i>
                        <p style=`margin-top: 1rem;`>No network behavior events detected</p>
                        <p style=`font-size: 0.85rem; margin-top: 0.5rem;`>All network activities are normal</p>
                    </div>
                ".

(** *** The heatmap *)

(** The cell of an hour with no transactions: both colours are the neutral
    one, the counts and the rate are zero. *)
Definition empty_cell (hour : nat) : string :=
  JSString.markup "
                            <div class=`heatmap-cell` 
                                 style=`background: "
      +:+ "#1a1f29"
      +:+ "; color: "
      +:+ "#1a1f29"
      +:+ JSString.markup ";` 
                                 title=`Hour "
      +:+ pretty hour
      +:+ ":00
Total: "
      +:+ "0"
      +:+ " transactions
High Risk: "
      +:+ "0"
      +:+ "
Fraud Rate: "
      +:+ "0"
      +:+ JSString.markup "%`
                                 onclick=`showHourDetails("
      +:+ pretty hour
      +:+ ", "
      +:+ "{&quot;total&quot;:0,&quot;high_risk&quot;:0,&quot;fraud_rate&quot;:0}"
      +:+ JSString.markup ")`>
                                "
      +:+ pretty hour
      +:+ JSString.markup "h
                                <br>
                                <small style=`font-size: 0.6rem;`>"
      +:+ "0"
      +:+ "%</small>
                            </div>
                        ".

(** *** The submit listener *)

(** A class token: not empty, and without ASCII white space. *)
Definition is_token (t : string) : bool :=
  negb (String.eqb t EmptyString)
  && JSString.every (fun c => negb (Dom.is_ascii_whitespace c)) t.

(** The submission goes through: both checks pass, and the user confirms
    an amount above 1,000,000. *)
Definition goes_through (phone amount : string) (answer : bool) : bool :=
  phone_accepted phone && amount_accepted amount
  && (negb (Number.gtb (Number.parseFloat amount) (Number.of_Z 1000000))
      || answer).

(** *** The typing animation *)

(** The loop of [typeText] is set: the index is within the text, the
    element is there, and exactly one timer is armed, which ends the pause
    when the script is paused at the end of the text and calls [typeText]
    otherwise. *)
Definition looping (s : Typing.state) : Prop :=
  (Typing.charIndex s <= String.length Typing.textToType)%nat
  /\ is_Some (Typing.typingText s)
  /\ (exists due,
         Typing.timers s
         = [(due, if Typing.isPaused s then Typing.StartDeleting
                  else Typing.TypeText)])
  /\ (Typing.isPaused s = true ->
      Typing.isDeleting s = false
      /\ Typing.charIndex s = String.length Typing.textToType).

(** The element shows the text up to the index. *)
Definition shows_prefix (s : Typing.state) : Prop :=
  Typing.typingText s = Some (Typing.substring (Typing.charIndex s)).

(** *** Feedback *)

Definition feedback_message : node := inl "feedbackMessage".

(** A button after [btn.disabled = true; btn.style.opacity = '0.5';
    btn.style.cursor = 'not-allowed']. *)
Definition switched_off (e : element) : element :=
  Dom.set_cursor "not-allowed" (Dom.set_opacity "0.5" (Dom.set_disabled true e)).

(** The message element after the three assignments of a handler. *)
Definition message_shown (text : content) (class : string) (e : element)
  : element :=
  Dom.set_display "block" (Dom.set_className class (Dom.set_children text e)).

(** No usable reply: the fetch fails, or the body is [null] and the
    handler, having found the message element, reads a member of it. *)
Definition no_reply (r : response) (w : world) : Prop :=
  fetch_fails r
  \/ (r = Response (Some JNull)
      /\ is_Some (doc w !! (inl "feedbackMessage" : node))).

(** *** The details modal, with its network data *)





(** The triggered rules of an explanation. *)
Definition rules (explanation : jsval) : jsval :=
  JS.get_opt explanation "triggered_rules".



(** *** The defaults of the explanation panel *)









End Spec.

(** * Properties *)

(** ** Numbers *)

Module NumberFacts.

Lemma of_Z_0 : Number.of_Z 0 = S754_zero false.
Proof. reflexivity. Qed.

Lemma of_Z_1 : Number.of_Z 1 = S754_finite false 4503599627370496 (-52).
Proof. reflexivity. Qed.

Lemma of_Z_20 : Number.of_Z 20 = S754_finite false 5629499534213120 (-48).
Proof. reflexivity. Qed.

Lemma of_Z_21 : Number.of_Z 21 = S754_finite false 5910974510923776 (-48).
Proof. reflexivity. Qed.

Lemma of_Z_50 : Number.of_Z 50 = S754_finite false 7036874417766400 (-47).
Proof. reflexivity. Qed.

(** Comparison of two positive finite values, by exponent and then by
    mantissa. *)
Lemma leb_finite m1 e1 m2 e2 :
  Number.leb (S754_finite false m1 e1) (S754_finite false m2 e2) = true <->
  e1 < e2 \/ (e1 = e2 /\ Zpos m1 <= Zpos m2).
Proof.
  unfold Number.leb, SFleb; simpl.
  destruct (Z.compare_spec e1 e2) as [He|He|He].
  - rewrite Pos.compare_cont_spec; simpl.
    rewrite Pos2Z.inj_compare.
    destruct (Z.compare_spec (Zpos m1) (Zpos m2)) as [Hm|Hm|Hm]; simpl; split;
      intros H; try discriminate; try reflexivity; lia.
  - split; [lia | reflexivity].
  - split; [discriminate | lia].
Qed.

Lemma ltb_finite m1 e1 m2 e2 :
  Number.ltb (S754_finite false m1 e1) (S754_finite false m2 e2) = true <->
  e1 < e2 \/ (e1 = e2 /\ Zpos m1 < Zpos m2).
Proof.
  unfold Number.ltb, SFltb; simpl.
  destruct (Z.compare_spec e1 e2) as [He|He|He].
  - rewrite Pos.compare_cont_spec; simpl.
    rewrite Pos2Z.inj_compare.
    destruct (Z.compare_spec (Zpos m1) (Zpos m2)) as [Hm|Hm|Hm]; simpl; split;
      intros H; try discriminate; try reflexivity; lia.
  - split; [lia | reflexivity].
  - split; [discriminate | lia].
Qed.

(** *** An integer above zero does not round to zero *)

Lemma shr_1_m mrs : 0 <= shr_m mrs -> shr_m (shr_1 mrs) = shr_m mrs / 2.
Proof.
  destruct mrs as [m r s]; simpl. intros Hm.
  destruct m as [|[p|p|]|p]; simpl; try reflexivity; try lia.
  - rewrite Pos2Z.inj_xI. apply Z.div_unique with (r := 1); lia.
  - rewrite Pos2Z.inj_xO. apply Z.div_unique with (r := 0); lia.
Qed.

Lemma iter_shr_1_m n mrs :
  0 <= shr_m mrs ->
  shr_m (SpecFloat.iter_pos shr_1 n mrs) = shr_m mrs / 2 ^ Zpos n.
Proof.
  revert mrs. induction n as [n IH|n IH|]; intros mrs Hm; simpl SpecFloat.iter_pos.
  - assert (H1 : 0 <= shr_m (shr_1 mrs)).
    { rewrite shr_1_m by assumption. apply Z.div_pos; lia. }
    assert (H2 : 0 <= shr_m (SpecFloat.iter_pos shr_1 n (shr_1 mrs))).
    { rewrite IH by assumption. apply Z.div_pos; lia. }
    rewrite IH, IH, shr_1_m by assumption.
    rewrite !Z.div_div by lia. f_equal.
    replace (Zpos n~1) with (Zpos n + Zpos n + 1) by lia.
    rewrite !Z.pow_add_r by lia. change (2 ^ 1) with 2. ring.
  - assert (H2 : 0 <= shr_m (SpecFloat.iter_pos shr_1 n mrs)).
    { rewrite IH by assumption. apply Z.div_pos; lia. }
    rewrite IH, IH by assumption.
    rewrite !Z.div_div by lia. f_equal.
    replace (Zpos n~0) with (Zpos n + Zpos n) by lia.
    now rewrite Z.pow_add_r by lia.
  - rewrite shr_1_m by assumption. reflexivity.
Qed.

Lemma digits_bounds m :
  2 ^ (Zpos (digits2_pos m) - 1) <= Zpos m < 2 ^ Zpos (digits2_pos m).
Proof.
  assert (step : forall d, 0 < d -> 2 ^ d = 2 * 2 ^ (d - 1)).
  { intros d Hd. rewrite <- Z.pow_succ_r by lia. f_equal. lia. }
  induction m as [m IH|m IH|]; simpl digits2_pos.
  - rewrite Pos2Z.inj_succ, Pos2Z.inj_xI.
    replace (Z.succ (Zpos (digits2_pos m)) - 1) with (Zpos (digits2_pos m))
      by lia.
    rewrite (step (Z.succ (Zpos (digits2_pos m)))) by lia.
    replace (Z.succ (Zpos (digits2_pos m)) - 1) with (Zpos (digits2_pos m))
      by lia.
    rewrite (step (Zpos (digits2_pos m))) in IH |- * by lia.
    revert IH. generalize (2 ^ (Zpos (digits2_pos m) - 1)). intros; lia.
  - rewrite Pos2Z.inj_succ. change (Zpos m~0) with (2 * Zpos m).
    replace (Z.succ (Zpos (digits2_pos m)) - 1) with (Zpos (digits2_pos m))
      by lia.
    rewrite (step (Z.succ (Zpos (digits2_pos m)))) by lia.
    replace (Z.succ (Zpos (digits2_pos m)) - 1) with (Zpos (digits2_pos m))
      by lia.
    rewrite (step (Zpos (digits2_pos m))) in IH |- * by lia.
    revert IH. generalize (2 ^ (Zpos (digits2_pos m) - 1)). intros; lia.
  - simpl. lia.
Qed.

Lemma fexp_ge_emin e : Number.emin <= fexp Number.prec Number.emax e.
Proof. unfold fexp, Number.emin. lia. Qed.

Lemma fexp_lt e : Number.emin < e -> fexp Number.prec Number.emax e < e.
Proof. unfold fexp, Number.emin, SpecFloat.emin, Number.prec, Number.emax. lia. Qed.

(** Rounding a positive mantissa at an exponent above the least one keeps
    the mantissa positive and the exponent at or above the least one. *)
Lemma shr_fexp_positive m e l :
  Number.emin < Zpos (digits2_pos m) + e ->
  0 < shr_m (fst (shr_fexp Number.prec Number.emax (Zpos m) e l))
  /\ Number.emin <= snd (shr_fexp Number.prec Number.emax (Zpos m) e l).
Proof.
  intros Hd. unfold shr_fexp, shr. simpl Zdigits2.
  pose proof (fexp_ge_emin (Zpos (digits2_pos m) + e)) as Hge.
  pose proof (fexp_lt _ Hd) as Hlt.
  destruct (fexp Number.prec Number.emax (Zpos (digits2_pos m) + e) - e)
    as [|n|n] eqn:En; cbn [fst snd].
  - split; [destruct l as [|[]]; simpl; lia | lia].
  - split; [| lia].
    rewrite iter_shr_1_m by (destruct l as [|[]]; simpl; lia).
    replace (shr_m (shr_record_of_loc (Zpos m) l)) with (Zpos m)
      by (destruct l as [|[]]; reflexivity).
    apply Z.div_str_pos. split; [lia |].
    transitivity (2 ^ (Zpos (digits2_pos m) - 1)).
    + apply Z.pow_le_mono_r; lia.
    + apply digits_bounds.
  - split; [destruct l as [|[]]; simpl; lia | lia].
Qed.

Lemma round_nearest_even_ge m l : m <= round_nearest_even m l.
Proof. destruct l as [|[]]; simpl; try lia. destruct (Z.even m); lia. Qed.

Lemma binary_round_aux_not_zero s m e l :
  Number.emin < Zpos (digits2_pos m) + e ->
  forall z, binary_round_aux Number.prec Number.emax s (Zpos m) e l
            <> S754_zero z.
Proof.
  intros Hd z. unfold binary_round_aux.
  destruct (shr_fexp_positive m e l Hd) as [H1 H2].
  destruct (shr_fexp Number.prec Number.emax (Zpos m) e l) as [mrs' e'].
  cbn [fst snd] in H1, H2.
  pose proof (round_nearest_even_ge (shr_m mrs') (loc_of_shr_record mrs')) as Hr.
  destruct (round_nearest_even (shr_m mrs') (loc_of_shr_record mrs'))
    as [|m1|m1]; try lia.
  assert (Hd1 : Number.emin < Zpos (digits2_pos m1) + e') by lia.
  destruct (shr_fexp_positive m1 e' loc_Exact Hd1) as [H3 _].
  destruct (shr_fexp Number.prec Number.emax (Zpos m1) e' loc_Exact)
    as [mrs'' e''].
  cbn [fst] in H3.
  destruct (shr_m mrs'') as [|m2|m2]; try lia.
  destruct (e'' <=? Number.emax - Number.prec); discriminate.
Qed.

Lemma digits_iter_xO m d :
  Zpos (digits2_pos (Pos.iter xO m d)) = Zpos (digits2_pos m) + Zpos d.
Proof.
  induction d as [|d IH] using Pos.peano_ind.
  - simpl. lia.
  - rewrite Pos.iter_succ. simpl digits2_pos. lia.
Qed.

Lemma binary_round_not_zero s m e :
  Number.emin < Zpos (digits2_pos m) + e ->
  forall z, binary_round Number.prec Number.emax s m e <> S754_zero z.
Proof.
  intros Hd z. unfold binary_round, shl_align.
  destruct (fexp Number.prec Number.emax (Zpos (digits2_pos m) + e) - e)
    as [|d|d] eqn:Ed.
  - now apply binary_round_aux_not_zero.
  - now apply binary_round_aux_not_zero.
  - apply binary_round_aux_not_zero. rewrite digits_iter_xO. lia.
Qed.

(** The Number value of a positive integer is not zero. *)
Lemma of_Z_pos_not_zero p : Number.eqb (Number.of_Z (Zpos p)) Number.zero = false.
Proof.
  unfold Number.of_Z, binary_normalize.
  assert (H : Number.emin < Zpos (digits2_pos p) + 0) 
    by (unfold Number.emin, SpecFloat.emin, Number.prec, Number.emax; lia).
  pose proof (binary_round_not_zero false p 0 H) as Hz.
  destruct (binary_round Number.prec Number.emax false p 0) as [z|z| |z m e];
    try reflexivity; try (now destruct z).
  now contradiction (Hz z).
Qed.

End NumberFacts.

(** ** analytics.js: the heatmap colours *)

Module HeatmapFacts.

Import NumberFacts.

Ltac color_cases :=
  unfold Analytics.getHeatColor, JS.is_zero, JS.ToNumber, Spec.percent;
  rewrite ?of_Z_0, ?of_Z_1, ?of_Z_20, ?of_Z_21, ?of_Z_50.

(** A rate above zero and up to 20 is shown in the low colour. *)
Lemma low_band (r : number) :
  Number.ltb (Number.of_Z 0) r = true ->
  Number.leb r (Number.of_Z 20) = true ->
  Analytics.getHeatColor (JNum r) = Spec.low_color.
Proof.
  color_cases. intros Hpos Hle. rewrite Hle.
  destruct r as [s|s| |s m e]; try discriminate;
    destruct s; try discriminate; reflexivity.
Qed.

(** A rate above 20 and up to 50 is shown in the mid colour. *)
Lemma mid_band (r : number) :
  Number.ltb (Number.of_Z 20) r = true ->
  Number.leb r (Number.of_Z 50) = true ->
  Analytics.getHeatColor (JNum r) = Spec.mid_color.
Proof.
  color_cases. intros Hgt Hle. rewrite Hle.
  destruct r as [s|s| |s m e]; try discriminate.
  - destruct s; discriminate.
  - destruct s; [discriminate |].
    apply ltb_finite in Hgt.
    replace (Number.leb _ _) with false; [reflexivity |].
    symmetry. apply not_true_is_false. rewrite leb_finite. lia.
Qed.

(** A rate above 50 is shown in the high colour. *)
Lemma high_band (r : number) :
  Number.ltb (Number.of_Z 50) r = true ->
  Analytics.getHeatColor (JNum r) = Spec.high_color.
Proof.
  color_cases. intros Hgt.
  destruct r as [s|s| |s m e]; try discriminate.
  - destruct s; [discriminate | reflexivity].
  - destruct s; [discriminate |].
    apply ltb_finite in Hgt.
    replace (Number.leb _ (S754_finite false 5629499534213120 _)) with false.
    2:{ symmetry. apply not_true_is_false. rewrite leb_finite. lia. }
    replace (Number.leb _ _) with false; [reflexivity |].
    symmetry. apply not_true_is_false. rewrite leb_finite. lia.
Qed.

Lemma leb_ltb_trans_1_0 (r : number) :
  Number.leb (Number.of_Z 1) r = true -> Number.ltb (Number.of_Z 0) r = true.
Proof.
  rewrite of_Z_0, of_Z_1.
  destruct r as [s|s| |s m e]; try discriminate; destruct s;
    try discriminate; reflexivity.
Qed.

Lemma leb_ltb_trans_21_20 (r : number) :
  Number.leb (Number.of_Z 21) r = true -> Number.ltb (Number.of_Z 20) r = true.
Proof.
  rewrite of_Z_20, of_Z_21.
  destruct r as [s|s| |s m e]; try discriminate; destruct s;
    try discriminate; try reflexivity.
  rewrite leb_finite, ltb_finite. lia.
Qed.

(** C5. The heatmap cell colour: a rate of 0% has the neutral colour, a
    rate from 1% through 20% the low colour, a rate from 21% through 50%
    the mid colour, and a rate above 50% the high colour. *)
Theorem getHeatColor_bands (r : number) :
  (Number.eqb r (Spec.percent 0) = true ->
   Analytics.getHeatColor (JNum r) = Spec.neutral_color)
  /\ (Number.leb (Spec.percent 1) r = true ->
      Number.leb r (Spec.percent 20) = true ->
      Analytics.getHeatColor (JNum r) = Spec.low_color)
  /\ (Number.leb (Spec.percent 21) r = true ->
      Number.leb r (Spec.percent 50) = true ->
      Analytics.getHeatColor (JNum r) = Spec.mid_color)
  /\ (Number.gtb r (Spec.percent 50) = true ->
      Analytics.getHeatColor (JNum r) = Spec.high_color).
Proof.
  repeat split.
  - unfold Analytics.getHeatColor, JS.is_zero, Spec.percent.
    intros H. change Number.zero with (Number.of_Z 0). now rewrite H.
  - intros H1 H20. apply low_band; [now apply leb_ltb_trans_1_0 | exact H20].
  - intros H21 H50. apply mid_band; [now apply leb_ltb_trans_21_20 | exact H50].
  - intros H. now apply high_band.
Qed.

(** The bands at the rates 0, 10, 35 and 80. *)
Lemma getHeatColor_bands_witness :
  Analytics.getHeatColor (JNum (Spec.percent 0)) = Spec.neutral_color
  /\ Analytics.getHeatColor (JNum (Spec.percent 10)) = Spec.low_color
  /\ Analytics.getHeatColor (JNum (Spec.percent 35)) = Spec.mid_color
  /\ Analytics.getHeatColor (JNum (Spec.percent 80)) = Spec.high_color.
Proof.
  split; [| split; [| split]].
  - apply (proj1 (getHeatColor_bands (Spec.percent 0))). reflexivity.
  - apply (proj1 (proj2 (getHeatColor_bands (Spec.percent 10)))); reflexivity.
  - apply (proj1 (proj2 (proj2 (getHeatColor_bands (Spec.percent 35)))));
      reflexivity.
  - apply (proj2 (proj2 (proj2 (getHeatColor_bands (Spec.percent 80))))).
    reflexivity.
Defined.

End HeatmapFacts.

(** ** Strings *)

Module StringFacts.

Lemma append_cons (x : ascii) (a b : string) :
  String x a +:+ b = String x (a +:+ b).
Proof. reflexivity. Qed.

Lemma append_nil (b : string) : EmptyString +:+ b = b.
Proof. reflexivity. Qed.

Lemma append_assoc (a b c : string) : (a +:+ b) +:+ c = a +:+ (b +:+ c).
Proof.
  induction a as [|x a IH]; [reflexivity |].
  rewrite !append_cons. now f_equal.
Qed.

Lemma occurs_in_step a t rest :
  Spec.occurs_in t rest -> Spec.occurs_in t (a +:+ rest).
Proof.
  intros (pre & post & ->). exists (a +:+ pre), post.
  now rewrite append_assoc.
Qed.

Lemma occurs_in_here t post : Spec.occurs_in t (t +:+ post).
Proof. now exists EmptyString, post. Qed.

(** [startsWith p s] holds exactly when [s] begins with [p]. *)
Lemma startsWith_spec p s :
  JSString.startsWith p s = true <-> exists post, s = p +:+ post.
Proof.
  revert s. induction p as [|a p IH]; intros s; simpl.
  - split; [intros _; now exists s | reflexivity].
  - destruct s as [|b s].
    + split; [discriminate | intros [post H]; discriminate].
    + rewrite andb_true_iff, Ascii.eqb_eq, IH. split.
      * intros [-> [post ->]]. now exists post.
      * intros [post H]. rewrite append_cons in H. injection H as -> ->.
        split; [reflexivity | now exists post].
Qed.

(** [s.includes(t)] holds exactly when [t] occurs in [s]. *)
Lemma includes_spec s t :
  JSString.includes s t = true <-> Spec.occurs_in t s.
Proof.
  unfold Spec.occurs_in. induction s as [|c s IH].
  - simpl. rewrite orb_false_r, startsWith_spec. split.
    + intros [post ->]. now exists EmptyString, post.
    + intros (pre & post & H). destruct pre; [now exists post |].
      rewrite append_cons in H. discriminate.
  - cbn [JSString.includes]. rewrite orb_true_iff, startsWith_spec, IH. split.
    + intros [[post ->] | (pre & post & ->)].
      * now exists EmptyString, post.
      * now exists (String c pre), post.
    + intros (pre & post & H). destruct pre as [|x pre].
      * left. now exists post.
      * right. rewrite append_cons in H. injection H as -> ->.
        now exists pre, post.
Qed.

End StringFacts.

(** ** Values *)

Module JSFacts.

Lemma get_truthy v k : JS.truthy v = true -> JS.get v k = Ok (JS.get_opt v k).
Proof. destruct v; try discriminate; reflexivity. Qed.

Lemma or_truthy x d : JS.truthy d = true -> JS.truthy (JS.or x d) = true.
Proof. intros H. unfold JS.or. now destruct (JS.truthy x) eqn:E. Qed.

Lemma or_falsy x d : JS.truthy x = false -> JS.or x d = d.
Proof. intros H. unfold JS.or. now rewrite H. Qed.

Lemma missing_falsy v : Spec.missing v -> JS.truthy v = false.
Proof. now intros [-> | ->]. Qed.

Lemma get_not_nullish v k :
  Spec.not_nullish v = true -> JS.get v k = Ok (JS.get_opt v k).
Proof. destruct v; try discriminate; reflexivity. Qed.

Lemma mapM_total {A B} (f : A -> result B) (g : A -> B) (l : list A) :
  Forall (fun x => f x = Ok (g x)) l -> JS.mapM f l = Ok (List.map g l).
Proof.
  induction 1 as [|x l Hx _ IH]; [reflexivity |].
  simpl. now rewrite Hx, IH.
Qed.

(** The amount text: [(amount || 0).toFixed(2)]. *)
Lemma amount_text x :
  Spec.number_if_any x = true ->
  exists t,
    JS.toFixed (JS.or x (JNum Number.zero)) 2 = Ok t
    /\ (JS.truthy x = false -> t = "0.00").
Proof.
  unfold Spec.number_if_any, JS.or. destruct (JS.truthy x) eqn:E.
  - destruct x; try discriminate. intros _. eexists. split; [reflexivity |].
    discriminate.
  - intros _. eexists. split; [reflexivity |]. intros _.
    vm_compute. reflexivity.
Qed.

Lemma mapM_forallb {B} (f : jsval -> result B) (p : jsval -> bool) l :
  (forall x, p x = true -> exists y, f x = Ok y) ->
  forallb p l = true -> exists ys, JS.mapM f l = Ok ys.
Proof.
  intros Hf. induction l as [|x l IH]; simpl; [eauto |].
  intros [Hx Hl]%andb_true_iff.
  destruct (Hf x Hx) as [y ->]. destruct (IH Hl) as [ys ->]. simpl. eauto.
Qed.

End JSFacts.

(** ** The page *)

Module DomFacts.

Lemma lookup_update n f w k :
  doc (Dom.update n f w) !! k
  = if decide (n = k) then f <$> doc w !! n else doc w !! k.
Proof. unfold Dom.update; simpl. apply lookup_alter. Qed.

Lemma lookup_update_eq n f w :
  doc (Dom.update n f w) !! n = f <$> doc w !! n.
Proof. rewrite lookup_update. now rewrite decide_True. Qed.

Lemma lookup_update_ne n f w k :
  n <> k -> doc (Dom.update n f w) !! k = doc w !! k.
Proof. intros H. rewrite lookup_update. now rewrite decide_False. Qed.

Lemma update_present n f w k :
  is_Some (doc (Dom.update n f w) !! k) <-> is_Some (doc w !! k).
Proof. unfold Dom.update; simpl. apply lookup_alter_is_Some. Qed.

Lemma getElementById_present id w :
  is_Some (doc w !! (inl id : node)) ->
  Dom.getElementById id w = Some (inl id).
Proof. intros [e He]. unfold Dom.getElementById. now rewrite He. Qed.

Lemma getElementById_absent id w :
  doc w !! (inl id : node) = None -> Dom.getElementById id w = None.
Proof. intros He. unfold Dom.getElementById. now rewrite He. Qed.

Lemma getElementById_inv id w n :
  Dom.getElementById id w = Some n ->
  n = inl id /\ is_Some (doc w !! (inl id : node)).
Proof.
  unfold Dom.getElementById.
  destruct (doc w !! (inl id : node)) eqn:E; [| discriminate].
  intros [= <-]. split; [reflexivity | now exists e].
Qed.

Lemma value_of_present n w e :
  doc w !! n = Some e -> Dom.value_of (Some n) w = Ok (value e).
Proof. intros H. unfold Dom.value_of. now rewrite H. Qed.

Lemma forEach_cons n ns f w :
  Dom.forEach (n :: ns) f w = Dom.forEach ns f (Dom.update n f w).
Proof. reflexivity. Qed.

Lemma forEach_timers ns f w : timers (Dom.forEach ns f w) = timers w.
Proof.
  revert w. induction ns as [|n ns IH]; intros w; [reflexivity |].
  rewrite forEach_cons, IH. reflexivity.
Qed.

Lemma lookup_forEach_out ns f w k :
  k ∉ ns -> doc (Dom.forEach ns f w) !! k = doc w !! k.
Proof.
  revert w. induction ns as [|n ns IH]; intros w Hk; [reflexivity |].
  apply not_elem_of_cons in Hk as [Hne Hk].
  rewrite forEach_cons, IH by assumption.
  apply lookup_update_ne. congruence.
Qed.

Lemma lookup_forEach_in ns f w k :
  (forall e, f (f e) = f e) ->
  k ∈ ns -> doc (Dom.forEach ns f w) !! k = f <$> doc w !! k.
Proof.
  intros Hf. revert w. induction ns as [|n ns IH]; intros w Hk.
  - now apply elem_of_nil in Hk.
  - rewrite forEach_cons.
    destruct (decide (k ∈ ns)) as [Hin|Hout].
    + rewrite IH by assumption. rewrite lookup_update.
      case_decide; [subst n |]; [| reflexivity].
      destruct (doc w !! k); simpl; [now rewrite Hf | reflexivity].
    + rewrite lookup_forEach_out by assumption.
      apply elem_of_cons in Hk as [->|Hk]; [| contradiction].
      apply lookup_update_eq.
Qed.

Lemma forEach_present ns f w k :
  is_Some (doc (Dom.forEach ns f w) !! k) <-> is_Some (doc w !! k).
Proof.
  revert w. induction ns as [|n ns IH]; intros w; [reflexivity |].
  rewrite forEach_cons, IH. apply update_present.
Qed.

Lemma elem_of_querySelectorAll c w n :
  n ∈ Dom.querySelectorAll_class c w <->
  exists e, doc w !! n = Some e /\ Dom.has_class c e = true.
Proof.
  unfold Dom.querySelectorAll_class. rewrite list_elem_of_fmap. split.
  - intros ([n' e] & -> & H). apply elem_of_map_to_list in H.
    apply map_lookup_filter_Some in H as [H1 H2]. exists e. auto.
  - intros (e & H1 & H2). exists (n, e). split; [reflexivity |].
    apply elem_of_map_to_list. apply map_lookup_filter_Some. auto.
Qed.

End DomFacts.

(** ** script.js: the two submitFeedback functions *)

Module FeedbackFacts.

Import StringFacts DomFacts.

(** The text of a payload of two string members. *)
Lemma stringify_pair (k1 v1 k2 v2 : string) :
  Script.stringify (JObj [(k1, JStr v1); (k2, JStr v2)])
  = "{" +:+ (JS.quote k1 +:+ ":" +:+ JS.quote v1) +:+ ","
        +:+ (JS.quote k2 +:+ ":" +:+ JS.quote v2) +:+ "}".
Proof. unfold Script.stringify. cbn -[JS.quote]. now rewrite !append_assoc. Qed.

(** C2. The two definitions of submitFeedback are not equivalent: for
    every phone number and feedback type, the first posts to /feedback a
    payload with the keys phone_number and feedback, the second posts to
    /api/feedback a payload with the keys phone_number and feedback_type,
    and the two requests differ, in their address and in their text. *)
Theorem submitFeedback_requests_differ (phone feedbackType : string)
  (w : world) :
  url (snd (fst (Script.submitFeedback_1 phone feedbackType w))) = "/feedback"
  /\ body (snd (fst (Script.submitFeedback_1 phone feedbackType w)))
     = Script.stringify (JObj [("phone_number", JStr phone);
                               ("feedback", JStr feedbackType)])
  /\ url (snd (fst (Script.submitFeedback_2 phone feedbackType w)))
     = "/api/feedback"
  /\ body (snd (fst (Script.submitFeedback_2 phone feedbackType w)))
     = Script.stringify (JObj [("phone_number", JStr phone);
                               ("feedback_type", JStr feedbackType)])
  /\ url (snd (fst (Script.submitFeedback_1 phone feedbackType w)))
     <> url (snd (fst (Script.submitFeedback_2 phone feedbackType w)))
  /\ body (snd (fst (Script.submitFeedback_1 phone feedbackType w)))
     <> body (snd (fst (Script.submitFeedback_2 phone feedbackType w))).
Proof.
  repeat split; try discriminate.
  unfold Script.submitFeedback_1, Script.submitFeedback_2.
  cbn [fst snd body]. rewrite !stringify_pair.
  intros H. rewrite !append_cons, append_nil in H. injection H as H.
  rewrite !append_assoc in H. do 2 apply String.app_inj in H.
  injection H as H. discriminate.
Qed.

(** *** The first definition does what section 4.2 describes *)

Lemma set_disabled_idem b e :
  Dom.set_disabled b (Dom.set_disabled b e) = Dom.set_disabled b e.
Proof. reflexivity. Qed.

(** While the request is in flight every feedback button is disabled. *)
Lemma first_disables_in_flight phone feedbackType w n e :
  doc w !! n = Some e ->
  Dom.has_class "feedback-btn-compact" e = true ->
  Spec.disabled_at n (fst (fst (Script.submitFeedback_1 phone feedbackType w)))
  = Some true.
Proof.
  intros Hn Hc. unfold Script.submitFeedback_1, Spec.disabled_at. cbn [fst].
  rewrite lookup_forEach_in.
  - now rewrite Hn.
  - apply set_disabled_idem.
  - apply elem_of_querySelectorAll. eauto.
Qed.

(** What the first definition runs when the request settles. *)
Definition first_settled (phone feedbackType : string) (w : world)
  (r : response) : result unit * world :=
  snd (Script.submitFeedback_1 phone feedbackType w) r
      (fst (fst (Script.submitFeedback_1 phone feedbackType w))).

(** However the request settles, the chain ends fulfilled, the timer of
    2000 ms is armed, and when it fires every feedback button is enabled
    again. *)
Lemma first_reenables phone feedbackType w r :
  fst (first_settled phone feedbackType w r) = Ok tt
  /\ head (timers (snd (first_settled phone feedbackType w r)))
     = Some (2000,
             EnableAll (Dom.querySelectorAll_class "feedback-btn-compact" w))
  /\ forall n e,
       doc w !! n = Some e ->
       Dom.has_class "feedback-btn-compact" e = true ->
       Spec.disabled_at n
         (Dom.run
            (EnableAll (Dom.querySelectorAll_class "feedback-btn-compact" w))
            (snd (first_settled phone feedbackType w r)))
       = Some false.
Proof.
  unfold first_settled, Script.submitFeedback_1. cbn [fst snd].
  set (buttons := Dom.querySelectorAll_class "feedback-btn-compact" w).
  set (w1 := Dom.forEach buttons (Dom.set_disabled true) w).
  assert (Hin : forall n e, doc w !! n = Some e ->
            Dom.has_class "feedback-btn-compact" e = true -> n ∈ buttons).
  { intros n e Hn Hc. apply elem_of_querySelectorAll. eauto. }
  assert (Hrun : forall w2 n e, doc w !! n = Some e ->
            Dom.has_class "feedback-btn-compact" e = true ->
            is_Some (doc w2 !! n) ->
            Spec.disabled_at n (Dom.run (EnableAll buttons) w2) = Some false).
  { intros w2 n e Hn Hc [e2 He2]. unfold Spec.disabled_at, Dom.run.
    rewrite lookup_forEach_in; [now rewrite He2 | apply set_disabled_idem |].
    eapply Hin; eauto. }
  assert (Hw1 : forall n e, doc w !! n = Some e -> is_Some (doc w1 !! n)).
  { intros n e Hn. unfold w1.
    destruct (decide (n ∈ buttons)).
    - rewrite lookup_forEach_in, Hn by (assumption || apply set_disabled_idem).
      now eexists.
    - rewrite lookup_forEach_out, Hn by assumption. now eexists. }
  unfold Promise.finally, Promise.catch, Promise.then_, Promise.fetch,
    Promise.json, Promise.done.
  destruct r as [|[data|]]; cbn [fst snd].
  - destruct (Dom.getElementById "feedbackMessage" (Dom.console_log "Error:" w1));
      cbn; (split; [reflexivity |]); (split; [reflexivity |]);
      intros n e Hn Hc; eapply Hrun; eauto;
      cbn [doc Dom.setTimeout Dom.update Dom.console_log];
      rewrite ?lookup_alter_is_Some; eauto.
  - destruct (Dom.getElementById "feedbackMessage" w1);
      [destruct (String.eqb feedbackType "correct"),
         (String.eqb feedbackType "false_positive"),
         (String.eqb feedbackType "under_review") |];
      cbn; (split; [reflexivity |]); (split; [reflexivity |]);
      intros n e Hn Hc; eapply Hrun; eauto;
      cbn [doc Dom.setTimeout Dom.update Dom.console_log];
      rewrite ?lookup_alter_is_Some; eauto.
  - destruct (Dom.getElementById "feedbackMessage" (Dom.console_log "Error:" w1));
      cbn; (split; [reflexivity |]); (split; [reflexivity |]);
      intros n e Hn Hc; eapply Hrun; eauto;
      cbn [doc Dom.setTimeout Dom.update Dom.console_log];
      rewrite ?lookup_alter_is_Some; eauto.
Qed.

(** On success the message area shows the message of the category; on
    failure it shows the static error markup. *)
Lemma first_shows_message phone feedbackType w r :
  is_Some (doc w !! (inl "feedbackMessage" : node)) ->
  exists html,
    Spec.html_of (inl "feedbackMessage")
      (snd (first_settled phone feedbackType w r)) = Some html
    /\ match r with
       | Response (Some _) =>
           Spec.occurs_in (Spec.category_message feedbackType) html
       | _ => html = Spec.feedback_error_html
       end.
Proof.
  intros Hm. unfold first_settled, Script.submitFeedback_1. cbn [fst snd].
  set (buttons := Dom.querySelectorAll_class "feedback-btn-compact" w).
  set (w1 := Dom.forEach buttons (Dom.set_disabled true) w).
  assert (Hm1 : is_Some (doc w1 !! (inl "feedbackMessage" : node)))
    by now apply forEach_present.
  assert (Hg1 : Dom.getElementById "feedbackMessage" w1
                = Some (inl "feedbackMessage"))
    by now apply getElementById_present.
  assert (Hg2 : Dom.getElementById "feedbackMessage"
                  (Dom.console_log "Error:" w1)
                = Some (inl "feedbackMessage"))
    by now apply getElementById_present.
  destruct Hm1 as [m Hm1].
  unfold Promise.finally, Promise.catch, Promise.then_, Promise.fetch,
    Promise.json, Promise.done, Spec.html_of.
  destruct r as [|[data|]]; cbn [fst snd]; rewrite ?Hg1, ?Hg2.
  - cbn [fst snd doc Dom.setTimeout Dom.update Dom.console_log].
    rewrite lookup_alter_eq, Hm1. eexists. split; reflexivity.
  - unfold Spec.category_message.
    destruct (String.eqb feedbackType "correct");
      [| destruct (String.eqb feedbackType "false_positive");
         [| destruct (String.eqb feedbackType "under_review")]];
      cbn [fst snd doc Dom.setTimeout Dom.update Dom.console_log];
      rewrite lookup_alter_eq, Hm1;
      (eexists; split; [reflexivity |]);
      do 9 apply occurs_in_step; apply occurs_in_here.
  - cbn [fst snd doc Dom.setTimeout Dom.update Dom.console_log].
    rewrite lookup_alter_eq, Hm1. eexists. split; reflexivity.
Qed.

(** *** The second definition is the one in effect *)

(** What the effective definition runs when the request settles. *)
Definition effective_settled (phone feedbackType : string) (w : world)
  (r : response) : result unit * world :=
  snd (Script.submitFeedback phone feedbackType w) r
      (fst (fst (Script.submitFeedback phone feedbackType w))).

(** The call itself leaves the page as it was. *)
Lemma effective_in_flight phone feedbackType w :
  fst (fst (Script.submitFeedback phone feedbackType w)) = w.
Proof. reflexivity. Qed.

(** It arms no timer, however the request settles. *)
Lemma effective_no_timer phone feedbackType w r :
  timers (snd (effective_settled phone feedbackType w r)) = timers w.
Proof.
  unfold effective_settled, Script.submitFeedback, Script.submitFeedback_2.
  cbn [fst snd].
  unfold Promise.catch, Promise.then_, Promise.fetch, Promise.json,
    Promise.done.
  destruct r as [|[data|]]; cbn [fst snd].
  - destruct (Dom.getElementById _ _); reflexivity.
  - destruct (Dom.getElementById "feedbackMessage" w); [| reflexivity].
    destruct (JS.get data "message"); cbn [fst snd].
    + destruct (JS.get data "status"); cbn [fst snd].
      * now rewrite forEach_timers.
      * destruct (Dom.getElementById _ _); reflexivity.
    + destruct (Dom.getElementById _ _); reflexivity.
  - destruct (Dom.getElementById _ _); reflexivity.
Qed.

(** C1, at a page with a button of each feedback class and the message
    area, for the category "correct" and a server that answers with its
    own message: through the effective definition the buttons are not
    disabled while the request is in flight, the text shown is the
    server's and not the one of the category, no timer is armed, and the
    button that the success handler disables stays disabled. *)
Theorem effective_submitFeedback_diverges :
  let reply := Response (Some (JObj [("status", JStr "success");
                                     ("message", JStr "Feedback recorded")])) in
  let in_flight :=
    fst (fst (Script.submitFeedback "+14155551234" "correct"
                Spec.feedback_page)) in
  let settled :=
    snd (effective_settled "+14155551234" "correct" Spec.feedback_page reply) in
  Spec.disabled_at (inr 0%nat) in_flight = Some false
  /\ Spec.disabled_at (inr 1%nat) in_flight = Some false
  /\ Spec.text_of (inl "feedbackMessage") settled = Some "Feedback recorded"
  /\ Spec.text_of (inl "feedbackMessage") settled
     <> Some (Spec.category_message "correct")
  /\ timers settled = []
  /\ Spec.disabled_at (inr 1%nat) settled = Some true.
Proof.
  cbv zeta. repeat split; try (vm_compute; reflexivity).
  vm_compute. discriminate.
Qed.

(** On the same page and request, the first definition disables the
    button, shows the message of the category and arms the timer. *)
Example first_submitFeedback_conforms :
  let reply := Response (Some (JObj [("status", JStr "success");
                                     ("message", JStr "Feedback recorded")])) in
  let in_flight :=
    fst (fst (Script.submitFeedback_1 "+14155551234" "correct"
                Spec.feedback_page)) in
  let settled :=
    snd (first_settled "+14155551234" "correct" Spec.feedback_page reply) in
  Spec.disabled_at (inr 0%nat) in_flight = Some true
  /\ timers settled
     = [(2000, EnableAll [inr 0%nat]);
        (5000, ClearInnerHTML (inl "feedbackMessage"))]
  /\ Spec.disabled_at (inr 0%nat) (Dom.run (EnableAll [inr 0%nat]) settled)
     = Some false.
Proof. cbv zeta. repeat split; vm_compute; reflexivity. Qed.

End FeedbackFacts.

(** ** script.js: the prediction form *)

Module FormFacts.

Import DomFacts.

Lemma showValidationError_shows i message w e p :
  doc w !! i = Some e -> parentElement e = Some p -> is_Some (doc w !! p) ->
  exists w',
    Script.showValidationError (Some i) message w = Ok w'
    /\ Spec.inline_error i message w'
    /\ dialogs w' = dialogs w.
Proof.
  intros Hi Hp [pe Hpe]. unfold Script.showValidationError.
  rewrite Hi, Hp. eexists; split; [reflexivity |]. split; [| reflexivity].
  unfold Spec.inline_error, Dom.setTimeout; simpl.
  destruct (decide (p = i)) as [->|Hne].
  - rewrite Hi in Hpe. injection Hpe as <-.
    eexists _, i, _, _.
    rewrite !lookup_alter_eq, Hi; simpl.
    repeat split; try reflexivity; try assumption.
    1: simpl; apply last_snoc.
    all: reflexivity.
  - eexists _, p, _, _.
    rewrite lookup_alter_eq, !(lookup_alter_ne _ _ p i), Hi by congruence.
    rewrite (lookup_alter_ne _ _ i p), !lookup_alter_eq, Hpe by congruence.
    simpl.
    repeat split; try reflexivity; try assumption.
    1: simpl; apply last_snoc.
    all: reflexivity.
Qed.

Lemma show_overlay_quiet w :
  dialogs (Script.after (Script.show_overlay w)) = dialogs w
  /\ Script.defaultPrevented (Script.show_overlay w) = false.
Proof.
  unfold Script.show_overlay.
  destruct (Dom.getElementById "loadingOverlay" w); split; reflexivity.
Qed.

Lemma reject_blocks i message w e p :
  doc w !! i = Some e -> parentElement e = Some p -> is_Some (doc w !! p) ->
  Script.defaultPrevented (Script.reject (Some i) message w) = true
  /\ Spec.inline_error i message (Script.after (Script.reject (Some i) message w))
  /\ dialogs (Script.after (Script.reject (Some i) message w)) = dialogs w.
Proof.
  intros Hi Hp Hpe.
  destruct (showValidationError_shows i message w e p Hi Hp Hpe)
    as (w' & Hw' & Herr & Hd).
  unfold Script.reject. rewrite Hw'. simpl. auto.
Qed.

(** C7. The phone check rejects "abc" and accepts "+14155551234"; the
    amount check rejects "-5" and "0" and accepts "10.50"; and a
    submission whose phone number or amount fails its check is blocked,
    with the error shown next to the input that failed. *)
Theorem form_validation (phoneInput amountInput : node) (answer : bool)
  (w : world) (phone amount : string) :
  Spec.input_on_page phoneInput phone w ->
  Spec.input_on_page amountInput amount w ->
  (Spec.phone_accepted "abc" = false
   /\ Spec.phone_accepted "+14155551234" = true
   /\ Spec.amount_accepted "-5" = false
   /\ Spec.amount_accepted "0" = false
   /\ Spec.amount_accepted "10.50" = true)
  /\ (Spec.phone_accepted phone = false ->
      Script.defaultPrevented
        (Script.onSubmit (Some phoneInput) (Some amountInput) answer w) = true
      /\ Spec.inline_error phoneInput Spec.phone_message
           (Script.after
              (Script.onSubmit (Some phoneInput) (Some amountInput) answer w)))
  /\ (Spec.phone_accepted phone = true ->
      Spec.amount_accepted amount = false ->
      Script.defaultPrevented
        (Script.onSubmit (Some phoneInput) (Some amountInput) answer w) = true
      /\ Spec.inline_error amountInput Spec.amount_message
           (Script.after
              (Script.onSubmit (Some phoneInput) (Some amountInput) answer w))).
Proof.
  intros (pe & pp & Hpe & Hpv & Hpp & Hppe) (ae & ap & Hae & Hav & Hap & Hape).
  split; [repeat split; reflexivity |].
  unfold Script.onSubmit, Spec.phone_accepted, Spec.amount_accepted.
  rewrite (value_of_present _ _ _ Hpe), (value_of_present _ _ _ Hae), Hpv, Hav.
  split.
  - intros ->. simpl.
    destruct (reject_blocks phoneInput Spec.phone_message w pe pp Hpe Hpp Hppe)
      as (Hb & He & _).
    split; assumption.
  - intros -> Ha. apply negb_false_iff in Ha. rewrite Ha. cbn [negb].
    destruct (reject_blocks amountInput Spec.amount_message w ae ap Hae Hap Hape)
      as (Hb & He & _).
    split; assumption.
Qed.

(** The form holding the phone number "abc" is not submitted. *)
Lemma form_validation_witness :
  Script.defaultPrevented
    (Script.onSubmit (Some (inl "phone_number"))
       (Some (inl "transaction_amount")) true
       (Spec.form_page "abc" "10.50")) = true.
Proof.
  refine (proj1 (proj1 (proj2 (form_validation
    (inl "phone_number") (inl "transaction_amount") true
    (Spec.form_page "abc" "10.50") "abc" "10.50" _ _)) _)).
  - eexists _, _. repeat split; try (vm_compute; reflexivity).
    eexists. vm_compute. reflexivity.
  - eexists _, _. repeat split; try (vm_compute; reflexivity).
    eexists. vm_compute. reflexivity.
  - reflexivity.
Defined.

(** C8. A submission that passes both checks asks for confirmation
    exactly when the amount read from the form exceeds 1,000,000; at or
    below that amount no prompt is shown and the submission goes
    through. *)
Theorem confirmation_threshold (phoneInput amountInput : node) (answer : bool)
  (w : world) (phone amount : string) :
  Spec.input_on_page phoneInput phone w ->
  Spec.input_on_page amountInput amount w ->
  Spec.phone_accepted phone = true ->
  Spec.amount_accepted amount = true ->
  (dialogs (Script.after
              (Script.onSubmit (Some phoneInput) (Some amountInput) answer w))
     = Spec.confirm_message :: dialogs w
   <-> Number.gtb (Number.parseFloat amount) (Number.of_Z 1000000) = true)
  /\ (Number.gtb (Number.parseFloat amount) (Number.of_Z 1000000) = false ->
      dialogs (Script.after
                 (Script.onSubmit (Some phoneInput) (Some amountInput) answer w))
        = dialogs w
      /\ Script.defaultPrevented
           (Script.onSubmit (Some phoneInput) (Some amountInput) answer w)
         = false).
Proof.
  intros (pe & pp & Hpe & Hpv & Hpp & Hppe) (ae & ap & Hae & Hav & Hap & Hape).
  unfold Spec.phone_accepted, Spec.amount_accepted. intros Hp Ha.
  unfold Script.onSubmit.
  rewrite (value_of_present _ _ _ Hpe), (value_of_present _ _ _ Hae), Hpv, Hav.
  apply negb_true_iff in Ha. rewrite Hp, Ha. cbn [negb].
  destruct (Number.gtb (Number.parseFloat amount) (Number.of_Z 1000000)) eqn:G.
  - split; [| discriminate]. split; [reflexivity | intros _].
    destruct answer; simpl; [| reflexivity].
    now rewrite (proj1 (show_overlay_quiet _)).
  - destruct (show_overlay_quiet w) as [Hd Hq]. split.
    + split; [| discriminate]. rewrite Hd. intros H.
      apply (f_equal (@List.length string)) in H. simpl in H. lia.
    + intros _. split; assumption.
Qed.

(** An amount of 2,000,000 is asked about. *)
Lemma confirmation_threshold_witness :
  dialogs (Script.after
             (Script.onSubmit (Some (inl "phone_number"))
                (Some (inl "transaction_amount")) true
                (Spec.form_page "+14155551234" "2000000")))
  = [Spec.confirm_message].
Proof.
  refine (proj2 (proj1 (confirmation_threshold
    (inl "phone_number") (inl "transaction_amount") true
    (Spec.form_page "+14155551234" "2000000") "+14155551234" "2000000"
    _ _ _ _)) _).
  - eexists _, _. repeat split; try (vm_compute; reflexivity).
    eexists. vm_compute. reflexivity.
  - eexists _, _. repeat split; try (vm_compute; reflexivity).
    eexists. vm_compute. reflexivity.
  - reflexivity.
  - reflexivity.
  - reflexivity.
Defined.

End FormFacts.

(** ** script.js: the recent transactions *)

Module TransactionsFacts.

Import DomFacts.




Lemma length_is_zero (l : list jsval) :
  JS.is_zero (JNum (Number.of_Z (Z.of_nat (List.length l))))
  = match l with
    | [] => true
    | _ => false
    end.
Proof.
  destruct l as [|x l]; [reflexivity |].
  unfold JS.is_zero. simpl List.length.
  destruct (Z.of_nat (S (List.length l))) as [|p|p] eqn:E; try lia.
  apply NumberFacts.of_Z_pos_not_zero.
Qed.

Lemma get_length (l : list jsval) :
  JS.get (JArr l) "length"
  = Ok (JNum (Number.of_Z (Z.of_nat (List.length l)))).
Proof. reflexivity. Qed.

(** What the success handler does with an array. *)
Lemma loadRecentTransactions_array (logs : list jsval) (w : world) :
  is_Some (doc w !! Spec.recent_logs) ->
  Script.loadRecentTransactions (Response (Some (JArr logs))) w
  = match logs with
    | [] =>
        (Ok tt, Dom.update Spec.recent_logs
                  (Dom.set_children (Html Spec.no_transactions_html)) w)
    | _ =>
        match JS.mapM Script.log_item (firstn 5 logs) with
        | Ok items =>
            (Ok tt, Dom.update Spec.recent_logs
                      (Dom.set_children
                         (Html (JSString.join EmptyString items))) w)
        | Throw _ =>
            Promise.done
              (Dom.update Spec.recent_logs
                 (Dom.set_children
                    (Html (JSString.markup
                       "<div class=`loading-placeholder`>Error loading transactions</div>")))
                 (Dom.console_log "Error loading transactions:" w))
        end
    end.
Proof.
  intros Hc. unfold Script.loadRecentTransactions.
  unfold Promise.catch, Promise.then_, Promise.fetch, Promise.json,
    Promise.lift.
  rewrite (getElementById_present _ _ Hc).
  rewrite get_length. cbn [bind]. rewrite length_is_zero.
  destruct logs as [|log logs]; [reflexivity |].
  cbn [JS.slice JS.map bind]. rewrite Nat.sub_0_r. cbn [skipn].
  destruct (JS.mapM Script.log_item (firstn 5 (log :: logs))) as [items|e].
  - reflexivity.
  - cbn [bind]. unfold Promise.done.
    rewrite getElementById_present; [reflexivity | exact Hc].
Qed.



End TransactionsFacts.

(** ** llm_explanation.js: the explanation panel *)

Module ExplanationFacts.

Import JSFacts DomFacts.

Lemma getElementById_cases id w :
  (Dom.getElementById id w = Some (inl id)
   /\ is_Some (doc w !! (inl id : node)))
  \/ (Dom.getElementById id w = None /\ doc w !! (inl id : node) = None).
Proof.
  unfold Dom.getElementById.
  destruct (doc w !! (inl id : node)) eqn:E; [left | right]; eauto.
Qed.

Lemma llm_field_truthy v k d :
  JS.truthy v = true -> Llm.field v k d = Ok (JS.or (JS.get_opt v k) d).
Proof. intros H. unfold Llm.field. now rewrite get_truthy. Qed.

Ltac truthy := first [assumption | apply or_truthy; reflexivity].

Ltac step :=
  first [ rewrite llm_field_truthy by truthy | rewrite get_truthy by truthy ];
  cbn [bind].

Ltac element id w :=
  let Hel := fresh "Hel" in
  destruct (getElementById_cases id w) as [[-> Hel] | [-> Hel]].

Ltac absent Hel := intros [? ?]; congruence.

(** *** The renderers return *)

Lemma sections_html_total v :
  Spec.string_if_any v = true -> JS.truthy v = true ->
  exists h, Llm.sections_html v = Ok h.
Proof.
  unfold Spec.string_if_any. intros H Ht. rewrite Ht in H.
  destruct v; try discriminate H. eexists. reflexivity.
Qed.

Lemma profile_html_total profile :
  JS.truthy profile = true ->
  Spec.number_if_any (JS.get_opt profile "average_amount") = true ->
  exists h, Llm.profile_html profile = Ok h.
Proof.
  intros Hp Ha. unfold Llm.profile_html. do 2 step.
  destruct (amount_text _ Ha) as (t & -> & _). cbn [bind].
  do 2 step. eauto.
Qed.

Lemma factor_html_total factor :
  Spec.not_nullish factor = true -> exists h, Llm.factor_html factor = Ok h.
Proof.
  intros H. unfold Llm.factor_html.
  rewrite !(get_not_nullish factor) by exact H. cbn [bind]. eauto.
Qed.

Lemma network_html_total camara :
  JS.truthy camara = true -> exists h, Llm.network_html camara = Ok h.
Proof. intros H. unfold Llm.network_html. repeat step. eauto. Qed.

Lemma list_items_total list item :
  Spec.array_if_any false list = true ->
  exists o, Llm.list_items list item = Ok o.
Proof.
  unfold Spec.array_if_any, Llm.list_items.
  destruct (JS.truthy list) eqn:E; cbn [negb orb andb bind].
  - destruct list; try discriminate. intros _.
    rewrite TransactionsFacts.get_length. cbn [bind].
    destruct (JS.positive _); [| eauto]. cbn [JS.map].
    rewrite (mapM_total _ item) by (apply Forall_forall; reflexivity).
    cbn [bind]. eauto.
  - intros _. eauto.
Qed.

Lemma txn_html_total txn :
  Spec.entry_well_typed txn = true -> exists h, Llm.txn_html txn = Ok h.
Proof.
  unfold Spec.entry_well_typed. intros H.
  assert (Hn : Spec.not_nullish txn = true)
    by (destruct txn; try reflexivity; discriminate H).
  unfold Llm.txn_html. rewrite !(get_not_nullish txn) by exact Hn.
  cbn [bind].
  destruct (JS.get_opt txn "amount"); try discriminate H.
  cbn [JS.toFixed bind]. eauto.
Qed.

(** An entry that lacks its amount ends the timeline with a TypeError:
    [txn.amount.toFixed(2)], line 862. *)
Example txn_html_without_amount :
  Llm.txn_html (JObj [("time", JStr "10:00"); ("risk", JStr "Low Risk")])
  = Throw TypeError.
Proof. reflexivity. Qed.

(** *** What each renderer does to the page *)

Lemma populateExecutiveSummary_result llmData w :
  JS.truthy llmData = true ->
  exists c,
    Llm.populateExecutiveSummary llmData w
    = Ok (Spec.rendering "executiveSummary" c w)
    /\ (Spec.missing (JS.get_opt llmData "executive_summary") -> c = None).
Proof.
  intros Hl. unfold Llm.populateExecutiveSummary.
  element "executiveSummary" w; [| exists None; split; reflexivity].
  step. destruct (JS.truthy (JS.get_opt llmData "executive_summary")) eqn:E.
  - eexists (Some _). split; [reflexivity |].
    intros Hm%missing_falsy. congruence.
  - exists None. split; reflexivity.
Qed.

Lemma populateDetailedAnalysis_result llmData w :
  JS.truthy llmData = true ->
  Spec.string_if_any (JS.get_opt llmData "detailed_analysis") = true ->
  exists c,
    Llm.populateDetailedAnalysis llmData w
    = Ok (Spec.rendering "detailedAnalysisContent" c w)
    /\ (Spec.missing (JS.get_opt llmData "detailed_analysis") -> c = None).
Proof.
  intros Hl Ht. unfold Llm.populateDetailedAnalysis.
  element "detailedAnalysisContent" w; [| exists None; split; reflexivity].
  step. destruct (JS.truthy (JS.get_opt llmData "detailed_analysis")) eqn:E;
    cbn [negb].
  - destruct (sections_html_total _ Ht E) as [h ->]. cbn [bind].
    eexists (Some _). split; [reflexivity |].
    intros Hm%missing_falsy. congruence.
  - exists None. split; reflexivity.
Qed.

Lemma populateBehavioralInsights_result llmData transactionData w :
  JS.truthy llmData = true ->
  Spec.string_if_any (JS.get_opt llmData "behavioral_insights") = true ->
  Spec.number_if_any
    (JS.get_opt (JS.get_opt llmData "customer_profile") "average_amount")
  = true ->
  exists c,
    Llm.populateBehavioralInsights llmData transactionData w
    = Ok (Spec.rendering "behavioralInsightsContent" c w)
    /\ (is_Some (doc w !! (inl "behavioralInsightsContent" : node)) ->
        Spec.missing (JS.get_opt llmData "behavioral_insights") ->
        Spec.missing (JS.get_opt llmData "customer_profile") ->
        c = Some (Html Spec.no_insights_html)).
Proof.
  intros Hl Hi Ha. unfold Llm.populateBehavioralInsights.
  element "behavioralInsightsContent" w;
    [| exists None; split; [reflexivity | absent Hel]].
  step.
  assert (H1 : exists html1,
    (if JS.truthy (JS.get_opt llmData "behavioral_insights")
     then Llm.sections_html (JS.get_opt llmData "behavioral_insights")
     else Ok EmptyString) = Ok html1
    /\ (JS.truthy (JS.get_opt llmData "behavioral_insights") = false ->
        html1 = EmptyString)).
  { destruct (JS.truthy (JS.get_opt llmData "behavioral_insights")) eqn:E.
    - destruct (sections_html_total _ Hi E) as [h ->].
      eexists. split; [reflexivity | discriminate].
    - eexists. split; reflexivity. }
  destruct H1 as (html1 & -> & H1). cbn [bind]. step.
  assert (H2 : exists html2,
    (if JS.truthy (JS.get_opt llmData "customer_profile")
     then Llm.profile_html (JS.get_opt llmData "customer_profile")
     else Ok EmptyString) = Ok html2
    /\ (JS.truthy (JS.get_opt llmData "customer_profile") = false ->
        html2 = EmptyString)).
  { destruct (JS.truthy (JS.get_opt llmData "customer_profile")) eqn:E.
    - destruct (profile_html_total _ E Ha) as [h ->].
      eexists. split; [reflexivity | discriminate].
    - eexists. split; reflexivity. }
  destruct H2 as (html2 & -> & H2). cbn [bind].
  eexists (Some _). split; [reflexivity |].
  intros _ Hm1%missing_falsy Hm2%missing_falsy.
  rewrite (H1 Hm1), (H2 Hm2). reflexivity.
Qed.

Lemma populateRiskFactors_result llmData w :
  JS.truthy llmData = true ->
  Spec.array_if_any true (JS.get_opt llmData "risk_factors") = true ->
  exists c,
    Llm.populateRiskFactors llmData w
    = Ok (Spec.rendering "riskFactorsContent" c w)
    /\ (is_Some (doc w !! (inl "riskFactorsContent" : node)) ->
        Spec.missing (JS.get_opt llmData "risk_factors") ->
        c = Some (Html Spec.no_risk_factors_html)).
Proof.
  intros Hl Ht. unfold Llm.populateRiskFactors.
  element "riskFactorsContent" w;
    [| exists None; split; [reflexivity | absent Hel]].
  step. unfold Spec.array_if_any in Ht. unfold JS.or.
  destruct (JS.truthy (JS.get_opt llmData "risk_factors")) eqn:E.
  - destruct (JS.get_opt llmData "risk_factors") as [| | | | |items|];
      try discriminate Ht.
    cbn [negb orb] in Ht.
    rewrite TransactionsFacts.get_length. cbn [bind].
    rewrite TransactionsFacts.length_is_zero.
    destruct items as [|f items].
    + eexists (Some _). split; [reflexivity |]. intros _ [Hm | Hm]; discriminate.
    + cbn [JS.map].
      destruct (mapM_forallb Llm.factor_html Spec.not_nullish (f :: items)
                  factor_html_total Ht) as [hs ->].
      cbn [bind]. eexists (Some _). split; [reflexivity |].
      intros _ [Hm | Hm]; discriminate.
  - rewrite TransactionsFacts.get_length. cbn [bind].
    rewrite TransactionsFacts.length_is_zero.
    eexists (Some _). split; reflexivity.
Qed.


Lemma populateRecommendations_result llmData w :
  JS.truthy llmData = true ->
  Spec.array_if_any false
    (JS.get_opt (JS.get_opt llmData "recommendation") "next_steps") = true ->
  Spec.array_if_any false
    (JS.get_opt (JS.get_opt llmData "recommendation")
                "additional_info_needed") = true ->
  exists c,
    Llm.populateRecommendations llmData w
    = Ok (Spec.rendering "recommendationsContent" c w)
    /\ (Spec.missing (JS.get_opt llmData "recommendation") -> c = None).
Proof.
  intros Hl H1 H2. unfold Llm.populateRecommendations.
  element "recommendationsContent" w; [| exists None; split; reflexivity].
  step. destruct (JS.truthy (JS.get_opt llmData "recommendation")) eqn:E;
    cbn [negb]; [| exists None; split; reflexivity].
  do 3 step.
  match goal with
  | |- context [Llm.list_items _ ?item] =>
      destruct (list_items_total _ item H1) as [steps ->]
  end.
  cbn [bind]. step.
  match goal with
  | |- context [Llm.list_items _ ?item] =>
      destruct (list_items_total _ item H2) as [infos ->]
  end.
  cbn [bind]. eexists (Some _). split; [reflexivity |].
  intros Hm%missing_falsy. congruence.
Qed.

Lemma populateCustomerTimeline_result llmData w :
  JS.truthy llmData = true ->
  match Spec.recent_transactions llmData with
  | JArr items => forallb Spec.entry_well_typed items
  | _ => false
  end = true ->
  exists c,
    Llm.populateCustomerTimeline llmData w
    = Ok (Spec.rendering "customerTimelineViz" c w)
    /\ (is_Some (doc w !! (inl "customerTimelineViz" : node)) ->
        Spec.missing (JS.get_opt (JS.get_opt llmData "customer_profile")
                                 "recent_transactions") ->
        Spec.missing (JS.get_opt (JS.get_opt llmData "historical_context")
                                 "recent_transactions") ->
        c = Some (Html Spec.no_history_html)).
Proof.
  intros Hl Ht. unfold Llm.populateCustomerTimeline.
  element "customerTimelineViz" w;
    [| exists None; split; [reflexivity | absent Hel]].
  do 2 step. fold (Spec.recent_transactions llmData).
  destruct (Spec.recent_transactions llmData) as [| | | | |items|] eqn:E;
    try discriminate Ht.
  rewrite TransactionsFacts.get_length. cbn [bind].
  rewrite TransactionsFacts.length_is_zero.
  destruct items as [|txn items].
  - eexists (Some _). split; reflexivity.
  - cbn [JS.map].
    destruct (mapM_forallb Llm.txn_html Spec.entry_well_typed (txn :: items)
                txn_html_total Ht) as [hs ->].
    cbn [bind]. eexists (Some _). split; [reflexivity |].
    intros _ Hm1%missing_falsy Hm2%missing_falsy.
    unfold Spec.recent_transactions in E.
    rewrite (or_falsy _ _ Hm1), (or_falsy _ _ Hm2) in E. discriminate E.
Qed.

(** *** The seven renderers in sequence *)

Lemma lookup_rendering_ne id c w (n : node) :
  n <> inl id -> doc (Spec.rendering id c w) !! n = doc w !! n.
Proof.
  intros H. destruct c as [c|]; [| reflexivity].
  apply lookup_update_ne. congruence.
Qed.

Lemma rendering_present id c w (n : node) :
  is_Some (doc w !! n) -> is_Some (doc (Spec.rendering id c w) !! n).
Proof. destruct c as [c|]; [apply update_present | trivial]. Qed.

Lemma html_of_rendering_ne id c w (n : node) :
  n <> inl id -> Spec.html_of n (Spec.rendering id c w) = Spec.html_of n w.
Proof. intros H. unfold Spec.html_of. now rewrite lookup_rendering_ne. Qed.

Lemma html_of_rendering_eq id h w :
  is_Some (doc w !! (inl id : node)) ->
  Spec.html_of (inl id) (Spec.rendering id (Some (Html h)) w) = Some h.
Proof.
  intros [e He]. unfold Spec.html_of, Spec.rendering.
  now rewrite lookup_update_eq, He.
Qed.

(** *** A missing member and its default *)
































(** *** The renderers do not tell a missing member from its default *)












End ExplanationFacts.

(** ** logs.js: the table filter *)

Module FilterFacts.

Import StringFacts.

Lemma filter_row_matches (searchTerm selectedRisk phone : string)
  (r : Logs.row) :
  Logs.cells r !! 1%nat = Some phone ->
  exists r',
    Logs.filter_row (JSString.toLowerCase searchTerm) selectedRisk r = Ok r'
    /\ Logs.cells r' = Logs.cells r
    /\ Logs.data_risk r' = Logs.data_risk r
    /\ (Spec.visible r'
        <-> Spec.row_matches searchTerm selectedRisk phone (Logs.data_risk r))
    /\ (Spec.hidden r'
        <-> ~ Spec.row_matches searchTerm selectedRisk phone (Logs.data_risk r)).
Proof.
  intros Hc. unfold Logs.filter_row. rewrite Hc.
  assert (Hm :
    JSString.includes (JSString.toLowerCase phone)
                      (JSString.toLowerCase searchTerm)
    && (String.eqb selectedRisk "all"
        || match Logs.data_risk r with
           | Some l => String.eqb l selectedRisk
           | None => false
           end) = true
    <-> Spec.row_matches searchTerm selectedRisk phone (Logs.data_risk r)).
  { unfold Spec.row_matches.
    rewrite andb_true_iff, orb_true_iff, includes_spec, String.eqb_eq.
    destruct (Logs.data_risk r) as [l|].
    - rewrite String.eqb_eq. split; intros [H1 [H2|H2]]; split;
        try assumption; auto; right; congruence.
    - split; intros [H1 [H2|H2]]; split; try assumption; auto; discriminate. }
  destruct (_ && _) eqn:E; eexists; (split; [reflexivity |]);
    unfold Spec.visible, Spec.hidden;
    cbn [Logs.cells Logs.data_risk Logs.row_display];
    (split; [reflexivity |]); (split; [reflexivity |]); split; split.
  - intros _. now apply Hm.
  - reflexivity.
  - discriminate.
  - intros Hn. exfalso. apply Hn. now apply Hm.
  - discriminate.
  - intros H. apply Hm in H. discriminate.
  - intros _ H. apply Hm in H. discriminate.
  - reflexivity.
Qed.

(** C6. For every row, search term and selected risk level, the filter
    leaves the row visible exactly when its phone cell contains the
    search term, letter case aside, and its risk level equals the
    selection or the selection is 'all'; every other row is hidden. *)
Theorem filterTable_visibility (searchInput riskFilter : option string)
  (allRows : list Logs.row) :
  Forall (fun r => is_Some (Logs.cells r !! 1%nat)) allRows ->
  exists rows',
    Logs.filterTable searchInput riskFilter allRows = (Ok tt, rows')
    /\ Forall2
         (fun r r' =>
            Logs.cells r' = Logs.cells r
            /\ Logs.data_risk r' = Logs.data_risk r
            /\ forall phone,
                 Logs.cells r !! 1%nat = Some phone ->
                 (Spec.visible r'
                  <-> Spec.row_matches (default EmptyString searchInput)
                        (default "all" riskFilter) phone (Logs.data_risk r))
                 /\ (Spec.hidden r'
                     <-> ~ Spec.row_matches (default EmptyString searchInput)
                             (default "all" riskFilter) phone
                             (Logs.data_risk r)))
         allRows rows'.
Proof.
  unfold Logs.filterTable.
  replace (match searchInput with
           | Some v => JSString.toLowerCase v
           | None => EmptyString
           end)
    with (JSString.toLowerCase (default EmptyString searchInput))
    by (destruct searchInput; reflexivity).
  replace (match riskFilter with
           | Some v => v
           | None => "all"
           end)
    with (default "all" riskFilter) by (destruct riskFilter; reflexivity).
  induction 1 as [|r rows [phone Hp] _ (rows' & Hrows & IH)].
  - exists []. split; [reflexivity | constructor].
  - destruct (filter_row_matches (default EmptyString searchInput)
                (default "all" riskFilter) phone r Hp)
      as (r' & Hr & Hcells & Hrisk & Hvis & Hhid).
    exists (r' :: rows'). cbn [Logs.forEach]. rewrite Hr, Hrows.
    split; [reflexivity |]. constructor; [| exact IH].
    split; [exact Hcells |]. split; [exact Hrisk |].
    intros phone' Hp'. rewrite Hp in Hp'. injection Hp' as <-.
    split; assumption.
Qed.

(** Searching "4155" among the low-risk rows of the sample table leaves
    only the third row visible. *)
Lemma filterTable_visibility_witness :
  exists rows',
    Logs.filterTable (Some "4155") (Some "Low Risk") Spec.sample_rows
    = (Ok tt, rows')
    /\ List.map Logs.row_display rows' = ["none"; "none"; EmptyString].
Proof.
  destruct (filterTable_visibility (Some "4155") (Some "Low Risk")
              Spec.sample_rows
              ltac:(repeat constructor; eexists; reflexivity))
    as (rows' & Hrows & _).
  exists rows'. split; [exact Hrows |].
  vm_compute in Hrows. injection Hrows as <-. reflexivity.
Defined.

End FilterFacts.

(** ** logs.js: the details modal *)

Module ModalFacts.

Import JSFacts DomFacts.

Lemma update_present_2 n f w k :
  is_Some (doc w !! k) -> is_Some (doc (Dom.update n f w) !! k).
Proof. apply update_present. Qed.

Lemma assign_present id f w :
  is_Some (doc w !! (inl id : node)) ->
  Dom.assign (Dom.getElementById id w) f w = Ok (Dom.update (inl id) f w).
Proof. intros H. now rewrite getElementById_present. Qed.

Lemma set_text_present id v w :
  is_Some (doc w !! (inl id : node)) ->
  Logs.set_text id v w
  = Ok (Dom.update (inl id) (Dom.set_children (Dom.text_of v)) w).
Proof. apply assign_present. Qed.

Lemma set_html_present id h w :
  is_Some (doc w !! (inl id : node)) ->
  Logs.set_html id h w = Ok (Dom.update (inl id) (Dom.set_children (Html h)) w).
Proof. apply assign_present. Qed.

Lemma field_truthy v k d :
  JS.truthy v = true -> Logs.field v k d = Ok (JS.or (JS.get_opt v k) d).
Proof. intros H. unfold Logs.field. now rewrite get_truthy. Qed.


Lemma text_of_update_eq n v w :
  is_Some (doc w !! n) ->
  Spec.text_of n (Dom.update n (Dom.set_children (Text v)) w) = Some v.
Proof.
  intros [e He]. unfold Spec.text_of. now rewrite lookup_update_eq, He.
Qed.



Ltac present := repeat apply update_present_2; assumption.

Ltac truthy := first [assumption | apply or_truthy; reflexivity].

Ltac step :=
  first [ rewrite set_text_present by present
        | rewrite set_html_present by present
        | rewrite assign_present by present
        | rewrite field_truthy by truthy
        | rewrite get_truthy by truthy
        | rewrite getElementById_present by present; cbn [Dom.assign] ];
  cbn [bind].









Lemma text_of_written n c v w :
  is_Some (doc w !! n) -> c = Text v ->
  Spec.text_of n (Dom.update n (Dom.set_children c) w) = Some v.
Proof. intros H ->. now apply text_of_update_eq. Qed.







Ltac fallback Hm :=
  apply text_of_written;
  [ present
  | rewrite (or_falsy _ _ (missing_falsy _ Hm)); reflexivity ].





End ModalFacts.

(** ** analytics.js: the four widgets *)

Module WidgetFacts.

Import DomFacts.

(** The catch handler of a widget: with the container on the page, it
    ends fulfilled and leaves the error markup in the container. *)
Lemma catch_shows (id label html : string) (w : world) :
  is_Some (doc w !! (inl id : node)) ->
  fst (Promise.lift (Analytics.set_html id html (Dom.console_log label w))
         (Dom.console_log label w)) = Ok tt
  /\ Spec.html_of (inl id)
       (snd (Promise.lift
               (Analytics.set_html id html (Dom.console_log label w))
               (Dom.console_log label w))) = Some html.
Proof.
  intros Hc. unfold Analytics.set_html.
  rewrite getElementById_present by exact Hc.
  destruct Hc as [c Hc]. unfold Spec.html_of. cbn [Dom.assign Promise.lift fst snd].
  rewrite lookup_update_eq. cbn [doc Dom.console_log]. rewrite Hc.
  split; reflexivity.
Qed.

(** C9. When the fetch of a dashboard widget fails, the failure is
    caught: the chain ends fulfilled and the widget's container holds the
    widget's static error markup. This holds for the heatmap, the
    geographic map (whatever Leaflet does), the velocity checks and the
    behavior timeline, each with its container on the page. *)
Theorem widget_fetch_failure
  (L_map : string -> world -> result world)
  (L_circleMarker : Analytics.marker -> world -> result world)
  (L_bindPopup : Analytics.marker -> string -> world -> result world)
  (L_fitBounds : list (jsval * jsval) -> world -> result world)
  (r : response) (w : world) :
  Spec.fetch_fails r ->
  (is_Some (doc w !! (inl "heatmapContainer" : node)) ->
   fst (Analytics.loadHeatmap r w) = Ok tt
   /\ Spec.html_of (inl "heatmapContainer") (snd (Analytics.loadHeatmap r w))
      = Some Spec.heatmap_error_html)
  /\ (is_Some (doc w !! (inl "fraudMap" : node)) ->
      fst (Analytics.loadFraudMap L_map L_circleMarker L_bindPopup
             L_fitBounds r w) = Ok tt
      /\ Spec.html_of (inl "fraudMap")
           (snd (Analytics.loadFraudMap L_map L_circleMarker L_bindPopup
                   L_fitBounds r w))
         = Some Spec.map_error_html)
  /\ (is_Some (doc w !! (inl "velocityChecks" : node)) ->
      fst (Analytics.loadVelocityChecks r w) = Ok tt
      /\ Spec.html_of (inl "velocityChecks")
           (snd (Analytics.loadVelocityChecks r w))
         = Some Spec.velocity_error_html)
  /\ (is_Some (doc w !! (inl "behaviorTimeline" : node)) ->
      fst (Analytics.loadBehaviorTimeline r w) = Ok tt
      /\ Spec.html_of (inl "behaviorTimeline")
           (snd (Analytics.loadBehaviorTimeline r w))
         = Some Spec.timeline_error_html).
Proof.
  intros Hr.
  unfold Analytics.loadHeatmap, Analytics.loadFraudMap,
    Analytics.loadVelocityChecks, Analytics.loadBehaviorTimeline,
    Promise.catch, Promise.then_, Promise.fetch, Promise.json.
  destruct Hr as [-> | ->]; cbn iota beta;
    (split; [| split; [| split]]); intros Hc; now apply catch_shows.
Qed.

(** The network fails on the analytics page: the heatmap container shows
    its error markup. *)
Lemma widget_fetch_failure_witness :
  Spec.html_of (inl "heatmapContainer")
    (snd (Analytics.loadHeatmap NetworkFailure Spec.analytics_page))
  = Some Spec.heatmap_error_html.
Proof.
  refine (proj2 (proj1 (widget_fetch_failure
    (fun _ w => Ok w) (fun _ w => Ok w) (fun _ _ w => Ok w) (fun _ w => Ok w)
    NetworkFailure Spec.analytics_page _) _)).
  - left. reflexivity.
  - eexists. vm_compute. reflexivity.
Defined.

End WidgetFacts.

(** ** script.js: hexToRgb *)

Module ColorFacts.

Import StringFacts.

Lemma below_256 (p : Z -> bool) :
  forallb p (List.map Z.of_nat (seq 0 256)) = true ->
  forall n, 0 <= n < 256 -> p n = true.
Proof.
  intros H n Hn. rewrite forallb_forall in H. apply H.
  apply in_map_iff. exists (Z.to_nat n). split; [lia |].
  apply in_seq. lia.
Qed.

Lemma components_ok upper :
  forallb (Spec.component_ok upper) (List.map Z.of_nat (seq 0 256)) = true.
Proof. destruct upper; vm_compute; reflexivity. Qed.

Lemma component_facts upper n :
  0 <= n < 256 ->
  JS.radix_value 16 (Spec.hex2 upper n) = Some n
  /\ Spec.hex_digit upper (n / 16) <> "#"%char.
Proof.
  intros Hn. pose proof (below_256 _ (components_ok upper) n Hn) as H.
  unfold Spec.component_ok in H. apply andb_true_iff in H as [H1 H2].
  split.
  - destruct (JS.radix_value 16 (Spec.hex2 upper n)); [| discriminate].
    apply Z.eqb_eq in H1. now subst.
  - now apply Ascii.eqb_neq, negb_true_iff.
Qed.

(** Taking the sign off a text that does not start with it. *)
Lemma no_sign c rest :
  c <> "#"%char ->
  match String c rest with
  | String "#" r => r
  | _ => String c rest
  end = String c rest.
Proof.
  intros H. destruct c as [[] [] [] [] [] [] [] []]; try reflexivity.
  now destruct H.
Qed.

(** X1: [hexToRgb] reads a colour back, with or without the sign and in
    either letter case: the three components of [#rrggbb], each between 0
    and 255, come out as the decimal triple. *)
Theorem hexToRgb_round_trip (sign ur ug ub : bool) (r g b : Z) :
  Spec.component r -> Spec.component g -> Spec.component b ->
  Script.hexToRgb (Spec.hex_color sign ur ug ub r g b) = Spec.rgb r g b.
Proof.
  intros Hr Hg Hb. unfold Script.hexToRgb, Spec.hex_color.
  destruct (component_facts ur r Hr) as (H1 & N1).
  destruct (component_facts ug g Hg) as (H2 & _).
  destruct (component_facts ub b Hb) as (H3 & _).
  unfold Spec.hex2 in *.
  destruct sign; rewrite ?append_cons, ?append_nil;
    [| rewrite (no_sign _ _ N1)];
    cbn [String.length JSString.take JSString.drop];
    rewrite H1, H2, H3; reflexivity.
Qed.

Lemma hexToRgb_round_trip_witness :
  Script.hexToRgb "#10B981" = "16, 185, 129".
Proof.
  refine (eq_trans
    (hexToRgb_round_trip true true true false 16 185 129 _ _ _) _);
    [unfold Spec.component; lia .. | vm_compute; reflexivity].
Defined.

Lemma radix_value_pair c1 c2 :
  JS.radix_value 16 (String c1 (String c2 EmptyString))
  = match JS.radix_digit 16 c1, JS.radix_digit 16 c2 with
    | Some a, Some b => Some (16 * (16 * 0 + a) + b)
    | _, _ => None
    end.
Proof.
  cbn. destruct (JS.radix_digit 16 c1); [| reflexivity].
  destruct (JS.radix_digit 16 c2); reflexivity.
Qed.

Lemma radix_digit_hex c :
  match JS.radix_digit 16 c with
  | Some d => 0 <= d < 16 /\ Spec.is_hex_digit c = true
  | None => Spec.is_hex_digit c = false
  end.
Proof.
  destruct c as [[] [] [] [] [] [] [] []]; vm_compute;
    repeat split; (discriminate || reflexivity).
Qed.

Lemma fallback_triple : Spec.rgb 16 185 129 = "16, 185, 129".
Proof. vm_compute. reflexivity. Qed.

(** X2: whatever text it is given, [hexToRgb] returns a triple of
    components between 0 and 255; a text that is not six hexadecimal digits
    after an optional sign gives the fallback [16, 185, 129]. *)
Theorem hexToRgb_components (hex : string) :
  (exists r g b,
      Spec.component r /\ Spec.component g /\ Spec.component b
      /\ Script.hexToRgb hex = Spec.rgb r g b)
  /\ (Spec.is_hex_color hex = false ->
      Script.hexToRgb hex = "16, 185, 129").
Proof.
  unfold Script.hexToRgb, Spec.is_hex_color.
  generalize (match hex with
              | String "#" r => r
              | _ => hex
              end).
  assert (Hf : exists r g b,
             Spec.component r /\ Spec.component g /\ Spec.component b
             /\ "16, 185, 129" = Spec.rgb r g b).
  { exists 16, 185, 129. unfold Spec.component.
    rewrite fallback_triple. repeat split; lia. }
  intros h.
  destruct h as [|c1 [|c2 [|c3 [|c4 [|c5 [|c6 [|c7 h]]]]]]];
    try (split; [exact Hf | reflexivity]).
  cbn [String.length JSString.take JSString.drop Nat.eqb andb
       JSString.every].
  rewrite !radix_value_pair.
  pose proof (radix_digit_hex c1) as D1. pose proof (radix_digit_hex c2) as D2.
  pose proof (radix_digit_hex c3) as D3. pose proof (radix_digit_hex c4) as D4.
  pose proof (radix_digit_hex c5) as D5. pose proof (radix_digit_hex c6) as D6.
  destruct (JS.radix_digit 16 c1) as [d1|];
    [| split; [exact Hf | reflexivity]].
  destruct (JS.radix_digit 16 c2) as [d2|];
    [| split; [exact Hf | reflexivity]].
  destruct (JS.radix_digit 16 c3) as [d3|];
    [| split; [exact Hf | reflexivity]].
  destruct (JS.radix_digit 16 c4) as [d4|];
    [| split; [exact Hf | reflexivity]].
  destruct (JS.radix_digit 16 c5) as [d5|];
    [| split; [exact Hf | reflexivity]].
  destruct (JS.radix_digit 16 c6) as [d6|];
    [| split; [exact Hf | reflexivity]].
  destruct D1 as [B1 E1], D2 as [B2 E2], D3 as [B3 E3], D4 as [B4 E4],
    D5 as [B5 E5], D6 as [B6 E6].
  split.
  - eexists _, _, _. unfold Spec.component.
    split; [| split; [| split; [| reflexivity]]]; lia.
  - rewrite E1, E2, E3, E4, E5, E6. discriminate.
Qed.

End ColorFacts.


(** ** script.js: the phone check and the phone formatter *)

Module PhoneFacts.

Import StringFacts.

Lemma filter_append p a b :
  JSString.filter p (a +:+ b) = JSString.filter p a +:+ JSString.filter p b.
Proof.
  induction a as [|c a IH]; [now rewrite !append_nil |].
  rewrite append_cons. cbn [JSString.filter]. rewrite IH.
  destruct (p c); [now rewrite append_cons | reflexivity].
Qed.

Lemma filter_filter p q s :
  (forall c, p c = true -> q c = true) ->
  JSString.filter p (JSString.filter q s) = JSString.filter p s.
Proof.
  intros H. induction s as [|c s IH]; [reflexivity |].
  cbn [JSString.filter]. destruct (q c) eqn:Q.
  - cbn [JSString.filter]. now rewrite IH.
  - destruct (p c) eqn:P; [| exact IH].
    apply H in P. congruence.
Qed.

Lemma filter_every p s :
  JSString.every p s = true -> JSString.filter p s = s.
Proof.
  induction s as [|c s IH]; [reflexivity |].
  cbn [JSString.every JSString.filter].
  intros [-> H]%andb_true_iff. now rewrite IH.
Qed.

Lemma every_filter p s : JSString.every p (JSString.filter p s) = true.
Proof.
  induction s as [|c s IH]; [reflexivity |].
  cbn [JSString.filter]. destruct (p c) eqn:P; [| exact IH].
  cbn [JSString.every]. now rewrite P, IH.
Qed.

Lemma every_impl (p q : ascii -> bool) s :
  (forall c, p c = true -> q c = true) ->
  JSString.every p s = true -> JSString.every q s = true.
Proof.
  intros H. induction s as [|c s IH]; [reflexivity |].
  cbn [JSString.every]. intros [P Hs]%andb_true_iff.
  now rewrite (H c P), IH.
Qed.

(** Every character of a text is kept by a filter or satisfies [q], and
    the kept ones satisfy [q]. *)
Lemma every_unfiltered (p q : ascii -> bool) s :
  (forall c, p c = false -> q c = true) ->
  JSString.every q (JSString.filter p s) = true ->
  JSString.every q s = true.
Proof.
  intros H. induction s as [|c s IH]; [reflexivity |].
  cbn [JSString.filter JSString.every]. destruct (p c) eqn:P.
  - cbn [JSString.every]. intros [-> Hs]%andb_true_iff. now rewrite IH.
  - intros Hs. now rewrite (H c P), IH.
Qed.

Lemma length_filter_every p s :
  JSString.every p s = true ->
  String.length (JSString.filter p s) = String.length s.
Proof. intros H. now rewrite filter_every. Qed.

Lemma digit_not_separator c :
  JSString.is_digit c = true -> Spec.is_separator c = false.
Proof.
  destruct c as [[] [] [] [] [] [] [] []]; vm_compute;
    (discriminate || reflexivity).
Qed.

Lemma digit_not_plus c : JSString.is_digit c = true -> c <> "+"%char.
Proof. intros H ->. discriminate H. Qed.

Lemma nonzero_digit c :
  JSString.in_range 49 57 c = true -> JSString.is_digit c = true.
Proof.
  destruct c as [[] [] [] [] [] [] [] []]; vm_compute;
    (discriminate || reflexivity).
Qed.

Lemma unsigned_digit c r :
  JSString.is_digit c = true -> Spec.unsigned (String c r) = String c r.
Proof.
  intros H. apply digit_not_plus in H. unfold Spec.unsigned.
  destruct c as [[] [] [] [] [] [] [] []]; try reflexivity. now destruct H.
Qed.

(** The pattern on a text: what it accepts. *)
Lemma phoneRegex_test_true s :
  Script.phoneRegex_test s = true ->
  exists c r,
    Spec.unsigned s = String c r
    /\ JSString.in_range 49 57 c = true
    /\ JSString.every JSString.is_digit r = true
    /\ (1 <= String.length r <= 14)%nat.
Proof.
  unfold Script.phoneRegex_test. fold (Spec.unsigned s).
  destruct (Spec.unsigned s) as [|c r]; [discriminate |].
  intros H. apply andb_true_iff in H as [H H4].
  apply andb_true_iff in H as [H H3]. apply andb_true_iff in H as [H1 H2].
  exists c, r. apply Nat.leb_le in H3, H4. auto.
Qed.

Lemma unsigned_cases s :
  s = Spec.unsigned s \/ s = String "+" (Spec.unsigned s).
Proof.
  unfold Spec.unsigned. destruct s as [|c r]; [now left |].
  destruct c as [[] [] [] [] [] [] [] []]; (now left) || (now right).
Qed.

(** X3: a separator, white space or a hyphen, changes nothing to the
    phone check wherever it stands in the value. *)
Theorem phone_separator_ignored (before after : string) (c : ascii) :
  Spec.is_separator c = true ->
  Spec.phone_accepted (before +:+ String c after)
  = Spec.phone_accepted (before +:+ after).
Proof.
  intros Hc. unfold Spec.phone_accepted, Script.strip_separators.
  rewrite !filter_append. cbn [JSString.filter].
  fold (Spec.is_separator c). now rewrite Hc.
Qed.

Lemma phone_separator_ignored_witness :
  Spec.phone_accepted "+1 415" = Spec.phone_accepted "+1415".
Proof. apply (phone_separator_ignored "+1" "415" " "). reflexivity. Defined.

(** X4: a value that the phone check accepts holds between 2 and 15
    digits, and nothing but digits, separators and plus signs. *)
Theorem phone_accepted_digits (value : string) :
  Spec.phone_accepted value = true ->
  (2 <= String.length (Spec.digits value) <= 15)%nat
  /\ JSString.every Spec.phone_char value = true.
Proof.
  unfold Spec.phone_accepted. intros H.
  destruct (phoneRegex_test_true _ H) as (c & r & Hu & Hc & Hr & Hlen).
  apply nonzero_digit in Hc.
  assert (Hd : Spec.digits value
               = Spec.digits (Script.strip_separators value)).
  { unfold Spec.digits, Script.strip_separators. symmetry.
    apply filter_filter. intros d Hd.
    apply digit_not_separator in Hd. fold (Spec.is_separator d).
    now rewrite Hd. }
  assert (Hdu : Spec.digits (Spec.unsigned (Script.strip_separators value))
                = String c r).
  { rewrite Hu. unfold Spec.digits. apply filter_every.
    cbn [JSString.every]. now rewrite Hc, Hr. }
  assert (Hds : Spec.digits (Script.strip_separators value) = String c r).
  { destruct (unsigned_cases (Script.strip_separators value)) as [E | E];
      rewrite E; [exact Hdu |].
    unfold Spec.digits in *. cbn [JSString.filter]. exact Hdu. }
  split.
  - rewrite Hd, Hds. cbn [String.length]. lia.
  - unfold Script.strip_separators in *.
    apply (every_unfiltered
             (fun c => negb (JSString.is_space c || Ascii.eqb c "-"))).
    + intros d Hd'. apply negb_false_iff in Hd'.
      unfold Spec.phone_char, Spec.is_separator. rewrite Hd'.
      now rewrite orb_true_r.
    + assert (Hall : JSString.every Spec.phone_char (String c r) = true).
      { cbn [JSString.every]. unfold Spec.phone_char at 1. rewrite Hc.
        cbn [orb andb]. apply (every_impl JSString.is_digit); [| exact Hr].
        intros d Hd'. unfold Spec.phone_char. now rewrite Hd'. }
      rewrite <- Hu in Hall.
      destruct (unsigned_cases
                  (JSString.filter
                     (fun c => negb (JSString.is_space c || Ascii.eqb c "-"))
                     value)) as [E | E]; rewrite E; [exact Hall |].
      cbn [JSString.every]. now rewrite Hall.
Qed.

Lemma phone_accepted_digits_witness :
  (2 <= String.length (Spec.digits "+1 415-555-1234") <= 15)%nat.
Proof. apply (phone_accepted_digits "+1 415-555-1234"). reflexivity. Defined.

(** *** The formatter of the phone field *)

Lemma startsWith_plus c r :
  JSString.startsWith "+" (String c r) = Ascii.eqb "+" c.
Proof. cbn. now rewrite andb_true_r. Qed.

Lemma digits_digits s : Spec.digits (Spec.digits s) = Spec.digits s.
Proof. unfold Spec.digits. now apply filter_filter. Qed.

Lemma strip_digits s :
  Script.strip_separators (Spec.digits s) = Spec.digits s.
Proof.
  unfold Script.strip_separators, Spec.digits. apply filter_every.
  apply (every_impl JSString.is_digit); [| apply every_filter].
  intros c Hc. apply digit_not_separator in Hc.
  unfold Spec.is_separator in Hc. now rewrite Hc.
Qed.

Lemma digits_plus s : Spec.digits (String "+" s) = Spec.digits s.
Proof. reflexivity. Qed.

(** X5: the phone formatter is idempotent: a second run leaves what the
    first one left. *)
Theorem formatPhone_idempotent (value : string) :
  Inputs.formatPhone (Inputs.formatPhone value) = Inputs.formatPhone value.
Proof.
  destruct (Spec.digits value) as [|d ds] eqn:E.
  - assert (Hf : Inputs.formatPhone value = value)
      by (unfold Inputs.formatPhone; fold (Spec.digits value); now rewrite E).
    now rewrite !Hf.
  - destruct (JSString.startsWith "+" value) eqn:P.
    + assert (Hf : Inputs.formatPhone value = value)
        by (unfold Inputs.formatPhone; fold (Spec.digits value);
            now rewrite E, P).
      now rewrite !Hf.
    + assert (Hf : Inputs.formatPhone value = "+" +:+ String d ds)
        by (unfold Inputs.formatPhone; fold (Spec.digits value);
            now rewrite E, P).
      rewrite Hf.
      assert (Hd : Spec.digits ("+" +:+ String d ds) = String d ds).
      { rewrite append_cons, append_nil, digits_plus.
        now rewrite <- E, digits_digits. }
      unfold Inputs.formatPhone. fold (Spec.digits ("+" +:+ String d ds)).
      rewrite Hd. rewrite append_cons, append_nil, startsWith_plus.
      reflexivity.
Qed.

(** X6: once formatted, a value that did not start with a plus sign
    passes the phone check exactly when its digits alone are a number that
    the pattern accepts, whatever else the value held. *)
Theorem formatPhone_then_check (value : string) :
  JSString.startsWith "+" value = false ->
  Spec.phone_accepted (Inputs.formatPhone value)
  = Script.phoneRegex_test (Spec.digits value).
Proof.
  intros P. unfold Inputs.formatPhone. fold (Spec.digits value). rewrite P.
  destruct (Spec.digits value) as [|d ds] eqn:E.
  - (* no digit: the check rejects the value as it is *)
    unfold Spec.phone_accepted.
    destruct (Script.phoneRegex_test (Script.strip_separators value)) eqn:T;
      [| reflexivity].
    exfalso. destruct (phoneRegex_test_true _ T) as (c & r & Hu & Hc & _).
    apply nonzero_digit in Hc.
    assert (Hd : Spec.digits (Script.strip_separators value) = EmptyString).
    { rewrite <- E. unfold Spec.digits, Script.strip_separators.
      apply filter_filter. intros x Hx. apply digit_not_separator in Hx.
      unfold Spec.is_separator in Hx. now rewrite Hx. }
    destruct (unsigned_cases (Script.strip_separators value)) as [F | F];
      rewrite F, Hu in Hd; unfold Spec.digits in Hd;
      cbn [JSString.filter] in Hd; try rewrite Hc in Hd;
      try change (JSString.is_digit "+") with false in Hd; cbv iota in Hd;
      try rewrite Hc in Hd; discriminate Hd.
  - unfold Spec.phone_accepted, Script.strip_separators.
    rewrite filter_append. fold (Script.strip_separators (String d ds)).
    rewrite <- E, strip_digits, E. cbn [JSString.filter].
    change (negb (JSString.is_space "+" || Ascii.eqb "+" "-")) with true.
    cbv iota. rewrite append_cons, append_nil.
    assert (Hd : JSString.is_digit d = true).
    { pose proof (every_filter JSString.is_digit value) as H.
      fold (Spec.digits value) in H. rewrite E in H.
      cbn [JSString.every] in H. now apply andb_true_iff in H as [H _]. }
    unfold Script.phoneRegex_test.
    fold (Spec.unsigned (String d ds)). rewrite (unsigned_digit _ _ Hd).
    reflexivity.
Qed.

Lemma formatPhone_then_check_witness :
  Spec.phone_accepted (Inputs.formatPhone "(415) 555-1234") = true.
Proof.
  rewrite (formatPhone_then_check "(415) 555-1234"); reflexivity.
Defined.

End PhoneFacts.

(** ** script.js: showValidationError *)

Module ValidationFacts.

Import DomFacts.

Lemma filter_remove_first (p : div -> bool) l :
  List.filter p (Script.remove_first p l) = tail (List.filter p l).
Proof.
  induction l as [|d l IH]; [reflexivity |].
  cbn [Script.remove_first List.filter]. destruct (p d) eqn:P.
  - reflexivity.
  - cbn [List.filter]. now rewrite P.
Qed.

Lemma filter_others_remove_first (p : div -> bool) l :
  List.filter (fun d => negb (p d)) (Script.remove_first p l)
  = List.filter (fun d => negb (p d)) l.
Proof.
  induction l as [|d l IH]; [reflexivity |].
  cbn [Script.remove_first List.filter]. destruct (p d) eqn:P.
  - reflexivity.
  - cbn [List.filter]. now rewrite P, IH.
Qed.

Lemma is_error_new css html :
  Spec.is_error (Div "validation-error" css html) = true.
Proof. reflexivity. Qed.

(** The parent of the field after a call. *)
Lemma showValidationError_parent i message w e p pe :
  doc w !! i = Some e -> parentElement e = Some p -> doc w !! p = Some pe ->
  exists w' pe',
    Script.showValidationError (Some i) message w = Ok w'
    /\ doc w' !! p = Some pe'
    /\ divs pe'
       = (Script.remove_first Spec.is_error (divs pe)
          ++ [Div "validation-error"
                "color: #ef4444; font-size: 0.85rem; margin-top: 0.5rem; display: flex; align-items: center; gap: 0.5rem;"
                (JSString.markup "<i class=`bi bi-exclamation-circle`></i> "
                 +:+ message)])%list.
Proof.
  intros Hi Hp Hpe. unfold Script.showValidationError. rewrite Hi, Hp.
  destruct (decide (i = p)) as [->|Hne].
  - eexists _, _. split; [reflexivity |].
    unfold Dom.setTimeout; cbn [doc].
    rewrite lookup_update_eq, lookup_update_eq, lookup_update_eq, Hpe.
    split; reflexivity.
  - eexists _, _. split; [reflexivity |].
    unfold Dom.setTimeout; cbn [doc].
    rewrite lookup_update_ne by exact Hne.
    rewrite lookup_update_eq, lookup_update_eq, Hpe. split; reflexivity.
Qed.

(** X7: [showValidationError] keeps one error per field: it puts the new
    error last under the parent of the field, takes the first old one away,
    and leaves the other children as they are. A parent with at most one
    error has exactly one afterwards, however often the check fails. *)
Theorem showValidationError_one_error i message w e p pe :
  doc w !! i = Some e -> parentElement e = Some p -> doc w !! p = Some pe ->
  exists w' pe',
    Script.showValidationError (Some i) message w = Ok w'
    /\ doc w' !! p = Some pe'
    /\ List.length (Spec.errors pe')
       = Nat.max 1 (List.length (Spec.errors pe))
    /\ Spec.other_divs pe' = Spec.other_divs pe.
Proof.
  intros Hi Hp Hpe.
  destruct (showValidationError_parent i message w e p pe Hi Hp Hpe)
    as (w' & pe' & Hrun & Hpe' & Hdivs).
  exists w', pe'. split; [exact Hrun |]. split; [exact Hpe' |].
  unfold Spec.errors, Spec.other_divs. rewrite Hdivs.
  rewrite !List.filter_app, filter_remove_first, filter_others_remove_first.
  cbn [List.filter]. rewrite !is_error_new. cbn [negb].
  split.
  - rewrite length_app. cbn [List.length].
    destruct (List.filter Spec.is_error (divs pe)); cbn [tail List.length]; lia.
  - apply app_nil_r.
Qed.

Lemma showValidationError_one_error_witness :
  exists w' pe',
    Script.showValidationError (Some (inl "phone_number")) "first"
      (Spec.form_page "abc" "1") = Ok w'
    /\ doc w' !! (inr 0%nat : node) = Some pe'
    /\ List.length (Spec.errors pe') = 1%nat.
Proof.
  destruct (showValidationError_one_error (inl "phone_number") "first"
              (Spec.form_page "abc" "1")
              (Spec.input_in (inr 0%nat) "abc") (inr 0%nat) Spec.blank)
    as (w' & pe' & H1 & H2 & H3 & _); try (vm_compute; reflexivity).
  exists w', pe'. split; [exact H1 |]. split; [exact H2 |]. exact H3.
Defined.

(** X8: the shake of the field is transient. The call sets the animation
    and arms one timer of 500 ms; when the timer fires the animation is
    cleared, and the error stays. *)
Theorem shake_is_transient i message w e p :
  doc w !! i = Some e -> parentElement e = Some p -> is_Some (doc w !! p) ->
  exists w',
    Script.showValidationError (Some i) message w = Ok w'
    /\ animation <$> doc w' !! i = Some "shake 0.5s"
    /\ timers w' = (500, ClearAnimation i) :: timers w
    /\ animation <$> doc (Dom.run (ClearAnimation i) w') !! i
       = Some EmptyString
    /\ Spec.inline_error i message (Dom.run (ClearAnimation i) w').
Proof.
  intros Hi Hp Hpe.
  destruct (FormFacts.showValidationError_shows i message w e p Hi Hp Hpe)
    as (w' & Hrun & Herr & _).
  exists w'. split; [exact Hrun |].
  unfold Script.showValidationError in Hrun. rewrite Hi, Hp in Hrun.
  injection Hrun as <-. cbn [Dom.run].
  assert (Hlast : exists e3,
    doc (Dom.update i (Dom.set_animation "shake 0.5s")
           (Dom.update p
              (fun pe => Dom.set_divs
                 (divs pe ++
                  [Div "validation-error"
                     "color: #ef4444; font-size: 0.85rem; margin-top: 0.5rem; display: flex; align-items: center; gap: 0.5rem;"
                     (JSString.markup "<i class=`bi bi-exclamation-circle`></i> "
                      +:+ message)])%list pe)
              (Dom.update p
                 (fun pe => Dom.set_divs
                    (Script.remove_first
                       (Script.has_div_class "validation-error") (divs pe))
                    pe) w))) !! i
    = Some (Dom.set_animation "shake 0.5s" e3)).
  { rewrite lookup_update_eq.
    match goal with
    | |- context [doc ?W !! i] =>
        assert (Hs : is_Some (doc W !! i))
          by (apply update_present, update_present; rewrite Hi; eauto)
    end.
    destruct Hs as [e3 ->]. eauto. }
  destruct Hlast as [e3 He3].
  unfold Dom.setTimeout; cbn [doc timers].
  split; [now rewrite He3 |]. split; [reflexivity |].
  split.
  - rewrite lookup_update_eq. cbn [doc]. now rewrite He3.
  - destruct Herr as (e' & p' & pe' & d & H1 & H2 & H3 & H4 & H5 & H6).
    cbn [doc Dom.setTimeout] in H1, H3.
    exists (Dom.set_animation EmptyString e'), p'.
    destruct (decide (i = p')) as [<-|Hne].
    + exists (Dom.set_animation EmptyString pe'), d.
      rewrite lookup_update_eq. cbn [doc]. rewrite H1.
      rewrite H1 in H3. injection H3 as ->.
      repeat split; assumption.
    + exists pe', d. rewrite lookup_update_eq, lookup_update_ne by exact Hne.
      cbn [doc]. rewrite H1, H3.
      repeat split; assumption.
Qed.

Lemma shake_is_transient_witness :
  exists w',
    Script.showValidationError (Some (inl "phone_number")) "first"
      (Spec.form_page "abc" "1") = Ok w'
    /\ timers w' = [(500, ClearAnimation (inl "phone_number"))].
Proof.
  destruct (shake_is_transient (inl "phone_number") "first"
              (Spec.form_page "abc" "1")
              (Spec.input_in (inr 0%nat) "abc") (inr 0%nat))
    as (w' & H1 & _ & H2 & _);
    try (vm_compute; reflexivity); [eexists; vm_compute; reflexivity |].
  exists w'. split; [exact H1 | exact H2].
Defined.

End ValidationFacts.

(** ** script.js: loadRecentTransactions, every way the fetch settles *)

Module RecentFacts.

Import JSFacts DomFacts.

Lemma getElementById_console id label w :
  Dom.getElementById id (Dom.console_log label w) = Dom.getElementById id w.
Proof. reflexivity. Qed.

(** X9: [loadRecentTransactions] never rejects, however the fetch settles
    and whatever the page and the data are. Where the area is missing the
    document is left as it is; where it is there it shows markup, which is
    the error message when the fetch fails. *)
Theorem loadRecentTransactions_settles (r : response) (w : world) :
  fst (Script.loadRecentTransactions r w) = Ok tt
  /\ (doc w !! Spec.recent_logs = None ->
      doc (snd (Script.loadRecentTransactions r w)) = doc w)
  /\ (is_Some (doc w !! Spec.recent_logs) ->
      exists html,
        Spec.html_of Spec.recent_logs (snd (Script.loadRecentTransactions r w))
        = Some html
        /\ (Spec.fetch_fails r -> html = Spec.transactions_error_html)).
Proof.
  unfold Script.loadRecentTransactions, Promise.catch, Promise.then_,
    Promise.fetch, Promise.json, Promise.done, Spec.transactions_error_html.
  destruct (doc w !! Spec.recent_logs) as [e|] eqn:Hc.
  - assert (Hp : is_Some (doc w !! Spec.recent_logs)) by (rewrite Hc; eauto).
    assert (Hshown : forall html w0,
              doc w0 = doc w ->
              Spec.html_of Spec.recent_logs
                (Dom.update (inl "recentLogs") (Dom.set_children (Html html))
                   w0) = Some html).
    { intros html w0 Hw0. unfold Spec.html_of. rewrite lookup_update_eq, Hw0.
      unfold Spec.recent_logs in Hc. now rewrite Hc. }
    destruct r as [|[logs|]]; cbv zeta;
      rewrite ?getElementById_console,
        ?(getElementById_present "recentLogs" w Hp).
    + cbn [fst snd]. split; [reflexivity |]. split; [discriminate |].
      intros _. eexists. split; [now apply Hshown | reflexivity].
    + match goal with
      | |- context [Promise.lift ?R w] => destruct R as [w'|err] eqn:Hr
      end; cbn [Promise.lift];
        rewrite ?getElementById_console,
          ?(getElementById_present "recentLogs" w Hp);
        cbn [fst snd]; (split; [reflexivity |]); (split; [discriminate |]);
        intros _.
      * assert (Hw : exists html,
                  w' = Dom.update (inl "recentLogs")
                         (Dom.set_children (Html html)) w).
        { destruct (JS.get logs "length") as [len|]; [| discriminate Hr].
          cbn [bind] in Hr. destruct (JS.is_zero len).
          - injection Hr as <-. eauto.
          - destruct (JS.slice logs 0 5) as [recent|]; [| discriminate Hr].
            cbn [bind] in Hr.
            destruct (JS.map recent Script.log_item) as [items|];
              [| discriminate Hr].
            cbn [bind] in Hr. injection Hr as <-. eauto. }
        destruct Hw as [html ->]. exists html.
        split; [now apply Hshown |]. intros [F | F]; discriminate F.
      * eexists. split; [now apply Hshown |]. intros [F | F]; discriminate F.
    + cbn [fst snd]. split; [reflexivity |]. split; [discriminate |].
      intros _. eexists. split; [now apply Hshown | reflexivity].
  - pose proof (getElementById_absent "recentLogs" w Hc) as Hg0.
    destruct r as [|[logs|]]; cbv zeta;
      rewrite ?getElementById_console, ?Hg0; cbn [fst snd];
      (split; [reflexivity |]); (split; [reflexivity |]);
      intros [? ?]; discriminate.
Qed.

(** X10: one entry among the first five that cannot be rendered replaces
    the whole list by the error message: nothing of the list is shown. *)
Theorem loadRecentTransactions_bad_entry (logs : list jsval) (w : world) :
  is_Some (doc w !! Spec.recent_logs) ->
  Exists (fun log => exists e, Script.log_item log = Throw e)
         (firstn 5 logs) ->
  fst (Script.loadRecentTransactions (Response (Some (JArr logs))) w) = Ok tt
  /\ Spec.html_of Spec.recent_logs
       (snd (Script.loadRecentTransactions (Response (Some (JArr logs))) w))
     = Some Spec.transactions_error_html
  /\ console (snd (Script.loadRecentTransactions
                     (Response (Some (JArr logs))) w))
     = "Error loading transactions:" :: console w.
Proof.
  intros Hp Hbad.
  rewrite (TransactionsFacts.loadRecentTransactions_array logs w Hp).
  destruct logs as [|log logs]; [inversion Hbad |].
  assert (Hm : exists e, JS.mapM Script.log_item (firstn 5 (log :: logs))
                         = Throw e).
  { revert Hbad. generalize (firstn 5 (log :: logs)).
    induction 1 as [x l [e He] | x l _ [e IH]]; cbn [JS.mapM].
    - rewrite He. eauto.
    - destruct (Script.log_item x); cbn [bind]; [| eauto].
      rewrite IH. cbn [bind]. eauto. }
  destruct Hm as [e ->]. unfold Promise.done. cbn [fst snd].
  split; [reflexivity |]. split; [| reflexivity].
  unfold Spec.html_of. rewrite lookup_update_eq. cbn [doc Dom.console_log].
  destruct Hp as [c ->]. reflexivity.
Qed.

Lemma loadRecentTransactions_bad_entry_witness :
  Spec.html_of Spec.recent_logs
    (snd (Script.loadRecentTransactions
            (Response (Some (JArr [Spec.sample_log "+1";
                                   JObj [("phone_number", JStr "+2")]])))
            Spec.home_page))
  = Some Spec.transactions_error_html.
Proof.
  refine (proj1 (proj2 (loadRecentTransactions_bad_entry
    [Spec.sample_log "+1"; JObj [("phone_number", JStr "+2")]]
    Spec.home_page _ _))).
  - eexists. vm_compute. reflexivity.
  - apply Exists_cons_tl, Exists_cons_hd. eexists. reflexivity.
Defined.

End RecentFacts.

(** ** analytics.js: the widgets and their container *)

Module ContainerFacts.

Import JSFacts DomFacts.

(** A chain whose handlers end by assigning to the container, which the
    error handler does again: it is fulfilled exactly when the container
    is on the page, and without it the document stays as it was. *)
Lemma chain_needs_container (id label html : string)
  (render : jsval -> world -> result string) (r : response) (w : world) :
  let chain :=
    Promise.catch
      (Promise.then_ (Promise.then_ (Promise.fetch r) Promise.json)
         (fun data w =>
            Promise.lift
              (let container := Dom.getElementById id w in
               let* h := render data w in
               Dom.assign container (Dom.set_children (Html h)) w)
              w))
      (fun error w =>
         let w1 := Dom.console_log label w in
         Promise.lift (Analytics.set_html id html w1) w1) in
  (fst (chain w) = Ok tt <-> is_Some (doc w !! (inl id : node)))
  /\ (doc w !! (inl id : node) = None ->
      fst (chain w) = Throw TypeError /\ doc (snd (chain w)) = doc w).
Proof.
  cbv zeta.
  unfold Promise.catch, Promise.then_, Promise.fetch, Promise.json,
    Analytics.set_html.
  destruct (doc w !! (inl id : node)) as [e|] eqn:Hc.
  - assert (Hp : is_Some (doc w !! (inl id : node))) by (rewrite Hc; eauto).
    split; [| discriminate]. split; [intros _; eauto | intros _].
    destruct r as [|[data|]];
      rewrite ?RecentFacts.getElementById_console,
        ?(getElementById_present id w Hp); cbn [Dom.assign Promise.lift fst];
      try reflexivity.
    destruct (render data w) as [h|err]; cbn [bind Dom.assign Promise.lift];
      rewrite ?RecentFacts.getElementById_console,
        ?(getElementById_present id w Hp); reflexivity.
  - pose proof (getElementById_absent id w Hc) as Hg.
    assert (Hno : ~ is_Some (@None element)) by (intros [? ?]; discriminate).
    destruct r as [|[data|]];
      rewrite ?RecentFacts.getElementById_console, ?Hg;
      cbn [Dom.assign Promise.lift fst snd];
      try (split; [split; [discriminate | intros H; now destruct Hno]
                  | intros _; split; reflexivity]).
    destruct (render data w) as [h|err]; cbn [bind Dom.assign Promise.lift];
      rewrite ?RecentFacts.getElementById_console, ?Hg;
      cbn [Dom.assign Promise.lift fst snd];
      (split; [split; [discriminate | intros H; now destruct Hno]
              | intros _; split; reflexivity]).
Qed.

Ltac instance H load :=
  match type of H with
  | (fst (?c ?w) = _ <-> _) /\ _ =>
      let E := fresh "E" in
      assert (E : load w = c w);
      [ unfold Analytics.loadHeatmap, Analytics.loadVelocityChecks,
          Analytics.loadBehaviorTimeline, Analytics.set_html, Promise.catch,
          Promise.then_, Promise.fetch, Promise.json
      | rewrite E; exact H ]
  end.

(** X11: the heatmap, the velocity checks and the behavior timeline do
    not test their container. Each chain is fulfilled exactly when its
    container is on the page, however the fetch settles and whatever the
    data are; without the container it ends in a TypeError that nothing
    handles, and the document is left as it was. *)
Theorem widget_needs_container (r : response) (w : world) :
  ((fst (Analytics.loadHeatmap r w) = Ok tt
    <-> is_Some (doc w !! (inl "heatmapContainer" : node)))
   /\ (doc w !! (inl "heatmapContainer" : node) = None ->
       fst (Analytics.loadHeatmap r w) = Throw TypeError
       /\ doc (snd (Analytics.loadHeatmap r w)) = doc w))
  /\ ((fst (Analytics.loadVelocityChecks r w) = Ok tt
       <-> is_Some (doc w !! (inl "velocityChecks" : node)))
      /\ (doc w !! (inl "velocityChecks" : node) = None ->
          fst (Analytics.loadVelocityChecks r w) = Throw TypeError
          /\ doc (snd (Analytics.loadVelocityChecks r w)) = doc w))
  /\ ((fst (Analytics.loadBehaviorTimeline r w) = Ok tt
       <-> is_Some (doc w !! (inl "behaviorTimeline" : node)))
      /\ (doc w !! (inl "behaviorTimeline" : node) = None ->
          fst (Analytics.loadBehaviorTimeline r w) = Throw TypeError
          /\ doc (snd (Analytics.loadBehaviorTimeline r w)) = doc w)).
Proof.
  split; [| split].
  - pose proof (chain_needs_container "heatmapContainer"
      "Error loading heatmap:" Spec.heatmap_error_html
      (fun data _ =>
         let* cells := JS.mapM (Analytics.heatmap_cell data) (seq 0 24) in
         Ok (JSString.markup "
                <div class=`heatmap-container`>
                    "
             +:+ JSString.join EmptyString cells
             +:+ "
                </div>
            ")) r w) as H.
    cbv zeta in H. instance H (Analytics.loadHeatmap r).
    destruct r as [|[data|]]; try reflexivity. cbv zeta.
    destruct (JS.mapM (Analytics.heatmap_cell data) (seq 0 24));
      reflexivity.
  - pose proof (chain_needs_container "velocityChecks"
      "Error loading velocity checks:" Spec.velocity_error_html
      (fun data _ =>
         let* anomalies := JS.get data "anomalies" in
         let* len := JS.get anomalies "length" in
         if JS.is_zero len then Ok Spec.no_anomalies_html
         else
           let* items := JS.map anomalies Analytics.anomaly_html in
           Ok (JSString.join EmptyString items)) r w) as H.
    cbv zeta in H. instance H (Analytics.loadVelocityChecks r).
    destruct r as [|[data|]]; try reflexivity. cbv zeta.
    destruct (JS.get data "anomalies") as [anomalies|]; [| reflexivity].
    cbn [bind].
    destruct (JS.get anomalies "length") as [len|]; [| reflexivity].
    cbn [bind]. destruct (JS.is_zero len); [reflexivity |].
    destruct (JS.map anomalies Analytics.anomaly_html); reflexivity.
  - pose proof (chain_needs_container "behaviorTimeline"
      "Error loading behavior timeline:" Spec.timeline_error_html
      (fun data _ =>
         let* events := JS.get data "events" in
         let* len := JS.get events "length" in
         if JS.is_zero len then Ok Spec.no_events_html
         else
           let* items := JS.map events Analytics.event_html in
           Ok (JSString.join EmptyString items)) r w) as H.
    cbv zeta in H. instance H (Analytics.loadBehaviorTimeline r).
    destruct r as [|[data|]]; try reflexivity. cbv zeta.
    destruct (JS.get data "events") as [events|]; [| reflexivity].
    cbn [bind].
    destruct (JS.get events "length") as [len|]; [| reflexivity].
    cbn [bind]. destruct (JS.is_zero len); [reflexivity |].
    destruct (JS.map events Analytics.event_html); reflexivity.
Qed.

End ContainerFacts.

(** ** analytics.js: the cells of the heatmap and the markers of the map *)

Module CellFacts.

Import JSFacts.

Lemma zero_rate_text : JS.toFixed (JNum Number.zero) 0 = Ok "0".
Proof. vm_compute. reflexivity. Qed.

Lemma zero_text : JS.ToString (JNum Number.zero) = "0".
Proof. vm_compute. reflexivity. Qed.

Lemma zero_color : Analytics.getHeatColor (JNum Number.zero) = "#1a1f29".
Proof. vm_compute. reflexivity. Qed.

Lemma zero_not_above :
  Number.gtb (JS.ToNumber (JNum Number.zero)) (Number.of_Z 50) = false.
Proof. vm_compute. reflexivity. Qed.

Lemma no_data_json :
  JSString.replace_all (fun c => Ascii.eqb c JSString.dquote) "&quot;"
    match JS.stringify
            (JObj [("total", JNum Number.zero);
                   ("high_risk", JNum Number.zero);
                   ("fraud_rate", JNum Number.zero)]) with
    | Some t => t
    | None => "undefined"
    end
  = "{&quot;total&quot;:0,&quot;high_risk&quot;:0,&quot;fraud_rate&quot;:0}".
Proof. vm_compute. reflexivity. Qed.

(** X12: an hour that the data leave out is drawn as an hour with no
    transactions: the cell of the heatmap has the neutral colour for its
    background and for its text, zero counts and a zero rate. *)
Theorem heatmap_missing_hour (data hourly at_hour : jsval) (hour : nat) :
  JS.get data "hourly_fraud" = Ok hourly ->
  JS.get_index hourly hour = Ok at_hour ->
  JS.truthy at_hour = false ->
  Analytics.heatmap_cell data hour = Ok (Spec.empty_cell hour).
Proof.
  intros H1 H2 H3. unfold Analytics.heatmap_cell.
  rewrite H1. cbn [bind]. rewrite H2. cbn [bind].
  rewrite (or_falsy _ _ H3).
  change (JS.get (JObj [("total", JNum Number.zero);
                        ("high_risk", JNum Number.zero);
                        ("fraud_rate", JNum Number.zero)]) "fraud_rate")
    with (@Ok jsval (JNum Number.zero)).
  cbn [bind].
  change (JS.or (JNum Number.zero) (JNum Number.zero))
    with (JNum Number.zero).
  change (JS.get (JObj [("total", JNum Number.zero);
                        ("high_risk", JNum Number.zero);
                        ("fraud_rate", JNum Number.zero)]) "total")
    with (@Ok jsval (JNum Number.zero)).
  cbn [bind].
  change (JS.get (JObj [("total", JNum Number.zero);
                        ("high_risk", JNum Number.zero);
                        ("fraud_rate", JNum Number.zero)]) "high_risk")
    with (@Ok jsval (JNum Number.zero)).
  cbn [bind].
  rewrite zero_rate_text. cbn [bind].
  rewrite zero_color, zero_not_above, !zero_text, no_data_json.
  reflexivity.
Qed.

Lemma heatmap_missing_hour_witness :
  Analytics.heatmap_cell (JObj [("hourly_fraud", JArr [])]) 5
  = Ok (Spec.empty_cell 5).
Proof.
  apply (heatmap_missing_hour _ (JArr []) JUndefined); reflexivity.
Defined.

(** *** The order of Numbers *)

Lemma compare_antisym (x y : number) :
  SFcompare y x = option_map CompOpp (SFcompare x y).
Proof.
  destruct x as [sx|sx| |sx mx ex], y as [sy|sy| |sy my ey];
    try reflexivity; try (destruct sx; reflexivity);
    try (destruct sy; reflexivity);
    try (destruct sx, sy; reflexivity).
  assert (K : PosDef.Pos.compare_cont Eq my mx
              = CompOpp (PosDef.Pos.compare_cont Eq mx my))
    by (symmetry; apply (Pos.compare_cont_antisym mx my Eq)).
  destruct sx, sy; cbn [SFcompare option_map]; try reflexivity;
    rewrite (Z.compare_antisym ex ey), K; destruct (ex ?= ey);
    cbn [CompOpp]; try reflexivity.
Qed.




Lemma ltb_irrefl (x : number) : Number.ltb x x = false.
Proof.
  unfold Number.ltb, SFltb. pose proof (compare_antisym x x) as H.
  destruct (SFcompare x x) as [[]|]; try reflexivity. discriminate H.
Qed.




Lemma max_NaN (b : number) : Number.max Number.NaN b = Number.NaN.
Proof. reflexivity. Qed.



(** The circle is on the map before the popup is built: for a cluster
    without a total amount, with a Leaflet that logs the circles it is
    given, the callback ends with a TypeError after the circle was
    logged. *)
Example add_marker_before_popup (w : world) :
  Analytics.add_marker
    (fun _ w => Ok (Dom.console_log "circle" w)) (fun _ _ w => Ok w)
    (JObj [("count", JNum (Number.of_Z 100))]) w
  = (Throw TypeError, Dom.console_log "circle" w).
Proof. reflexivity. Qed.


End CellFacts.

(** ** logs.js: filtering again, and a row without a phone cell *)

Module RefilterFacts.

Lemma filter_row_again s1 r1 s2 r2 (r r' : Logs.row) :
  Logs.filter_row s1 r1 r = Ok r' ->
  exists r12 r2',
    Logs.filter_row s2 r2 r' = Ok r12
    /\ Logs.filter_row s2 r2 r = Ok r2'
    /\ Logs.row_display r12 = Logs.row_display r2'
    /\ Logs.cells r12 = Logs.cells r
    /\ Logs.data_risk r12 = Logs.data_risk r
    /\ Logs.filter_row s1 r1 r' = Ok r'.
Proof.
  unfold Logs.filter_row.
  destruct (Logs.cells r !! 1%nat) as [text|] eqn:Hc; [| discriminate].
  intros H. injection H as <-.
  set (m1 := JSString.includes (JSString.toLowerCase text) s1
             && (String.eqb r1 "all"
                 || match Logs.data_risk r with
                    | Some l => String.eqb l r1
                    | None => false
                    end)).
  set (m2 := JSString.includes (JSString.toLowerCase text) s2
             && (String.eqb r2 "all"
                 || match Logs.data_risk r with
                    | Some l => String.eqb l r2
                    | None => false
                    end)).
  destruct m1 eqn:M1; cbn [Logs.cells Logs.data_risk]; rewrite Hc;
    fold m2; eexists _, _; (split; [reflexivity |]);
    (split; [reflexivity |]); destruct m2;
    cbn [Logs.row_display Logs.cells Logs.data_risk Logs.row_animation];
    subst m1; rewrite ?M1; repeat split; reflexivity.
Qed.

(** X14: filtering the table again. The same query leaves the rows as
    the first run left them, and another query shows and hides the rows as
    it would have on the table as it was loaded: what a row shows depends on
    the last query only. *)
Theorem filterTable_again (s1 r1 s2 r2 : option string)
  (rows rows1 : list Logs.row) :
  Logs.filterTable s1 r1 rows = (Ok tt, rows1) ->
  Logs.filterTable s1 r1 rows1 = (Ok tt, rows1)
  /\ exists rows12 rows2,
       Logs.filterTable s2 r2 rows1 = (Ok tt, rows12)
       /\ Logs.filterTable s2 r2 rows = (Ok tt, rows2)
       /\ List.map Logs.row_display rows12 = List.map Logs.row_display rows2
       /\ List.map Logs.cells rows12 = List.map Logs.cells rows
       /\ List.map Logs.data_risk rows12 = List.map Logs.data_risk rows.
Proof.
  unfold Logs.filterTable.
  generalize (match s1 with
              | Some v => JSString.toLowerCase v
              | None => EmptyString
              end) as t1.
  generalize (match r1 with
              | Some v => v
              | None => "all"
              end) as k1.
  generalize (match s2 with
              | Some v => JSString.toLowerCase v
              | None => EmptyString
              end) as t2.
  generalize (match r2 with
              | Some v => v
              | None => "all"
              end) as k2.
  intros k2 t2 k1 t1. revert rows1.
  induction rows as [|r rows IH]; intros rows1; cbn [Logs.forEach].
  - intros H. injection H as <-. split; [reflexivity |].
    exists [], []. repeat split; reflexivity.
  - destruct (Logs.filter_row t1 k1 r) as [r'|] eqn:Hr; [| discriminate].
    destruct (Logs.forEach (Logs.filter_row t1 k1) rows) as [res rest] eqn:Hf.
    intros H. injection H as -> <-.
    destruct (IH rest eq_refl) as (Hsame & rest12 & rest2 & H1 & H2 & H3 & H4 & H5).
    destruct (filter_row_again t1 k1 t2 k2 r r' Hr)
      as (r12 & r2' & G1 & G2 & G3 & G4 & G5 & G6).
    cbn [Logs.forEach]. rewrite G6, Hsame, G1, H1, G2, H2.
    split; [reflexivity |]. exists (r12 :: rest12), (r2' :: rest2).
    cbn [List.map]. rewrite G3, G4, G5, H3, H4, H5. repeat split; reflexivity.
Qed.

Lemma filterTable_again_witness :
  exists rows1,
    Logs.filterTable (Some "4155") (Some "Low Risk") Spec.sample_rows
    = (Ok tt, rows1)
    /\ Logs.filterTable (Some "4155") (Some "Low Risk") rows1
       = (Ok tt, rows1).
Proof.
  eexists. split; [reflexivity |].
  refine (proj1 (filterTable_again (Some "4155") (Some "Low Risk") None None
                   Spec.sample_rows _ _)).
  reflexivity.
Defined.

(** X15: a row without a second cell stops the filter with a TypeError:
    the rows before it are filtered, the row and those after it stay as
    they were. *)
Theorem filterTable_short_row (searchInput riskFilter : option string)
  (before after : list Logs.row) (row : Logs.row) (before' : list Logs.row) :
  Logs.filterTable searchInput riskFilter before = (Ok tt, before') ->
  Logs.cells row !! 1%nat = None ->
  Logs.filterTable searchInput riskFilter (before ++ row :: after)%list
  = (Throw TypeError, (before' ++ row :: after)%list).
Proof.
  unfold Logs.filterTable.
  generalize (match searchInput with
              | Some v => JSString.toLowerCase v
              | None => EmptyString
              end) as t.
  generalize (match riskFilter with
              | Some v => v
              | None => "all"
              end) as k.
  intros k t. revert before'.
  induction before as [|r before IH]; intros before' H Hrow.
  - injection H as <-. cbn [app Logs.forEach]. unfold Logs.filter_row.
    now rewrite Hrow.
  - cbn [app Logs.forEach] in *.
    destruct (Logs.filter_row t k r) as [r'|]; [| discriminate].
    destruct (Logs.forEach (Logs.filter_row t k) before) as [res rest] eqn:Hf.
    injection H as -> <-. now rewrite (IH rest eq_refl Hrow).
Qed.

Lemma filterTable_short_row_witness :
  Logs.filterTable (Some "4155") None
    [Logs.Row ["1"; "+14155551234"] None EmptyString EmptyString;
     Logs.Row ["2"] None EmptyString EmptyString;
     Logs.Row ["3"; "+1999"] None EmptyString EmptyString]
  = (Throw TypeError,
     [Logs.Row ["1"; "+14155551234"] None EmptyString "fadeIn 0.3s ease-out";
      Logs.Row ["2"] None EmptyString EmptyString;
      Logs.Row ["3"; "+1999"] None EmptyString EmptyString]).
Proof.
  apply (filterTable_short_row (Some "4155") None
           [Logs.Row ["1"; "+14155551234"] None EmptyString EmptyString]
           [Logs.Row ["3"; "+1999"] None EmptyString EmptyString]
           (Logs.Row ["2"] None EmptyString EmptyString)
           [Logs.Row ["1"; "+14155551234"] None EmptyString
              "fadeIn 0.3s ease-out"]); reflexivity.
Defined.

End RefilterFacts.

(** ** The class attribute *)

Module ClassFacts.

Import StringFacts.

Lemma rev_onto_rev_onto s a b :
  JSString.rev_onto (JSString.rev_onto s a) b
  = JSString.rev_onto a (s +:+ b).
Proof.
  revert a b. induction s as [|c s IH]; intros a b.
  - now rewrite append_nil.
  - cbn [JSString.rev_onto]. rewrite IH. cbn [JSString.rev_onto].
    now rewrite append_cons.
Qed.

Lemma append_empty s : s +:+ EmptyString = s.
Proof.
  induction s as [|c s IH]; [apply append_nil |].
  now rewrite append_cons, IH.
Qed.

Lemma rev_rev_onto s : JSString.rev (JSString.rev_onto s EmptyString) = s.
Proof.
  unfold JSString.rev. rewrite rev_onto_rev_onto. cbn [JSString.rev_onto].
  apply append_empty.
Qed.

Lemma every_rev_onto p s acc :
  JSString.every p (JSString.rev_onto s acc)
  = JSString.every p s && JSString.every p acc.
Proof.
  revert acc. induction s as [|c s IH]; intros acc; [reflexivity |].
  cbn [JSString.rev_onto JSString.every]. rewrite IH.
  cbn [JSString.every]. destruct (p c), (JSString.every p s); reflexivity.
Qed.

Lemma rev_onto_not_empty c s acc :
  JSString.rev_onto (String c s) acc <> EmptyString.
Proof.
  revert c acc. induction s as [|d s IH]; intros c acc.
  - discriminate.
  - cbn [JSString.rev_onto] in *. apply IH.
Qed.

(** Reading a word. *)
Lemma tokens_word t rest cur :
  JSString.every (fun c => negb (Dom.is_ascii_whitespace c)) t = true ->
  Dom.tokens (t +:+ rest) cur = Dom.tokens rest (JSString.rev_onto t cur).
Proof.
  revert cur. induction t as [|c t IH]; intros cur H.
  - now rewrite append_nil.
  - cbn [JSString.every] in H. apply andb_true_iff in H as [Hc Ht].
    rewrite append_cons. cbn [Dom.tokens JSString.rev_onto].
    apply negb_true_iff in Hc. rewrite Hc. now apply IH.
Qed.

Lemma is_token_inv t :
  Spec.is_token t = true ->
  exists c r, t = String c r
    /\ JSString.every (fun c => negb (Dom.is_ascii_whitespace c)) t = true.
Proof.
  unfold Spec.is_token. intros [H1 H2]%andb_true_iff.
  destruct t as [|c r]; [discriminate H1 |]. eauto.
Qed.

Lemma tokens_one t :
  Spec.is_token t = true -> Dom.tokens t EmptyString = [t].
Proof.
  intros H. destruct (is_token_inv t H) as (c & r & -> & He).
  rewrite <- (append_empty (String c r)) at 1.
  rewrite (tokens_word _ _ _ He). cbn [Dom.tokens].
  destruct (JSString.rev_onto (String c r) EmptyString) eqn:E.
  - now apply rev_onto_not_empty in E.
  - rewrite <- E. now rewrite rev_rev_onto.
Qed.

(** Round trip: the tokens of the tokens joined by spaces. *)
Lemma tokens_join l :
  forallb Spec.is_token l = true ->
  Dom.tokens (JSString.join " " l) EmptyString = l.
Proof.
  induction l as [|t l IH]; [reflexivity |].
  cbn [forallb]. intros [Ht Hl]%andb_true_iff.
  destruct l as [|u l]; [now apply tokens_one |].
  change (JSString.join " " (t :: u :: l))
    with (t +:+ " " +:+ JSString.join " " (u :: l)).
  destruct (is_token_inv t Ht) as (c & r & -> & He).
  rewrite (tokens_word _ _ _ He), append_cons, append_nil.
  cbn [Dom.tokens]. change (Dom.is_ascii_whitespace " ") with true. cbv iota.
  rewrite (IH Hl).
  destruct (JSString.rev_onto (String c r) EmptyString) eqn:E.
  - now apply rev_onto_not_empty in E.
  - rewrite <- E. now rewrite rev_rev_onto.
Qed.

(** What [tokens] returns are tokens. *)
Lemma tokens_are_tokens s cur :
  JSString.every (fun c => negb (Dom.is_ascii_whitespace c)) cur = true ->
  forallb Spec.is_token (Dom.tokens s cur) = true.
Proof.
  revert cur. induction s as [|c s IH]; intros cur Hcur.
  - cbn [Dom.tokens]. destruct cur as [|d cur]; [reflexivity |].
    cbn [forallb]. rewrite andb_true_r. unfold Spec.is_token, JSString.rev.
    rewrite every_rev_onto, Hcur. cbn [JSString.every andb].
    rewrite andb_true_r. apply negb_true_iff, String.eqb_neq.
    apply rev_onto_not_empty.
  - cbn [Dom.tokens]. destruct (Dom.is_ascii_whitespace c) eqn:Hc.
    + rewrite forallb_app, (IH EmptyString eq_refl), andb_true_r.
      destruct cur as [|d cur]; [reflexivity |].
      cbn [forallb]. rewrite andb_true_r. unfold Spec.is_token, JSString.rev.
      rewrite every_rev_onto, Hcur. cbn [JSString.every andb].
      rewrite andb_true_r. apply negb_true_iff, String.eqb_neq.
      apply rev_onto_not_empty.
    + apply IH. cbn [JSString.every]. now rewrite Hc, Hcur.
Qed.

Lemma forallb_dedup (p : string -> bool) seen l :
  forallb p l = true -> forallb p (Dom.dedup seen l) = true.
Proof.
  revert seen. induction l as [|x l IH]; intros seen; [reflexivity |].
  cbn [forallb Dom.dedup]. intros [Hx Hl]%andb_true_iff.
  destruct (existsb (String.eqb x) seen); [now apply IH |].
  cbn [forallb]. now rewrite Hx, IH.
Qed.

Lemma existsb_eqb_sym (d x : string) seen :
  String.eqb d x = true ->
  existsb (String.eqb x) seen = existsb (String.eqb d) seen.
Proof. intros H. apply String.eqb_eq in H. now subst. Qed.

Lemma existsb_dedup d seen l :
  existsb (String.eqb d) (Dom.dedup seen l)
  = existsb (String.eqb d) l && negb (existsb (String.eqb d) seen).
Proof.
  revert seen. induction l as [|x l IH]; intros seen; [reflexivity |].
  cbn [existsb Dom.dedup].
  destruct (existsb (String.eqb x) seen) eqn:S.
  - rewrite IH. destruct (String.eqb d x) eqn:E; [| reflexivity].
    rewrite (existsb_eqb_sym d x seen E) in S. rewrite S.
    cbn [negb]. now rewrite !andb_false_r.
  - cbn [existsb]. rewrite IH. cbn [existsb].
    destruct (String.eqb d x) eqn:E.
    + rewrite (existsb_eqb_sym d x seen E) in S. now rewrite S.
    + cbn [orb]. now destruct (existsb (String.eqb d) l).
Qed.

(** [classList.add]: the classes of the element afterwards are those it
    had and the one added. *)
Lemma has_class_classList_add d c e :
  Spec.is_token c = true ->
  Dom.has_class d (Dom.classList_add c e)
  = Dom.has_class d e || String.eqb d c.
Proof.
  intros Hc. unfold Dom.has_class, Dom.classList_add.
  cbn [className Dom.set_className].
  rewrite tokens_join.
  - rewrite existsb_dedup, existsb_app. cbn [existsb negb].
    now rewrite andb_true_r, orb_false_r.
  - apply forallb_dedup. rewrite forallb_app, tokens_are_tokens by reflexivity.
    cbn [forallb]. now rewrite Hc.
Qed.

(** A no-break space or a vertical tab is part of a token: it does not
    separate two classes. *)
Example class_with_no_break_space :
  Dom.has_class "btn-feedback"
    (Spec.button ("btn-feedback" +:+ String (ascii_of_N 160) "x")) = false
  /\ Dom.has_class "btn-feedback"
       (Spec.button ("btn-feedback" +:+ String (ascii_of_N 11) "x")) = false
  /\ Dom.has_class "btn-feedback"
       (Spec.button ("btn-feedback" +:+ String (ascii_of_N 9) "x")) = true.
Proof. repeat split; vm_compute; reflexivity. Qed.

End ClassFacts.

(** ** script.js: what the submit listener decides *)

Module SubmitFacts.

Import DomFacts.

Lemma className_update n f w k :
  (forall e, className (f e) = className e) ->
  className <$> doc (Dom.update n f w) !! k = className <$> doc w !! k.
Proof.
  intros Hf. rewrite lookup_update.
  destruct (decide (n = k)) as [->|]; [| reflexivity].
  destruct (doc w !! k); cbn; [now rewrite Hf | reflexivity].
Qed.

(** A rejection shows its error and changes no class. *)
Lemma reject_outcome i message w e p :
  doc w !! i = Some e -> parentElement e = Some p -> is_Some (doc w !! p) ->
  Script.defaultPrevented (Script.reject (Some i) message w) = true
  /\ Script.completion (Script.reject (Some i) message w) = Ok tt
  /\ forall n,
       className <$> doc (Script.after (Script.reject (Some i) message w)) !! n
       = className <$> doc w !! n.
Proof.
  intros Hi Hp Hpe. unfold Script.reject, Script.showValidationError.
  rewrite Hi, Hp. cbn [Script.defaultPrevented Script.completion Script.after].
  split; [reflexivity |]. split; [reflexivity |]. intros n.
  unfold Dom.setTimeout. cbn [doc].
  rewrite !className_update by reflexivity. reflexivity.
Qed.

Lemma show_overlay_outcome w :
  is_Some (doc w !! (inl "loadingOverlay" : node)) ->
  Script.defaultPrevented (Script.show_overlay w) = false
  /\ Script.completion (Script.show_overlay w) = Ok tt
  /\ exists o,
       doc (Script.after (Script.show_overlay w)) !! (inl "loadingOverlay" : node)
       = Some o
       /\ Dom.has_class "active" o = true.
Proof.
  intros H. unfold Script.show_overlay.
  rewrite (getElementById_present _ _ H).
  cbn [Script.defaultPrevented Script.completion Script.after].
  split; [reflexivity |]. split; [reflexivity |].
  destruct H as [o Ho]. exists (Dom.classList_add "active" o).
  rewrite lookup_update_eq, Ho. split; [reflexivity |].
  rewrite ClassFacts.has_class_classList_add by reflexivity.
  apply orb_true_r.
Qed.

(** X16: the submit listener lets the form go exactly when the phone
    passes its check, the amount passes its check and, for an amount above
    1,000,000, the user confirms. It calls [preventDefault] otherwise. When
    the form goes the loading overlay gets the class [active]; when it does
    not, no element changes its classes, the overlay among them. The
    listener returns in both cases. *)
Theorem onSubmit_outcome (phoneInput amountInput : node) (answer : bool)
  (w : world) (phone amount : string) :
  Spec.input_on_page phoneInput phone w ->
  Spec.input_on_page amountInput amount w ->
  is_Some (doc w !! (inl "loadingOverlay" : node)) ->
  let s := Script.onSubmit (Some phoneInput) (Some amountInput) answer w in
  Script.defaultPrevented s = negb (Spec.goes_through phone amount answer)
  /\ Script.completion s = Ok tt
  /\ (Spec.goes_through phone amount answer = true ->
      exists o,
        doc (Script.after s) !! (inl "loadingOverlay" : node) = Some o
        /\ Dom.has_class "active" o = true)
  /\ (Spec.goes_through phone amount answer = false ->
      forall n,
        className <$> doc (Script.after s) !! n = className <$> doc w !! n).
Proof.
  intros (e1 & p1 & Hi1 & Hv1 & Hp1 & Hpe1) (e2 & p2 & Hi2 & Hv2 & Hp2 & Hpe2)
    Ho.
  cbv zeta. unfold Script.onSubmit, Spec.goes_through, Dom.value_of.
  rewrite Hi1, Hv1. fold (Spec.phone_accepted phone).
  destruct (Spec.phone_accepted phone) eqn:P; cbn [negb andb].
  2:{ destruct (reject_outcome phoneInput
                  "Please enter a valid phone number (e.g., +1234567890)"
                  w e1 p1 Hi1 Hp1 Hpe1) as (R1 & R2 & R3).
      rewrite R1, R2. repeat split; try discriminate. intros _. exact R3. }
  rewrite Hi2, Hv2. unfold Spec.amount_accepted.
  destruct (Number.isNaN (Number.parseFloat amount)
            || Number.leb (Number.parseFloat amount) (Number.of_Z 0)) eqn:A;
    cbn [negb andb].
  { destruct (reject_outcome amountInput
                "Please enter a valid amount greater than 0"
                w e2 p2 Hi2 Hp2 Hpe2) as (R1 & R2 & R3).
    rewrite R1, R2. repeat split; try discriminate. intros _. exact R3. }
  destruct (Number.gtb (Number.parseFloat amount) (Number.of_Z 1000000))
    eqn:G; cbn [negb orb].
  - destruct answer; cbn [negb].
    + destruct (show_overlay_outcome
                  (Dom.confirm
                     "This is a large transaction amount. Are you sure you want to proceed?"
                     w) Ho) as (S1 & S2 & S3).
      rewrite S1, S2. repeat split; try discriminate. intros _. exact S3.
    + cbn [Script.defaultPrevented Script.completion Script.after].
      repeat split; try discriminate. 
  - destruct (show_overlay_outcome w Ho) as (S1 & S2 & S3).
    rewrite S1, S2. repeat split; try discriminate. intros _. exact S3.
Qed.

Lemma onSubmit_outcome_witness :
  Script.defaultPrevented
    (Script.onSubmit (Some (inl "phone_number"))
       (Some (inl "transaction_amount")) false
       (Spec.form_page "+14155551234" "2000000")) = true.
Proof.
  refine (proj1 (onSubmit_outcome (inl "phone_number")
                   (inl "transaction_amount") false
                   (Spec.form_page "+14155551234" "2000000")
                   "+14155551234" "2000000" _ _ _)).
  - exists (Spec.input_in (inr 0%nat) "+14155551234"), (inr 0%nat).
    repeat split; try reflexivity. eexists. reflexivity.
  - exists (Spec.input_in (inr 1%nat) "2000000"), (inr 1%nat).
    repeat split; try reflexivity. eexists. reflexivity.
  - eexists. reflexivity.
Defined.

End SubmitFacts.

(** ** typing-animation.js *)

Module TypingFacts.

Import Typing.

Lemma fires_add n m s :
  fires (n + m) s = match fires n s with
                    | Some s' => fires m s'
                    | None => None
                    end.
Proof.
  revert s. induction n as [|n IH]; intros s; [reflexivity |].
  cbn [Nat.add fires]. destruct (fire s) as [[[[]|e] s']|]; auto.
Qed.

Lemma fires_one s s' :
  fire s = Some (Ok tt, s') -> fires 1 s = Some s'.
Proof. intros H. cbn [fires]. now rewrite H. Qed.

Lemma fires_step n s s' s'' :
  fires n s = Some s' -> fire s' = Some (Ok tt, s'') ->
  fires (S n) s = Some s''.
Proof.
  intros H1 H2. replace (S n) with (n + 1)%nat by lia.
  rewrite fires_add, H1. now apply fires_one.
Qed.

Lemma text_length : String.length textToType = 41%nat.
Proof. reflexivity. Qed.

Lemma text_not_empty : (0 < String.length textToType)%nat.
Proof. rewrite text_length. lia. Qed.

Lemma take_all s : JSString.take (String.length s) s = s.
Proof. induction s as [|c s IH]; [reflexivity |]. cbn. now rewrite IH. Qed.

Lemma substring_all : substring (String.length textToType) = textToType.
Proof. apply take_all. Qed.

(** One character more, by [typeTextOnce]. *)
Lemma typeTextOnce_types k t c now due :
  (k < String.length textToType)%nat ->
  fire (State k false false (Some t) c now [(due, TypeTextOnce)])
  = Some (Ok tt,
          State (k + 1) false false (Some (substring (k + 1))) c due
                [(due + typingSpeed, TypeTextOnce)]).
Proof.
  intros Hk. unfold fire. cbn [timers next fst]. cbn [run].
  unfold typeTextOnce.
  cbn [set_clock set_timers charIndex isDeleting isPaused typingText cursor
       clock timers].
  apply Nat.ltb_lt in Hk. rewrite Hk. reflexivity.
Qed.

(** The characters typed after one timer and [k] more. *)
Lemma typeTextOnce_typed k t c :
  (k < String.length textToType)%nat ->
  fires (S k) (loaded (Some t) c)
  = Some (State (S k) false false (Some (substring (S k))) c
                (500 + typingSpeed * Z.of_nat k)
                [(500 + typingSpeed * Z.of_nat k + typingSpeed,
                  TypeTextOnce)]).
Proof.
  induction k as [|k IH]; intros Hk.
  - apply fires_one. unfold loaded, setTimeout, set_timers.
    cbn [charIndex isDeleting isPaused typingText cursor clock timers app].
    rewrite typeTextOnce_types by lia. reflexivity.
  - eapply fires_step; [apply IH; lia |].
    rewrite typeTextOnce_types by lia.
    replace (S k + 1)%nat with (S (S k)) by lia.
    do 3 f_equal; [| f_equal; f_equal]; unfold typingSpeed; lia.
Qed.

(** X17: [typeTextOnce] types the text one character for each timer, 120
    ms apart, from 500 ms after the page is loaded: after [k] timers, with
    [k] from 1 to the length of the text, the element shows the first [k]
    characters, and one timer is armed for the next step. *)
Theorem typeTextOnce_progress (k : nat) (t : string) (c : option string) :
  (1 <= k <= String.length textToType)%nat ->
  fires k (loaded (Some t) c)
  = Some (State k false false (Some (substring k)) c
                (500 + typingSpeed * (Z.of_nat k - 1))
                [(500 + typingSpeed * Z.of_nat k, TypeTextOnce)]).
Proof.
  intros [H1 H2]. destruct k as [|k]; [lia |].
  rewrite typeTextOnce_typed by lia.
  replace (500 + typingSpeed * (Z.of_nat (S k) - 1))
    with (500 + typingSpeed * Z.of_nat k) by (unfold typingSpeed; lia).
  replace (500 + typingSpeed * Z.of_nat (S k))
    with (500 + typingSpeed * Z.of_nat k + typingSpeed)
    by (unfold typingSpeed; lia).
  reflexivity.
Qed.

Lemma typeTextOnce_progress_witness :
  fires 5 (loaded (Some EmptyString) None)
  = Some (State 5 false false (Some "Fraud") None 980 [(1100, TypeTextOnce)]).
Proof.
  refine (typeTextOnce_progress 5 EmptyString None _).
  rewrite text_length. lia.
Defined.

(** X18: [typeTextOnce] ends. Two timers after the last character, the
    text is complete, the cursor is hidden and no timer is armed: nothing
    runs any more. *)
Theorem typeTextOnce_ends (t c : string) :
  let n := String.length textToType in
  exists s,
    fires (n + 2) (loaded (Some t) (Some c)) = Some s
    /\ typingText s = Some textToType
    /\ cursor s = Some "none"
    /\ clock s = 500 + typingSpeed * Z.of_nat n + 1000
    /\ timers s = []
    /\ fire s = None.
Proof.
  cbv zeta. pose proof text_not_empty as Hn.
  destruct (String.length textToType) as [|n] eqn:Hlen; [lia |].
  rewrite fires_add, typeTextOnce_typed by lia.
  rewrite <- Hlen, substring_all.
  eexists. split.
  - cbn [fires]. unfold fire at 1. cbn [timers next fst run].
    unfold typeTextOnce.
    cbn [set_clock set_timers charIndex isDeleting isPaused typingText cursor
         clock timers].
    rewrite Nat.ltb_irrefl. unfold setTimeout, set_timers.
    cbn [charIndex isDeleting isPaused typingText cursor clock timers app].
    unfold fire. cbn [timers next fst run].
    cbn [set_clock set_timers charIndex isDeleting isPaused typingText cursor
         clock timers]. reflexivity.
  - cbn [typingText cursor clock timers]. repeat split; try reflexivity.
    rewrite Hlen. unfold set_clock, set_timers, typingSpeed. cbn [clock].
    lia.
Qed.

(** X19: the loop of [typeText] never stops, never throws and never
    doubles: from a state where the loop is set, the one timer fires
    without an exception and leaves a state where the loop is set again;
    the index moves by one character at most, and the element keeps showing
    the text up to the index. *)
Theorem typeText_loops (s : state) :
  Spec.looping s ->
  exists s',
    fire s = Some (Ok tt, s')
    /\ Spec.looping s'
    /\ (charIndex s' <= charIndex s + 1 /\ charIndex s <= charIndex s' + 1)%nat
    /\ (Spec.shows_prefix s -> Spec.shows_prefix s').
Proof.
  destruct s as [idx deleting paused text cur now tms].
  unfold Spec.looping, Spec.shows_prefix.
  cbn [charIndex isDeleting isPaused typingText cursor clock timers].
  intros (Hidx & [t ->] & [due ->] & Hp).
  unfold fire. cbn [timers next fst].
  destruct paused.
  - destruct (Hp eq_refl) as [-> ->]. cbn [run]. unfold typeText.
    unfold set_isPaused, set_isDeleting, set_clock, set_timers.
    cbn [charIndex isDeleting isPaused typingText cursor clock timers
         negb andb].
    destruct (0 <? String.length textToType)%nat eqn:L.
    + unfold set_charIndex, set_textContent, setTimeout, set_timers.
      cbn [charIndex isDeleting isPaused typingText cursor clock timers app].
      eexists. split; [reflexivity |].
      cbn [charIndex isDeleting isPaused typingText cursor clock timers].
      apply Nat.ltb_lt in L.
      repeat split; eauto; try lia; discriminate.
    + rewrite Nat.eqb_sym. apply Nat.ltb_ge in L.
      replace (0 =? String.length textToType)%nat with true
        by (symmetry; apply Nat.eqb_eq; lia).
      unfold setTimeout, set_isDeleting, set_timers.
      cbn [charIndex isDeleting isPaused typingText cursor clock timers app].
      eexists. split; [reflexivity |].
      cbn [charIndex isDeleting isPaused typingText cursor clock timers].
      repeat split; eauto; try lia; discriminate.
  - clear Hp. cbn [run]. unfold typeText.
    unfold set_clock, set_timers.
    cbn [charIndex isDeleting isPaused typingText cursor clock timers].
    destruct deleting; cbn [negb andb].
    + destruct (0 <? idx)%nat eqn:L.
      * unfold set_charIndex, set_textContent, setTimeout, set_timers.
        cbn [charIndex isDeleting isPaused typingText cursor clock timers
             app].
        eexists. split; [reflexivity |].
        cbn [charIndex isDeleting isPaused typingText cursor clock timers].
        apply Nat.ltb_lt in L.
        repeat split; eauto; try lia; discriminate.
      * apply Nat.ltb_ge in L.
        replace (idx =? 0)%nat with true by (symmetry; apply Nat.eqb_eq; lia).
        unfold setTimeout, set_isDeleting, set_timers.
        cbn [charIndex isDeleting isPaused typingText cursor clock timers
             app].
        eexists. split; [reflexivity |].
        cbn [charIndex isDeleting isPaused typingText cursor clock timers].
        repeat split; eauto; try lia; discriminate.
    + destruct (idx <? String.length textToType)%nat eqn:L.
      * unfold set_charIndex, set_textContent, setTimeout, set_timers.
        cbn [charIndex isDeleting isPaused typingText cursor clock timers
             app].
        eexists. split; [reflexivity |].
        cbn [charIndex isDeleting isPaused typingText cursor clock timers].
        apply Nat.ltb_lt in L.
        repeat split; eauto; try lia; discriminate.
      * apply Nat.ltb_ge in L.
        replace (idx =? String.length textToType)%nat with true
          by (symmetry; apply Nat.eqb_eq; lia).
        unfold setTimeout, set_isPaused, set_timers.
        cbn [charIndex isDeleting isPaused typingText cursor clock timers
             app negb].
        eexists. split; [reflexivity |].
        cbn [charIndex isDeleting isPaused typingText cursor clock timers].
        repeat split; eauto; try lia.
Qed.

Lemma typeText_loops_witness :
  exists s',
    fire (State 0 false false (Some EmptyString) None 0 [(0, TypeText)])
    = Some (Ok tt, s')
    /\ Spec.looping s'.
Proof.
  destruct (typeText_loops
              (State 0 false false (Some EmptyString) None 0 [(0, TypeText)]))
    as (s' & H1 & H2 & _).
  - unfold Spec.looping.
    cbn [charIndex isDeleting isPaused typingText cursor clock timers].
    repeat split; eauto; try lia; discriminate.
  - exists s'. split; assumption.
Defined.

(** *** One turn of the loop *)

Lemma state_eq i d p t c k now now' due due' :
  now = now' -> due = due' ->
  State i d p t c now [(due, k)] = State i d p t c now' [(due', k)].
Proof. now intros -> ->. Qed.

Ltac same_state :=
  lazymatch goal with
  | |- Some (_, _) = Some (_, _) => do 2 f_equal
  | |- Some _ = Some _ => f_equal
  end;
  apply state_eq;
  unfold typingSpeed, pauseBeforeDelete, deletingSpeed, pauseBeforeRetype;
  lia.

Ltac fire_typeText :=
  unfold fire; cbn [timers next fst run]; unfold typeText;
  unfold set_clock, set_timers, set_isPaused, set_isDeleting;
  cbn [charIndex isDeleting isPaused typingText cursor clock timers
       negb andb].

Ltac settle :=
  unfold set_charIndex, set_textContent, setTimeout, set_isPaused,
    set_isDeleting, set_timers;
  cbn [charIndex isDeleting isPaused typingText cursor clock timers app].

Lemma typeText_types k t c now due :
  (k < String.length textToType)%nat ->
  fire (State k false false (Some t) c now [(due, TypeText)])
  = Some (Ok tt,
          State (k + 1) false false (Some (substring (k + 1))) c due
                [(due + typingSpeed, TypeText)]).
Proof.
  intros Hk. fire_typeText. apply Nat.ltb_lt in Hk. rewrite Hk. reflexivity.
Qed.

Lemma typeText_deletes k t c now due :
  (0 < k)%nat ->
  fire (State k true false (Some t) c now [(due, TypeText)])
  = Some (Ok tt,
          State (k - 1) true false (Some (substring (k - 1))) c due
                [(due + deletingSpeed, TypeText)]).
Proof.
  intros Hk. fire_typeText. apply Nat.ltb_lt in Hk. rewrite Hk. reflexivity.
Qed.

(** The typing phase. *)
Lemma typing_phase k t c now due :
  (1 <= k <= String.length textToType)%nat ->
  fires k (State 0 false false (Some t) c now [(due, TypeText)])
  = Some (State k false false (Some (substring k)) c
                (due + typingSpeed * (Z.of_nat k - 1))
                [(due + typingSpeed * Z.of_nat k, TypeText)]).
Proof.
  intros [H1 H2]. induction k as [|k IH]; [lia |].
  destruct k as [|k].
  - apply fires_one. rewrite typeText_types by lia.
    same_state.
  - eapply fires_step; [apply IH; lia |].
    rewrite typeText_types by lia.
    replace (S k + 1)%nat with (S (S k)) by lia.
    same_state.
Qed.

(** The deleting phase, from a state that shows the text up to the
    index. *)
Lemma deleting_phase j k c due :
  (j <= k)%nat ->
  fires j (State k true false (Some (substring k)) c (due - deletingSpeed)
                 [(due, TypeText)])
  = Some (State (k - j) true false (Some (substring (k - j))) c
                (due + deletingSpeed * Z.of_nat j - deletingSpeed)
                [(due + deletingSpeed * Z.of_nat j, TypeText)]).
Proof.
  induction j as [|j IH]; intros Hj.
  - cbn [fires]. rewrite Nat.sub_0_r.
    same_state.
  - eapply fires_step; [apply IH; lia |].
    rewrite typeText_deletes by lia.
    replace (k - j - 1)%nat with (k - S j)%nat by lia.
    same_state.
Qed.

(** X20: [typeText] is periodic. From the start of a turn, with the index
    at 0, twice the length of the text and two more timers later the
    variables are what they were, the element is empty and [typeText] is
    due again, 170 ms for each character and 3000 ms after it was due: the
    text is typed at 120 ms a character, shown for 2000 ms, deleted at 50 ms
    a character, and absent for 1000 ms. *)
Theorem typeText_cycle (t : string) (c : option string) (now due : Z) :
  let n := String.length textToType in
  fires (2 * n + 2) (State 0 false false (Some t) c now [(due, TypeText)])
  = Some (State 0 false false (Some EmptyString) c
                (due + 170 * Z.of_nat n + 2000)
                [(due + 170 * Z.of_nat n + 3000, TypeText)]).
Proof.
  cbv zeta. pose proof text_not_empty as Hn.
  set (n := String.length textToType) in *.
  replace (2 * n + 2)%nat with (n + (1 + (1 + ((n - 1) + 1))))%nat by lia.
  rewrite fires_add, typing_phase by (fold n; lia). fold n.
  (* the pause at the end of the text *)
  rewrite fires_add.
  assert (P1 : forall s now0 due0,
    fires 1 (State n false false (Some s) c now0 [(due0, TypeText)])
    = Some (State n false true (Some s) c due0
              [(due0 + pauseBeforeDelete, StartDeleting)])).
  { intros s now0 due0. apply fires_one. fire_typeText.
    rewrite Nat.ltb_irrefl, Nat.eqb_refl. reflexivity. }
  rewrite P1.
  (* the pause ends: the first character is deleted *)
  rewrite fires_add.
  assert (P2 : forall s now0 due0,
    fires 1 (State n false true (Some s) c now0 [(due0, StartDeleting)])
    = Some (State (n - 1) true false (Some (substring (n - 1))) c due0
              [(due0 + deletingSpeed, TypeText)])).
  { intros s now0 due0. apply fires_one. fire_typeText.
    fold n. replace (0 <? n)%nat with true
      by (symmetry; apply Nat.ltb_lt; lia).
    reflexivity. }
  rewrite P2.
  (* the other characters *)
  rewrite fires_add.
  match goal with
  | |- context [State (n - 1) true false ?tx c ?now0 [(?due0, TypeText)]] =>
      rewrite (state_eq (n - 1) true false tx c TypeText
                 now0 (due0 - deletingSpeed) due0 due0)
        by (unfold deletingSpeed; lia);
      rewrite (deleting_phase (n - 1) (n - 1) c due0) by lia
  end.
  (* the pause before typing again *)
  apply fires_one. rewrite Nat.sub_diag. fire_typeText.
  change (0 <? 0)%nat with false. change (0 =? 0)%nat with true. cbv iota.
  settle. unfold substring. cbn [JSString.take].
  same_state.
Qed.

End TypingFacts.

(** ** script.js: animateValue *)

Module CounterFacts.

Import DomFacts Counters.

(** An interval at step [s] is cleared by the tick that brings the step
    to 20, and not before. *)
Lemma ticks_armed n i w :
  (step i + n < steps)%nat ->
  exists i',
    snd (ticks n i w) = Some i'
    /\ target i' = target i /\ newValue i' = newValue i
    /\ step i' = (step i + n)%nat.
Proof.
  revert i w. induction n as [|n IH]; intros i w Hn.
  - exists i. cbn. repeat split; lia.
  - cbn [ticks]. unfold tick.
    replace (steps <=? S (step i))%nat with false
      by (symmetry; apply Nat.leb_gt; lia).
    destruct (IH (Interval (target i) (newValue i) (increment i)
                    (add (current i) (increment i)) (S (step i)))
                 (Dom.update (target i)
                    (Dom.set_children
                       (Dom.text_of
                          (JNum (round (add (current i) (increment i))))))
                    w))
      as (i' & H1 & H2 & H3 & H4); [cbn [step]; lia |].
    exists i'. cbn [target newValue step] in *. repeat split; auto; lia.
Qed.

Lemma ticks_add n m i w :
  ticks (n + m) i w
  = match ticks n i w with
    | (w', Some i') => ticks m i' w'
    | (w', None) => (w', None)
    end.
Proof.
  revert i w. induction n as [|n IH]; intros i w; [reflexivity |].
  cbn [Nat.add ticks]. destruct (tick i w) as [w' [i'|]]; auto.
Qed.

Section Counter.

Variable text_of_markup : string -> string.

(** X21: an animated counter lands on the new value. When
    [animateValue] arms its interval, which it does for an element that is
    on the page and does not show the new value yet, the interval is still
    armed after each of the first 19 ticks; the 20th tick writes the new
    value itself, not a rounded sum of increments, and clears the
    interval. *)
Theorem animateValue_lands (id : string) (v : jsval) (w : world)
  (i : interval) :
  animateValue text_of_markup id v w = Some i ->
  (forall n w0, (n < steps)%nat -> is_Some (snd (ticks n i w0)))
  /\ forall w0,
       is_Some (doc w0 !! (inl id : node)) ->
       snd (ticks steps i w0) = None
       /\ Spec.text_of (inl id) (fst (ticks steps i w0))
          = Some match v with
                 | JUndefined | JNull => EmptyString
                 | _ => JS.ToString v
                 end.
Proof.
  unfold animateValue, Dom.getElementById.
  destruct (doc w !! (inl id : node)) as [e|] eqn:He; [| discriminate].
  rewrite He.
  destruct (strict_equal _ v); [discriminate |].
  intros H. injection H as <-. split.
  - intros n w0 Hn.
    match goal with
    | |- context [ticks n ?i w0] =>
        destruct (ticks_armed n i w0) as (i' & -> & _); [cbn [step]; lia |]
    end.
    eauto.
  - intros w0 [e0 He0].
    replace steps with (19 + 1)%nat by reflexivity.
    rewrite ticks_add.
    match goal with
    | |- context [ticks 19 ?i w0] =>
        destruct (ticks_armed 19 i w0) as (i' & Hi & Ht & Hv & Hs);
        [cbn [step]; unfold steps; lia |];
        assert (Hp : is_Some (doc (fst (ticks 19 i w0)) !! (inl id : node)));
        [| destruct (ticks 19 i w0) as [w1 o] ]
    end.
    { clear Hi. generalize 19%nat as n. intros n.
      match goal with
      | |- context [ticks n ?i w0] =>
          assert (G : forall n i1 w1,
                    is_Some (doc w1 !! (inl id : node)) ->
                    is_Some (doc (fst (ticks n i1 w1)) !! (inl id : node)));
          [| apply G; eauto]
      end.
      clear. intros n. induction n as [|n IH]; intros i1 w1 H; [exact H |].
      cbn [ticks]. unfold tick.
      destruct (steps <=? S (step i1))%nat; cbn [fst].
      - now apply update_present.
      - apply IH. now apply update_present. }
    cbn [snd fst] in *. subst o. cbn [ticks]. unfold tick.
    rewrite Hs. cbn [step]. cbn [Nat.add Nat.leb steps]. cbn [fst snd].
    split; [reflexivity |]. rewrite Ht, Hv. cbn [target newValue].
    destruct Hp as [e1 He1]. unfold Spec.text_of.
    rewrite lookup_update_eq, He1. cbn.
    destruct v; reflexivity.
Qed.

End Counter.

Lemma animateValue_lands_witness :
  let page := World (list_to_map
                       [(inl "highRiskCount",
                         Element EmptyString (Text "12") [] None EmptyString
                                 false EmptyString EmptyString EmptyString
                                 EmptyString)]) [] [] [] : world in
  exists i,
    animateValue (fun h => h) "highRiskCount" (JNum (Number.of_Z 40)) page
    = Some i
    /\ Spec.text_of (inl "highRiskCount") (fst (ticks steps i page))
       = Some "40".
Proof.
  cbv zeta. eexists. split; [vm_compute; reflexivity |].
  match goal with
  | |- Spec.text_of _ (fst (ticks steps ?i ?page)) = _ =>
      refine (eq_trans
                (proj2 (proj2 (animateValue_lands (fun h => h)
                   "highRiskCount" (JNum (Number.of_Z 40)) page i _) page _))
                _)
  end.
  - vm_compute. reflexivity.
  - eexists. vm_compute. reflexivity.
  - vm_compute. reflexivity.
Defined.

End CounterFacts.

(** ** llm_explanation.js: loadLLMExplanationForPhone *)

Module InvestigationFacts.

Import JSFacts DomFacts ExplanationFacts.

(** The sequence of the renderers returns what [displayLLMExplanation]
    returns, when it returns. *)
Lemma display_agrees llmData transactionData w w' :
  Llm.displayLLMExplanation llmData transactionData w = Ok w' ->
  Investigation.displayLLMExplanation llmData transactionData w = (Ok tt, w').
Proof.
  unfold Llm.displayLLMExplanation, Investigation.displayLLMExplanation.
  destruct (negb (JS.truthy llmData)).
  - intros H. injection H as <-. reflexivity.
  - cbv zeta.
    generalize (match Dom.getElementById "llmExplanation" w with
                | Some section => Dom.update section (Dom.set_display "block") w
                | None => w
                end).
    intros w0. unfold Promise.then_, Investigation.attempt, Promise.lift.
    destruct (Llm.populateExecutiveSummary llmData w0) as [w1|];
      [| discriminate]. cbn [bind].
    destruct (Llm.populateDetailedAnalysis llmData w1) as [w2|];
      [| discriminate]. cbn [bind].
    destruct (Llm.populateBehavioralInsights llmData transactionData w2)
      as [w3|]; [| discriminate]. cbn [bind].
    destruct (Llm.populateRiskFactors llmData w3) as [w4|];
      [| discriminate]. cbn [bind].
    destruct (Llm.populateNetworkIntelligence llmData transactionData w4)
      as [w5|]; [| discriminate]. cbn [bind].
    destruct (Llm.populateRecommendations llmData w5) as [w6|];
      [| discriminate]. cbn [bind].
    destruct (Llm.populateCustomerTimeline llmData w6) as [w7|];
      [| discriminate].
    intros H. injection H as <-. reflexivity.
Qed.

(** X22: the loader of the investigation page never rejects: whatever
    the fetch gives and whatever a renderer does, the promise of the [async]
    function is fulfilled. When the fetch fails the page is left as it was
    and the failure is logged. *)
Theorem loadLLMExplanationForPhone_settles (r : response) (w : world) :
  fst (Investigation.loadLLMExplanationForPhone r w) = Ok tt
  /\ (Spec.fetch_fails r ->
      doc (snd (Investigation.loadLLMExplanationForPhone r w)) = doc w
      /\ console (snd (Investigation.loadLLMExplanationForPhone r w))
         = "Error loading LLM explanation:" :: console w).
Proof.
  unfold Investigation.loadLLMExplanationForPhone, Promise.catch.
  split.
  - destruct (Promise.then_ _ _ w) as [[u|e] w']; [destruct u |];
      reflexivity.
  - intros [-> | ->]; split; reflexivity.
Qed.

Lemma loadLLMExplanationForPhone_settles_witness :
  console (snd (Investigation.loadLLMExplanationForPhone NetworkFailure
                  Spec.explanation_page))
  = ["Error loading LLM explanation:"].
Proof.
  refine (proj2 (proj2 (loadLLMExplanationForPhone_settles NetworkFailure
                          Spec.explanation_page) _)).
  left. reflexivity.
Defined.

(** The network intelligence, when there are data and the element. *)
Lemma populateNetworkIntelligence_shows llmData transactionData w :
  Spec.not_nullish transactionData = true ->
  JS.truthy (JS.get_opt transactionData "camara_data") = true ->
  is_Some (doc w !! (inl "networkIntelContent" : node)) ->
  exists h,
    Llm.network_html (JS.get_opt transactionData "camara_data") = Ok h
    /\ Llm.populateNetworkIntelligence llmData transactionData w
       = Ok (Spec.rendering "networkIntelContent" (Some (Html h)) w).
Proof.
  intros Ht Hc Hp. unfold Llm.populateNetworkIntelligence.
  rewrite (getElementById_present _ _ Hp).
  rewrite (get_not_nullish transactionData) by exact Ht. cbn [bind].
  rewrite Hc. cbn [negb].
  destruct (network_html_total _ Hc) as [h Hh]. rewrite Hh. cbn [bind].
  exists h. split; reflexivity.
Qed.

(** X23: on the investigation page the network intelligence is never
    skipped. The loader hands the renderers an empty object when the
    explanation has no network data, so that for every explanation that
    the server marks as a success, and whose fields have the types that the
    renderers read, the promise is fulfilled and the cards are written:
    from the network data of the explanation, or from the empty object. *)
Theorem loader_shows_network (data : jsval) (w : world) :
  let explanation := JS.get_opt data "explanation" in
  JS.truthy (JS.get_opt data "success") = true ->
  JS.truthy explanation = true ->
  Spec.llm_well_typed explanation = true ->
  is_Some (doc w !! (inl "networkIntelContent" : node)) ->
  exists h,
    Llm.network_html
      (JS.or (JS.get_opt explanation "camara_intelligence") (JObj [])) = Ok h
    /\ fst (Investigation.loadLLMExplanationForPhone
              (Response (Some data)) w) = Ok tt
    /\ Spec.html_of (inl "networkIntelContent")
         (snd (Investigation.loadLLMExplanationForPhone
                 (Response (Some data)) w))
       = Some h.
Proof.
  cbv zeta. intros Hs He Hw Hp.
  set (explanation := JS.get_opt data "explanation") in *.
  set (td := Investigation.transaction_of explanation).
  assert (Hd : JS.get data "success" = Ok (JS.get_opt data "success")).
  { destruct data; try discriminate Hs; reflexivity. }
  assert (Hc : JS.truthy (JS.get_opt td "camara_data") = true)
    by (apply or_truthy; reflexivity).
  assert (Hrun : exists h w',
    Llm.network_html (JS.get_opt td "camara_data") = Ok h
    /\ Llm.displayLLMExplanation explanation td w = Ok w'
    /\ Spec.html_of (inl "networkIntelContent") w' = Some h).
  { unfold Llm.displayLLMExplanation. rewrite He. cbn [negb].
    unfold Spec.llm_well_typed in Hw.
    repeat match type of Hw with
           | (_ && _) = true =>
               let H := fresh "Hw" in apply andb_true_iff in Hw as [Hw H]
           end.
    set (w0 := match Dom.getElementById "llmExplanation" w with
               | Some section =>
                   Dom.update section (Dom.set_display "block") w
               | None => w
               end).
    assert (Hp0 : is_Some (doc w0 !! (inl "networkIntelContent" : node))).
    { subst w0. element "llmExplanation" w; [| exact Hp].
      now apply update_present. }
    clearbody w0.
    destruct (populateExecutiveSummary_result explanation w0 He)
      as (c1 & -> & _). cbn [bind].
    destruct (populateDetailedAnalysis_result explanation
                (Spec.rendering "executiveSummary" c1 w0) He Hw)
      as (c2 & -> & _). cbn [bind].
    match goal with
    | |- context [Llm.populateBehavioralInsights _ _ ?W] =>
        destruct (populateBehavioralInsights_result explanation td W
                    He Hw5 Hw4) as (c3 & -> & _)
    end. cbn [bind].
    match goal with
    | |- context [Llm.populateRiskFactors _ ?W] =>
        destruct (populateRiskFactors_result explanation W He Hw3)
          as (c4 & -> & _)
    end. cbn [bind].
    match goal with
    | |- context [Llm.populateNetworkIntelligence _ _ ?W] =>
        destruct (populateNetworkIntelligence_shows explanation td W
                    eq_refl Hc) as (h & Hh & ->);
        [repeat apply rendering_present; exact Hp0 |]
    end. cbn [bind].
    match goal with
    | |- context [Llm.populateRecommendations _ ?W] =>
        destruct (populateRecommendations_result explanation W He Hw2 Hw1)
          as (c6 & -> & _)
    end. cbn [bind].
    match goal with
    | |- context [Llm.populateCustomerTimeline _ ?W] =>
        destruct (populateCustomerTimeline_result explanation W He Hw0)
          as (c7 & -> & _)
    end.
    exists h. eexists. split; [exact Hh |]. split; [reflexivity |].
    rewrite !html_of_rendering_ne by discriminate.
    apply html_of_rendering_eq.
    repeat apply rendering_present. exact Hp0. }
  destruct Hrun as (h & w' & Hh & Hrun & Hshown).
  exists h. split; [exact Hh |].
  unfold Investigation.loadLLMExplanationForPhone, Promise.catch,
    Promise.then_, Promise.fetch, Promise.json.
  rewrite Hd. fold explanation. rewrite Hs, He. cbn [andb].
  fold td. rewrite (display_agrees explanation td w w' Hrun).
  split; [reflexivity | exact Hshown].
Qed.

Lemma loader_shows_network_witness :
  exists h,
    Llm.network_html (JObj []) = Ok h
    /\ Spec.html_of (inl "networkIntelContent")
         (snd (Investigation.loadLLMExplanationForPhone
                 (Response (Some (JObj [("success", JBool true);
                                        ("explanation",
                                         Spec.partial_explanation)])))
                 Spec.explanation_page))
       = Some h.
Proof.
  destruct (loader_shows_network
              (JObj [("success", JBool true);
                     ("explanation", Spec.partial_explanation)])
              Spec.explanation_page)
    as (h & H1 & _ & H2); try reflexivity.
  - eexists. vm_compute. reflexivity.
  - exists h. split; [exact H1 | exact H2].
Defined.

End InvestigationFacts.

(** ** script.js: the submitFeedback in effect, when the request settles *)

Module SettledFacts.

Import JSFacts DomFacts.

Local Abbreviation feedback_message := Spec.feedback_message.

Lemma switched_off_idem e :
  Spec.switched_off (Spec.switched_off e) = Spec.switched_off e.
Proof. reflexivity. Qed.

Lemma message_shown_updates text class w :
  doc (Dom.update feedback_message (Dom.set_display "block")
         (Dom.update feedback_message (Dom.set_className class)
            (Dom.update feedback_message (Dom.set_children text) w)))
  = alter (Spec.message_shown text class) feedback_message (doc w).
Proof.
  unfold Dom.update. cbn [doc]. rewrite !alter_alter_eq. reflexivity.
Qed.

(** X24: a reply that is a JSON value other than [null], with the
    message element on the page: the promise is fulfilled, the message
    element shows the reply's message under the class of the reply's status,
    and of the other elements exactly those of class [btn-feedback] are
    switched off; the rest of the page is as it was, and nothing is armed
    that would switch them on again. *)
Theorem submitFeedback_reply (phoneNumber feedbackType : string) (w : world)
  (data : jsval) (m : element) :
  Spec.not_nullish data = true ->
  doc w !! Spec.feedback_message = Some m ->
  let settled :=
    FeedbackFacts.effective_settled phoneNumber feedbackType w
      (Response (Some data)) in
  fst settled = Ok tt
  /\ timers (snd settled) = timers w
  /\ Spec.text_of Spec.feedback_message (snd settled)
     = Some (match Dom.text_of (JS.get_opt data "message") with
             | Text t | Html t => t
             end)
  /\ className <$> doc (snd settled) !! Spec.feedback_message
     = Some ("feedback-message " +:+ JS.ToString (JS.get_opt data "status"))
  /\ forall n e,
       n <> Spec.feedback_message ->
       doc w !! n = Some e ->
       doc (snd settled) !! n
       = Some (if Dom.has_class "btn-feedback" e then Spec.switched_off e
               else e).
Proof.
  intros Hd Hm. cbv zeta.
  unfold FeedbackFacts.effective_settled, Script.submitFeedback,
    Script.submitFeedback_2.
  cbn [fst snd].
  unfold Promise.catch, Promise.then_, Promise.fetch, Promise.json,
    Promise.done.
  rewrite (getElementById_present "feedbackMessage" w)
    by (fold feedback_message; rewrite Hm; eauto).
  rewrite !(get_not_nullish data) by exact Hd.
  cbn [fst snd].
  fold feedback_message.
  set (text := Dom.text_of (JS.get_opt data "message")).
  set (class := "feedback-message " +:+ JS.ToString (JS.get_opt data "status")).
  set (w3 := Dom.update feedback_message (Dom.set_display "block") _).
  assert (Hdoc : doc w3 = alter (Spec.message_shown text class)
                            feedback_message (doc w))
    by apply message_shown_updates.
  split; [reflexivity |].
  split; [now rewrite forEach_timers |].
  set (buttons := Dom.querySelectorAll_class "btn-feedback" w3).
  fold Spec.switched_off.
  change (fun btn => Dom.set_cursor "not-allowed"
                       (Dom.set_opacity "0.5" (Dom.set_disabled true btn)))
    with Spec.switched_off.
  assert (Hm3 : doc w3 !! feedback_message
                = Some (Spec.message_shown text class m))
    by (rewrite Hdoc, lookup_alter_eq, Hm; reflexivity).
  assert (Hmessage : exists m',
    doc (Dom.forEach buttons Spec.switched_off w3) !! feedback_message
    = Some m'
    /\ children m' = text
    /\ className m' = class).
  { destruct (decide (feedback_message ∈ buttons)) as [Hin|Hout].
    - rewrite lookup_forEach_in by (auto using switched_off_idem).
      rewrite Hm3. eexists. split; [reflexivity |]. split; reflexivity.
    - rewrite lookup_forEach_out by assumption.
      rewrite Hm3. eexists. split; [reflexivity |]. split; reflexivity. }
  destruct Hmessage as (m' & Hm' & Hc & Hk).
  split; [| split].
  - unfold Spec.text_of. rewrite Hm', Hc. subst text.
    unfold Dom.text_of. now destruct (JS.get_opt data "message").
  - rewrite Hm'. cbn. now rewrite Hk.
  - intros n e Hn He.
    assert (He3 : doc w3 !! n = Some e)
      by (rewrite Hdoc, lookup_alter_ne by congruence; exact He).
    destruct (Dom.has_class "btn-feedback" e) eqn:Hb.
    + rewrite lookup_forEach_in by
        (auto using switched_off_idem;
         apply elem_of_querySelectorAll; eauto).
      now rewrite He3.
    + rewrite lookup_forEach_out; [exact He3 |].
      intros (e' & He' & Hb')%elem_of_querySelectorAll. congruence.
Qed.

Lemma submitFeedback_reply_witness :
  Spec.disabled_at (inr 1%nat)
    (snd (FeedbackFacts.effective_settled "+14155551234" "correct"
            Spec.feedback_page
            (Response (Some (JObj [("status", JStr "success")])))))
  = Some true
  /\ Spec.disabled_at (inr 0%nat)
       (snd (FeedbackFacts.effective_settled "+14155551234" "correct"
               Spec.feedback_page
               (Response (Some (JObj [("status", JStr "success")])))))
     = Some false.
Proof.
  pose proof (submitFeedback_reply "+14155551234" "correct"
                Spec.feedback_page (JObj [("status", JStr "success")])
                Spec.blank eq_refl eq_refl) as (_ & _ & _ & _ & H).
  unfold Spec.disabled_at. split.
  - rewrite (H (inr 1%nat) (Spec.button "btn-feedback"));
      [reflexivity | discriminate | reflexivity].
  - rewrite (H (inr 0%nat) (Spec.button "feedback-btn-compact"));
      [reflexivity | discriminate | reflexivity].
Defined.

(** X25: no usable reply (the network fails, the body is not JSON, or
    it is [null]): the promise is still fulfilled, the failure is logged,
    the message element when there is one reads Error submitting feedback
    under the class [feedback-message error], and every other element,
    the buttons among them, is left as it was. *)
Theorem submitFeedback_no_reply (phoneNumber feedbackType : string)
  (w : world) (r : response) :
  Spec.no_reply r w ->
  let settled :=
    FeedbackFacts.effective_settled phoneNumber feedbackType w r in
  fst settled = Ok tt
  /\ console (snd settled) = "Feedback error:" :: console w
  /\ doc (snd settled)
     = alter (Spec.message_shown (Text "Error submitting feedback")
                "feedback-message error")
         Spec.feedback_message (doc w).
Proof.
  intros Hr. cbv zeta.
  unfold FeedbackFacts.effective_settled, Script.submitFeedback,
    Script.submitFeedback_2.
  cbn [fst snd].
  unfold Promise.catch, Promise.then_, Promise.fetch, Promise.json,
    Promise.done.
  assert (Herr : forall w0 : world,
    doc w0 = doc w -> console w0 = "Feedback error:" :: console w ->
    let out :=
      match Dom.getElementById "feedbackMessage" w0 with
      | Some messageEl =>
          (Ok tt,
           Dom.update messageEl (Dom.set_display "block")
             (Dom.update messageEl
                (Dom.set_className "feedback-message error")
                (Dom.update messageEl
                   (Dom.set_children (Text "Error submitting feedback"))
                   w0)))
      | None => (Ok tt, w0)
      end in
    fst out = Ok tt
    /\ console (snd out) = "Feedback error:" :: console w
    /\ doc (snd out)
       = alter (Spec.message_shown (Text "Error submitting feedback")
                  "feedback-message error") feedback_message (doc w)).
  { intros w0 Hdoc Hcon. cbv zeta. unfold Dom.getElementById.
    destruct (doc w0 !! (inl "feedbackMessage" : node)) eqn:E.
    - cbn [fst snd]. split; [reflexivity |]. split; [exact Hcon |].
      fold feedback_message. rewrite message_shown_updates.
      now rewrite Hdoc.
    - cbn [fst snd]. split; [reflexivity |]. split; [exact Hcon |].
      rewrite <- Hdoc. symmetry. apply map_eq. intros k.
      destruct (decide (feedback_message = k)) as [<-|Hne].
      + rewrite lookup_alter_eq. unfold feedback_message. now rewrite E.
      + now rewrite lookup_alter_ne. }
  destruct Hr as [[-> | ->] | [-> Hm]]; cbn [fst snd].
  - apply (Herr (Dom.console_log "Feedback error:" w)); reflexivity.
  - apply (Herr (Dom.console_log "Feedback error:" w)); reflexivity.
  - rewrite (getElementById_present "feedbackMessage" w Hm).
    cbn [JS.get fst snd].
    apply (Herr (Dom.console_log "Feedback error:" w)); reflexivity.
Qed.

Lemma submitFeedback_no_reply_witness :
  Spec.text_of (inl "feedbackMessage")
    (snd (FeedbackFacts.effective_settled "+14155551234" "correct"
            Spec.feedback_page (Response (Some JNull))))
  = Some "Error submitting feedback"
  /\ Spec.disabled_at (inr 1%nat)
       (snd (FeedbackFacts.effective_settled "+14155551234" "correct"
               Spec.feedback_page (Response (Some JNull))))
     = Some false.
Proof.
  assert (H : Spec.no_reply (Response (Some JNull)) Spec.feedback_page).
  { right. split; [reflexivity |]. vm_compute. eauto. }
  pose proof (submitFeedback_no_reply "+14155551234" "correct"
                Spec.feedback_page (Response (Some JNull)) H)
    as (_ & _ & Hdoc).
  unfold Spec.text_of, Spec.disabled_at. rewrite Hdoc. split.
  - reflexivity.
  - reflexivity.
Defined.

End SettledFacts.

(** ** logs.js: showDetails, closeModal and the click outside *)

Module CloseFacts.

Import DomFacts.

Lemma bind_Ok {A B} (r : result A) (f : A -> result B) b :
  bind r f = Ok b -> exists a, r = Ok a /\ f a = Ok b.
Proof. destruct r as [a|e]; [eauto | discriminate]. Qed.

(** What [showDetails] does last is to show the modal. *)
Lemma showDetails_last log w w' :
  Logs.showDetails log w = Ok w' ->
  exists w0,
    Dom.assign (Dom.getElementById "detailsModal" w0)
      (Dom.set_display "block") w0 = Ok w'.
Proof.
  unfold Logs.showDetails. intros H.
  repeat match type of H with
         | bind _ _ = Ok _ =>
             let a := fresh "a" in
             apply bind_Ok in H as (a & _ & H)
         | (let x := _ in _) = Ok _ => cbv zeta in H
         end.
  eauto.
Qed.

(** X26: when [showDetails] returns, the modal is on the page and
    displayed. [closeModal] then returns too, hides the modal and leaves
    every other element as [showDetails] left it; a click on the modal
    itself does the same, and a click on any other node changes
    nothing. *)
Theorem showDetails_then_close (log : jsval) (w w' : world) :
  Logs.showDetails log w = Ok w' ->
  display <$> doc w' !! (inl "detailsModal" : node) = Some "block"
  /\ exists closed,
       Modal.closeModal w' = Ok closed
       /\ display <$> doc closed !! (inl "detailsModal" : node) = Some "none"
       /\ (forall n : node, n <> inl "detailsModal" ->
             doc closed !! n = doc w' !! n)
       /\ Modal.onclick (inl "detailsModal") w' = closed
       /\ forall target : node, target <> inl "detailsModal" ->
            Modal.onclick target w' = w'.
Proof.
  intros (w0 & H)%showDetails_last.
  destruct (Dom.getElementById "detailsModal" w0) as [m|] eqn:Hg;
    [| discriminate].
  apply getElementById_inv in Hg as [-> [e He]].
  cbn [Dom.assign] in H. injection H as <-.
  assert (Hm : doc (Dom.update (inl "detailsModal")
                      (Dom.set_display "block") w0)
               !! (inl "detailsModal" : node)
               = Some (Dom.set_display "block" e))
    by (rewrite lookup_update_eq, He; reflexivity).
  split; [now rewrite Hm |].
  unfold Modal.closeModal, Modal.onclick.
  rewrite getElementById_present by (rewrite Hm; eauto).
  cbn [Dom.assign]. eexists. split; [reflexivity |].
  split; [| split; [| split]].
  - rewrite lookup_update_eq, Hm. reflexivity.
  - intros n Hn. apply lookup_update_ne. congruence.
  - now rewrite decide_True.
  - intros target Ht. now rewrite decide_False.
Qed.

Lemma showDetails_then_close_witness :
  exists opened,
    Logs.showDetails Spec.partial_log Spec.logs_page = Ok opened
    /\ display <$> doc opened !! (inl "detailsModal" : node) = Some "block"
    /\ Modal.onclick (inl "modalPhone") opened = opened.
Proof.
  destruct (Logs.showDetails Spec.partial_log Spec.logs_page)
    as [opened|] eqn:E; [| vm_compute in E; discriminate].
  exists opened. split; [reflexivity |].
  destruct (showDetails_then_close Spec.partial_log Spec.logs_page opened E)
    as (H1 & closed & _ & _ & _ & _ & H2).
  split; [exact H1 | apply H2; discriminate].
Defined.

End CloseFacts.
